(** * Library outreach tracker: a shallow embedding of
      [scripts/library_outreach.py] and the properties of its contact store,
      template resolver and campaign runner.

    Modelling conventions.
    - A Python [dict] is an association list in insertion order with unique
      keys; assignment updates in place or appends.
    - A CSV file is the list of records it encodes: the records that
      [csv.writer] was given, which are the records that [csv.reader]
      yields on a file opened with [newline='']; a blank line is the empty
      record. Quoting and the line ends between records are the business
      of the [csv] module and are not modelled. The line ends inside cells
      are: the script writes the store with [newline=''] and reads it
      without, so that reading translates them ([Csv.read_text]).
    - Cells are text that [csv] reads back: the error that the reader
      raises on a cell longer than its field size limit (131072
      characters), and the error of decoding a file that is not UTF-8, are
      outside the model.
    - The file system, the campaign log and the clock are threaded through
      a state-and-exception monad; an exception keeps the state reached so
      far, as a Python exception keeps the files written so far.
    - Output to the terminal ([print]) is not modelled. *)

From Stdlib Require Import String Ascii List ZArith Lia Bool Arith.
From Stdlib Require Import DecimalString.
Import ListNotations.
Local Open Scope string_scope.
Local Open Scope list_scope.

(* ------------------------------------------------------------------ *)
(** ** Python values and dictionaries *)

Module Py.

(** The values that occur in a row produced by [csv.DictReader]: a string
    cell, [None] (the [restval] of a short row) and a list of strings (the
    surplus cells of a long row, stored under the key [None]). *)
Inductive value : Type :=
| VStr (s : string)
| VNone
| VList (l : list string).

(** A key is a column name or [None] (the [restkey] of [DictReader]). *)
Definition key : Type := option string.

Definition dict : Type := list (key * value).

Definition key_eqb (a b : key) : bool :=
  match a, b with
  | Some x, Some y => String.eqb x y
  | None, None => true
  | _, _ => false
  end.

Definition list_eqb (a b : list string) : bool :=
  if list_eq_dec string_dec a b then true else false.

(** Python [==] on these values. *)
Definition value_eqb (a b : value) : bool :=
  match a, b with
  | VStr x, VStr y => String.eqb x y
  | VNone, VNone => true
  | VList x, VList y => list_eqb x y
  | _, _ => false
  end.

(** [d[k]]: [None] here stands for [KeyError]. *)
Fixpoint lookup (k : key) (d : dict) : option value :=
  match d with
  | [] => None
  | (k', v) :: rest => if key_eqb k k' then Some v else lookup k rest
  end.

(** [d.get(k, default)]. *)
Definition get_default (k : key) (default : value) (d : dict) : value :=
  match lookup k d with
  | Some v => v
  | None => default
  end.

(** [d.get(k)], whose default is [None]. *)
Definition get (k : key) (d : dict) : value := get_default k VNone d.

(** [d[k] = v]: an existing key keeps its position. *)
Fixpoint set (k : key) (v : value) (d : dict) : dict :=
  match d with
  | [] => [(k, v)]
  | (k', v') :: rest =>
      if key_eqb k k' then (k', v) :: rest else (k', v') :: set k v rest
  end.

(** [d.keys()], in insertion order. *)
Definition keys (d : dict) : list key := map fst d.

Definition mem (k : key) (ks : list key) : bool := existsb (key_eqb k) ks.

(** Truth value of an optional string argument: [None] and [''] are
    false. *)
Definition truthy (s : option string) : bool :=
  match s with
  | None => false
  | Some x => negb (String.eqb x "")
  end.

(** [x != s] for a value [x] and an optional string argument [s]. *)
Definition differs (x : value) (s : option string) : bool :=
  match s with
  | None => negb (value_eqb x VNone)
  | Some y => negb (value_eqb x (VStr y))
  end.

End Py.

(* ------------------------------------------------------------------ *)
(** ** The [csv] module at the level of records *)

Module Csv.

Import Py.

Definition record : Type := list string.
Definition file : Type := list record.

Definition CR : ascii := "013"%char.
Definition LF : ascii := "010"%char.

(** What a file opened for reading in text mode without [newline='']
    (universal newlines) gives for a text: a carriage return followed by
    a line feed becomes one line feed, and any other carriage return
    becomes a line feed. *)
Fixpoint universal_newlines (s : string) : string :=
  match s with
  | EmptyString => EmptyString
  | String c rest =>
      if Ascii.eqb c CR then
        match rest with
        | String c' rest' =>
            if Ascii.eqb c' LF then String LF (universal_newlines rest')
            else String LF (universal_newlines rest)
        | EmptyString => String LF EmptyString
        end
      else String c (universal_newlines rest)
  end.

(** The records that [csv.reader] yields on a file opened in that mode:
    the line ends inside the cells, which are quoted on disk, are
    translated as the rest of the text is. *)
Definition read_text (f : file) : file := map (map universal_newlines) f.

(** A text without a carriage return. *)
Fixpoint plain (s : string) : bool :=
  match s with
  | EmptyString => true
  | String c rest => negb (Ascii.eqb c CR) && plain rest
  end.

Definition is_blank (r : record) : bool :=
  match r with [] => true | _ => false end.

(** [dict(zip(fieldnames, row))] followed by the [restkey]/[restval]
    handling of [DictReader.__next__]. *)
Definition make_row (fieldnames : record) (row : record) : dict :=
  let d := fold_left (fun d kv => set (Some (fst kv)) (VStr (snd kv)) d)
                     (combine fieldnames row) [] in
  let lf := List.length fieldnames in
  let lr := List.length row in
  if Nat.ltb lf lr then set None (VList (skipn lf row)) d
  else if Nat.ltb lr lf then
    fold_left (fun d k => set (Some k) VNone d) (skipn lr fieldnames) d
  else d.

(** [list(csv.DictReader(f))]: the first record is the header, blank
    records after it are skipped. *)
Definition DictReader (f : file) : list dict :=
  match f with
  | [] => []
  | fieldnames :: rest =>
      map (make_row fieldnames) (filter (fun r => negb (is_blank r)) rest)
  end.

Section Writer.

(** Python's [str] of a list of strings, which [csv.writer] applies to a
    cell that is a list. *)
Variable py_str : list string -> string.

(** What [csv.writer] writes for a cell. *)
Definition cell (v : value) : string :=
  match v with
  | VStr s => s
  | VNone => ""
  | VList l => py_str l
  end.

Definition key_cell (k : key) : string :=
  match k with
  | Some s => s
  | None => ""
  end.

(** [DictWriter._dict_to_list] with [extrasaction='raise'] and
    [restval='']: [None] here stands for [ValueError]. *)
Definition dict_to_list (fieldnames : list key) (rowdict : dict)
  : option record :=
  if existsb (fun k => negb (mem k fieldnames)) (keys rowdict) then None
  else Some (map (fun k => cell (get_default k (VStr "") rowdict)) fieldnames).

(** [DictWriter.writerows]: the rows before the first offending one are
    written; the flag tells whether all of them were. *)
Fixpoint writerows (fieldnames : list key) (rows : list dict)
  : list record * bool :=
  match rows with
  | [] => ([], true)
  | r :: rest =>
      match dict_to_list fieldnames r with
      | None => ([], false)
      | Some rec =>
          let (written, ok) := writerows fieldnames rest in
          (rec :: written, ok)
      end
  end.

(** The body of
    [if rows: w = DictWriter(f, fieldnames=rows[0].keys()); w.writeheader();
    w.writerows(rows)] on a file just opened for writing. *)
Definition write_dicts (rows : list dict) : file * bool :=
  match rows with
  | [] => ([], true)
  | first :: _ =>
      let fieldnames := keys first in
      let (written, ok) := writerows fieldnames rows in
      (map key_cell fieldnames :: written, ok)
  end.

End Writer.

End Csv.

(* ------------------------------------------------------------------ *)
(** ** Dates *)

Module Datetime.

Record datetime : Type := mkDatetime {
  year : nat; month : nat; day : nat;
  hour : nat; minute : nat; second : nat; microsecond : nat }.

Definition digits (n : nat) : string :=
  NilEmpty.string_of_uint (Nat.to_uint n).

Fixpoint zeros (n : nat) : string :=
  match n with
  | O => ""
  | S m => String "0" (zeros m)
  end.

(** [n] in decimal, padded with zeros on the left to [width] digits. *)
Definition zfill (width n : nat) : string :=
  let s := digits n in
  zeros (width - String.length s) ++ s.

(** [strftime('%Y-%m-%d')], for the four-digit years that
    [datetime.now()] gives. *)
Definition strftime_Ymd (t : datetime) : string :=
  zfill 4 (year t) ++ "-" ++ zfill 2 (month t) ++ "-" ++ zfill 2 (day t).

(** [strftime('%Y%m%d_%H%M%S')]. *)
Definition strftime_stamp (t : datetime) : string :=
  zfill 4 (year t) ++ zfill 2 (month t) ++ zfill 2 (day t) ++ "_" ++
  zfill 2 (hour t) ++ zfill 2 (minute t) ++ zfill 2 (second t).

(** [isoformat()]: the microseconds are printed only when not zero. *)
Definition isoformat (t : datetime) : string :=
  zfill 4 (year t) ++ "-" ++ zfill 2 (month t) ++ "-" ++ zfill 2 (day t) ++
  "T" ++ zfill 2 (hour t) ++ ":" ++ zfill 2 (minute t) ++ ":" ++
  zfill 2 (second t) ++
  match microsecond t with
  | O => ""
  | us => "." ++ zfill 6 us
  end.

End Datetime.

(* ------------------------------------------------------------------ *)
(** ** The world of the script: its files and the clock *)

Import Py.

(** What [batch_outreach] stores in the campaign log for one run. *)
Record campaign : Type := mkCampaign {
  c_id : string;
  c_fecha : string;
  c_region : option string;
  c_idioma : option string;
  c_total_enviados : nat;
  c_modo : string;
  c_resultados : list dict }.

(** [libraries_db] and [campaigns_db] are [None] while the file does not
    exist; [reports] lists the files of the reports directory by name;
    [ticks] counts the calls of [datetime.now()] made so far. The campaign
    log holds a JSON array, modelled as the list it encodes. *)
Record world : Type := mkWorld {
  libraries_db : option Csv.file;
  campaigns_db : option (list campaign);
  reports : list (string * Csv.file);
  ticks : nat }.

Definition set_libraries_db (f : option Csv.file) (w : world) : world :=
  mkWorld f (campaigns_db w) (reports w) (ticks w).

Definition set_campaigns_db (c : option (list campaign)) (w : world) : world :=
  mkWorld (libraries_db w) c (reports w) (ticks w).

Definition set_reports (r : list (string * Csv.file)) (w : world) : world :=
  mkWorld (libraries_db w) (campaigns_db w) r (ticks w).

Definition tick (w : world) : world :=
  mkWorld (libraries_db w) (campaigns_db w) (reports w) (S (ticks w)).

Inductive exn : Type :=
| FileNotFoundError
| KeyError (k : string)
| ValueError
| TypeError.

Inductive result (A : Type) : Type :=
| Ok (a : A)
| Raise (e : exn).

Arguments Ok {A} a.
Arguments Raise {A} e.

(** A computation runs from a world to a world and a value or an
    exception. *)
Definition M (A : Type) : Type := world -> world * result A.

Definition ret {A : Type} (a : A) : M A := fun w => (w, Ok a).

Definition bind {A B : Type} (m : M A) (k : A -> M B) : M B :=
  fun w =>
    match m w with
    | (w', Ok a) => k a w'
    | (w', Raise e) => (w', Raise e)
    end.

Definition raise {A : Type} (e : exn) : M A := fun w => (w, Raise e).

(** [try: m except Exception: h]. *)
Definition catch {A : Type} (m : M A) (h : exn -> M A) : M A :=
  fun w =>
    match m w with
    | (w', Ok a) => (w', Ok a)
    | (w', Raise e) => h e w'
    end.

Definition gets {A : Type} (f : world -> A) : M A := fun w => (w, Ok (f w)).

Definition modify (f : world -> world) : M unit := fun w => (f w, Ok tt).

Declare Scope outreach_scope.
Delimit Scope outreach_scope with outreach.

Notation "x <- m ;; k" := (bind m (fun x => k))
  (at level 100, m at next level, right associativity) : outreach_scope.
Notation "m ;; k" := (bind m (fun _ => k))
  (at level 100, right associativity) : outreach_scope.

Local Open Scope outreach_scope.

(** [d[k]] for a column name [k]. *)
Definition subscript (d : dict) (k : string) : M value :=
  match lookup (Some k) d with
  | Some v => ret v
  | None => raise (KeyError k)
  end.

(** [open(self.libraries_db, 'r', encoding='utf-8')] read through [csv]:
    the file is opened without [newline=''], so that the records come
    with their line ends translated. The reader's refusal of a cell
    longer than its field size limit is outside the model (see the
    conventions above): every record is read. *)
Definition read_libraries_db : M Csv.file :=
  fun w =>
    match libraries_db w with
    | Some f => (w, Ok (Csv.read_text f))
    | None => (w, Raise FileNotFoundError)
    end.

(** [open(self.libraries_db, 'w', newline='', encoding='utf-8')] written
    through [csv]: the cells go to the file as they are. *)
Definition write_libraries_db (f : Csv.file) : M unit :=
  modify (set_libraries_db (Some f)).

(** Writing a file of the reports directory: an existing file of that
    name is replaced. *)
Fixpoint put_file (name : string) (content : Csv.file)
  (dir : list (string * Csv.file)) : list (string * Csv.file) :=
  match dir with
  | [] => [(name, content)]
  | (n, c) :: rest =>
      if String.eqb name n then (n, content) :: rest
      else (n, c) :: put_file name content rest
  end.

Definition write_report (name : string) (content : Csv.file) : M unit :=
  modify (fun w => set_reports (put_file name content (reports w)) w).

(* ------------------------------------------------------------------ *)
(** ** The e-mail templates *)

Definition dq : string := String (ascii_of_nat 34) EmptyString.

Definition subject_ES : string :=
  "Nuevo Catálogo de Autor Español - Francisco Angulo de Lafuente - Disponible para Bibliotecas".

Definition body_ES : string :=
  "Estimado/a {nombre},

Mi nombre es [Agent Name], representante literario de Francisco Angulo de Lafuente, autor español con más de 55 obras publicadas en múltiples idiomas.

Me pongo en contacto para informarle que el catálogo del autor está disponible para adquisición bibliotecaria a través de las principales plataformas de distribución.

**SOBRE EL AUTOR:**
Francisco Angulo de Lafuente (Madrid, 1976) es un autor versátil cuyas obras abarcan desde ciencia ficción y thrillers de espionaje hasta literatura infantil ilustrada y guías para escritores. Aficionado al cine de fantasía y la literatura, es seguidor de Isaac Asimov y Stephen King.

**CATÁLOGO DESTACADO:**

📚 **Para Adultos:**
• " ++ dq ++
  "ApocalypsAI: The Day After AGI" ++ dq ++
  " - Ciencia ficción sobre inteligencia artificial
• " ++ dq ++
  "Comandante Valentina Smirnova" ++ dq ++
  " - Serie thriller de espionaje internacional
• " ++ dq ++
  "Things you shouldn't do if you want to be a writer" ++ dq ++
  " - Guía esencial para escritores
• " ++ dq ++
  "Eco-fuel-FA (ECOFA)" ++ dq ++
  " - Sostenibilidad y soluciones energéticas

📖 **Para Jóvenes y Niños:**
• " ++ dq ++
  "La Invasión de las Medusas Mutantes" ++ dq ++
  " - Novela ilustrada de aventuras
• " ++ dq ++
  "Company Nº12" ++ dq ++
  " - Aventuras juveniles (disponible en francés)

🌍 **IDIOMAS DISPONIBLES:**
• Español (principal)
• Inglés
• Francés
• Italiano
• Portugués
• Japonés

**PLATAFORMAS DE DISTRIBUCIÓN:**
✓ OverDrive / Libby
✓ hoopla Digital
✓ cloudLibrary (Bibliotheca)
✓ Odilo
✓ EBSCOhost
✓ Mackin (para escuelas)

Todos los títulos están disponibles en formato ebook y muchos también en audiolibro y edición impresa.

**PARA ADQUIRIR:**
Puede adquirir los títulos a través de su distribuidor habitual o contactarme directamente para obtener información adicional sobre precios institucionales y licencias.

Adjunto encontrará el catálogo completo con ISBNs, descripciones y metadatos BISAC.

Quedo a su disposición para cualquier consulta o para programar una presentación virtual del autor para sus usuarios.

Un saludo cordial,

[Nombre del Agente]
Literary Agent - Francisco Angulo de Lafuente
Email: agent@franciscoangulo.com
Web: www.franciscoangulo.com

---

P.D.: Ofrecemos descuentos especiales para compras de colecciones completas y estamos abiertos a participar en programas de lectura de su biblioteca.".

Definition subject_EN : string :=
  "New Spanish Author Catalog - Francisco Angulo de Lafuente - Available for Library Acquisition".

Definition body_EN : string :=
  "Dear {nombre},

My name is [Agent Name], literary agent for Francisco Angulo de Lafuente, a Spanish author with over 55 published works in multiple languages.

I am writing to inform you that the author's catalog is available for library acquisition through major distribution platforms.

**ABOUT THE AUTHOR:**
Francisco Angulo de Lafuente (Madrid, 1976) is a versatile author whose works span from science fiction and spy thrillers to illustrated children's literature and writing guides. A fan of fantasy cinema and literature, he follows Isaac Asimov and Stephen King.

**FEATURED TITLES:**

📚 **For Adults:**
• " ++ dq ++
  "ApocalypsAI: The Day After AGI" ++ dq ++
  " - Science fiction about artificial intelligence
• " ++ dq ++
  "Commander Valentina Smirnova" ++ dq ++
  " - International spy thriller series
• " ++ dq ++
  "Things you shouldn't do if you want to be a writer" ++ dq ++
  " - Essential guide for writers
• " ++ dq ++
  "Eco-fuel-FA (ECOFA)" ++ dq ++
  " - Sustainability and energy solutions

📖 **For Young Readers:**
• " ++ dq ++
  "The Mutant Jellyfish Invasion" ++ dq ++
  " - Illustrated adventure novel
• " ++ dq ++
  "Company Nº12" ++ dq ++
  " - Youth adventures (available in French)

🌍 **LANGUAGES AVAILABLE:**
• Spanish (primary)
• English
• French
• Italian
• Portuguese
• Japanese

**DISTRIBUTION PLATFORMS:**
✓ OverDrive / Libby
✓ hoopla Digital
✓ cloudLibrary (Bibliotheca)
✓ Odilo
✓ EBSCOhost
✓ Mackin (for schools)

All titles are available in ebook format, with many also in audiobook and print editions.

**TO ACQUIRE:**
You can purchase titles through your regular distributor or contact me directly for institutional pricing and licensing information.

Attached you will find the complete catalog with ISBNs, descriptions, and BISAC metadata.

I remain at your disposal for any questions or to schedule a virtual author presentation for your patrons.

Best regards,

[Agent Name]
Literary Agent - Francisco Angulo de Lafuente
Email: agent@franciscoangulo.com
Web: www.franciscoangulo.com

---

P.S.: We offer special discounts for complete collection purchases and are open to participating in your library's reading programs.".

Definition subject_FR : string :=
  "Nouveau Catalogue d'Auteur Espagnol - Francisco Angulo de Lafuente - Disponible pour les Bibliothèques".

Definition body_FR : string :=
  "Cher/Chère {nombre},

Je m'appelle [Agent Name], agent littéraire de Francisco Angulo de Lafuente, auteur espagnol avec plus de 55 œuvres publiées en plusieurs langues.

Je vous contacte pour vous informer que le catalogue de l'auteur est disponible pour l'acquisition bibliothécaire via les principales plateformes de distribution.

**CATÉGORIES PRINCIPALES:**
• Science-fiction sur l'intelligence artificielle
• Thriller d'espionnage international
• Littérature jeunesse illustrée
• Guides d'écriture

**LANGUES DISPONIBLES:**
Espagnol, Anglais, Français, Italien, Portugais, Japonais

**PLATEFORMES:**
OverDrive/Libby, hoopla, cloudLibrary, Odilo, EBSCOhost

Cordialement,
[Agent Name]
Agent Littéraire - Francisco Angulo de Lafuente".

Record email_template : Type := mkTemplate {
  t_subject : string;
  t_body : string }.

Definition template_ES : email_template := mkTemplate subject_ES body_ES.
Definition template_EN : email_template := mkTemplate subject_EN body_EN.
Definition template_FR : email_template := mkTemplate subject_FR body_FR.

(** [self.templates]. *)
Definition templates : list (string * email_template) :=
  [("ES", template_ES); ("EN", template_EN); ("FR", template_FR)].

(** [self.templates.get(language, default)]: [None] is a key that finds
    nothing; a list cannot be a key at all and raises [TypeError]. *)
Definition templates_get (language : value) (default : email_template)
  : result email_template :=
  match language with
  | VStr code =>
      match find (fun kv => String.eqb code (fst kv)) templates with
      | Some kv => Ok (snd kv)
      | None => Ok default
      end
  | VNone => Ok default
  | VList _ => Raise TypeError
  end.

(** [body.format(nombre=v)] where [v] is already the text of the value.
    [field] is [None] in plain text and holds the field name read so far
    inside braces. A doubled brace is a literal brace. The templates use
    the plain field [{nombre}] only; conversions and format
    specifications are not modelled, and any other field name is
    reported as a [KeyError]. *)
Fixpoint format_from (field : option string) (s : string) (nombre : string)
  : result string :=
  match field, s with
  | None, EmptyString => Ok EmptyString
  | None, String c rest =>
      if Ascii.eqb c "{" then
        match rest with
        | String c' rest' =>
            if Ascii.eqb c' "{" then
              match format_from None rest' nombre with
              | Ok out => Ok (String "{" out)
              | Raise e => Raise e
              end
            else format_from (Some EmptyString) rest nombre
        | EmptyString => Raise ValueError
        end
      else if Ascii.eqb c "}" then
        match rest with
        | String c' rest' =>
            if Ascii.eqb c' "}" then
              match format_from None rest' nombre with
              | Ok out => Ok (String "}" out)
              | Raise e => Raise e
              end
            else Raise ValueError
        | EmptyString => Raise ValueError
        end
      else
        match format_from None rest nombre with
        | Ok out => Ok (String c out)
        | Raise e => Raise e
        end
  | Some name, EmptyString => Raise ValueError
  | Some name, String c rest =>
      if Ascii.eqb c "}" then
        if String.eqb name "nombre" then
          match format_from None rest nombre with
          | Ok out => Ok (String.append nombre out)
          | Raise e => Raise e
          end
        else Raise (KeyError name)
      else format_from (Some (String.append name (String c EmptyString))) rest nombre
  end.

Definition format (s : string) (nombre : string) : result string :=
  format_from None s nombre.

(** The seed rows of [create_library_template], header first. *)
Definition template : Csv.file :=
  [
    ["nombre"; "email"; "ciudad"; "pais"; "region"; "tipo"; "idioma_preferido"; "contactado"; "fecha_contacto"; "respuesta"; "notas"];
    ["Biblioteca Nacional de España"; "contacto@bne.es"; "Madrid"; "España"; "Europa"; "Nacional"; "ES"; "No"; ""; ""; ""];
    ["Biblioteca Pública Municipal de Madrid"; "bibliotecas@madrid.es"; "Madrid"; "España"; "España"; "Publica"; "ES"; "No"; ""; ""; ""];
    ["Biblioteca de Catalunya"; "biblioteca@bc.cat"; "Barcelona"; "España"; "España"; "Nacional"; "ES"; "No"; ""; ""; ""];
    ["Biblioteca Pública de Andalucía"; "biblioteca@juntadeandalucia.es"; "Sevilla"; "España"; "España"; "Publica"; "ES"; "No"; ""; ""; ""];
    ["Biblioteca Nacional de México"; "contacto@bnm.unam.mx"; "Ciudad de México"; "México"; "Latinoamérica"; "Nacional"; "ES"; "No"; ""; ""; ""];
    ["Biblioteca Nacional de Argentina"; "info@bn.gov.ar"; "Buenos Aires"; "Argentina"; "Latinoamérica"; "Nacional"; "ES"; "No"; ""; ""; ""];
    ["Biblioteca Nacional de Colombia"; "contacto@bn.gov.co"; "Bogotá"; "Colombia"; "Latinoamérica"; "Nacional"; "ES"; "No"; ""; ""; ""];
    ["Biblioteca de Santiago"; "biblioteca@santiago.cl"; "Santiago"; "Chile"; "Latinoamérica"; "Publica"; "ES"; "No"; ""; ""; ""];
    ["New York Public Library"; "acquisitions@nypl.org"; "New York"; "USA"; "Norte America"; "Publica"; "EN"; "No"; ""; ""; ""];
    ["Los Angeles Public Library"; "collections@lapl.org"; "Los Angeles"; "USA"; "Norte America"; "Publica"; "EN"; "No"; ""; ""; ""];
    ["Miami-Dade Public Library"; "acquisitions@mdpls.org"; "Miami"; "USA"; "Norte America"; "Publica"; "ES"; "No"; ""; ""; "Hispanic community"];
    ["Houston Public Library"; "collections@houstontx.gov"; "Houston"; "USA"; "Norte America"; "Publica"; "EN"; "No"; ""; ""; ""];
    ["British Library"; "acquisitions@bl.uk"; "London"; "UK"; "Europa"; "Nacional"; "EN"; "No"; ""; ""; ""];
    ["London Public Library"; "info@londonlibrary.co.uk"; "London"; "UK"; "Europa"; "Publica"; "EN"; "No"; ""; ""; ""];
    ["Bibliothèque Nationale de France"; "contact@bnf.fr"; "Paris"; "Francia"; "Europa"; "Nacional"; "FR"; "No"; ""; ""; ""];
    ["Bibliothèque Publique de Paris"; "bibliotheque@paris.fr"; "Paris"; "Francia"; "Europa"; "Publica"; "FR"; "No"; ""; ""; ""];
    ["Biblioteca Nazionale Centrale di Roma"; "bncrm@beniculturali.it"; "Roma"; "Italia"; "Europa"; "Nacional"; "IT"; "No"; ""; ""; ""];
    ["Biblioteca Nazionale di Milano"; "bnm@beniculturali.it"; "Milán"; "Italia"; "Europa"; "Nacional"; "IT"; "No"; ""; ""; ""];
    ["Toronto Public Library"; "collections@tpl.ca"; "Toronto"; "Canadá"; "Norte America"; "Publica"; "EN"; "No"; ""; ""; ""];
    ["Vancouver Public Library"; "info@vpl.ca"; "Vancouver"; "Canadá"; "Norte America"; "Publica"; "EN"; "No"; ""; ""; ""]
  ].

(* ------------------------------------------------------------------ *)
(** ** [class LibraryOutreach] *)

Section LibraryOutreach.

(** The reading of the wall clock at the n-th call of [datetime.now()]. *)
Variable clock : nat -> Datetime.datetime.

(** Python's [str] of a list of strings (see [Csv.cell]). *)
Variable py_str : list string -> string.

Definition now : M Datetime.datetime :=
  fun w => (tick w, Ok (clock (ticks w))).

(** [str(v)], as [format] prints a value. *)
Definition to_str (v : value) : string :=
  match v with
  | VStr s => s
  | VNone => "None"
  | VList l => py_str l
  end.

(** [create_library_template]: writes the seed table unless the file
    exists. *)
Definition create_library_template : M unit :=
  present <- gets (fun w => match libraries_db w with
                            | Some _ => true
                            | None => false
                            end) ;;
  if present then ret tt
  else write_libraries_db template.

(** The [for row in reader] loop of [load_libraries]; [libraries] is the
    list built so far. *)
Fixpoint load_loop (region language : option string) (only_new : bool)
  (reader : list dict) (libraries : list dict) : list dict :=
  match reader with
  | [] => libraries
  | row :: rest =>
      if truthy region && differs (get (Some "region") row) region
      then load_loop region language only_new rest libraries
      else if truthy language &&
              differs (get (Some "idioma_preferido") row) language
      then load_loop region language only_new rest libraries
      else if only_new &&
              value_eqb (get (Some "contactado") row) (VStr "Si")
      then load_loop region language only_new rest libraries
      else load_loop region language only_new rest (libraries ++ [row])
  end.

Definition load_libraries (region language : option string)
  (only_new : bool) : M (list dict) :=
  create_library_template ;;
  catch
    (f <- read_libraries_db ;;
     ret (load_loop region language only_new (Csv.DictReader f) []))
    (fun _ => ret []).

Record email_data : Type := mkEmail {
  e_subject : string;
  e_body : string;
  e_language : value }.

Definition generate_email (library : dict) (language : option string)
  : M email_data :=
  let language :=
    match language with
    | Some l => if truthy (Some l) then VStr l
                else get_default (Some "idioma_preferido") (VStr "ES") library
    | None => get_default (Some "idioma_preferido") (VStr "ES") library
    end in
  match templates_get language template_ES with
  | Raise e => raise e
  | Ok template =>
      let nombre :=
        get_default (Some "nombre") (VStr "Bibliotecario/a") library in
      match format (t_body template) (to_str nombre) with
      | Ok email_body =>
          ret (mkEmail (t_subject template) email_body language)
      | Raise e => raise e
      end
  end.

(** The four assignments of [track_contact] to the row found. *)
Definition mark (today status notes : string) (lib : dict) : dict :=
  set (Some "notas") (VStr notes)
    (set (Some "respuesta") (VStr status)
      (set (Some "fecha_contacto") (VStr today)
        (set (Some "contactado") (VStr "Si") lib))).

(** The [for lib in libraries] loop of [track_contact], which stops at
    the first row whose e-mail is the given one. *)
Fixpoint track_loop (library_email : value) (status notes : string)
  (libraries : list dict) : M (list dict) :=
  match libraries with
  | [] => ret []
  | lib :: rest =>
      e <- subscript lib "email" ;;
      if value_eqb e library_email then
        t <- now ;;
        ret (mark (Datetime.strftime_Ymd t) status notes lib :: rest)
      else
        rest' <- track_loop library_email status notes rest ;;
        ret (lib :: rest')
  end.

(** [track_contact]: the file is opened for writing, hence emptied,
    before the test [if libraries]. *)
Definition track_contact (library_email : value) (status notes : string)
  : M unit :=
  f <- read_libraries_db ;;
  libraries <- track_loop library_email status notes (Csv.DictReader f) ;;
  let (written, ok) := Csv.write_dicts py_str libraries in
  write_libraries_db written ;;
  if ok then ret tt else raise ValueError.

Definition save_campaign (campaign_data : campaign) : M unit :=
  campaigns <- gets (fun w => match campaigns_db w with
                              | Some c => c
                              | None => []
                              end) ;;
  modify (set_campaigns_db (Some (campaigns ++ [campaign_data]))).

(** The result of [batch_outreach], a dictionary whose [status] entry is
    one of two strings. *)
Inductive batch_result : Type :=
| NoLibraries (message : string)
| Success (total_enviados : nat) (report_file : string)
          (campaign_data : campaign).

Definition status (r : batch_result) : string :=
  match r with
  | NoLibraries _ => "no_libraries"
  | Success _ _ _ => "success"
  end.

(** [libraries[:max_emails]]; a negative bound counts from the end. *)
Definition slice_to (max_emails : Z) (libraries : list dict) : list dict :=
  if (0 <=? max_emails)%Z then firstn (Z.to_nat max_emails) libraries
  else firstn (List.length libraries - Z.to_nat (- max_emails)) libraries.

(** The [for i, library in enumerate(...)] loop of [batch_outreach]. *)
Fixpoint outreach_loop (language : option string) (dry_run : bool)
  (libraries : list dict) (campaign_results : list dict) : M (list dict) :=
  match libraries with
  | [] => ret campaign_results
  | library :: rest =>
      email_data <- generate_email library language ;;
      nombre <- subscript library "nombre" ;;
      email <- subscript library "email" ;;
      ciudad <- subscript library "ciudad" ;;
      pais <- subscript library "pais" ;;
      t <- now ;;
      let result : dict :=
        [ (Some "biblioteca", nombre);
          (Some "email", email);
          (Some "ciudad", ciudad);
          (Some "pais", pais);
          (Some "idioma", e_language email_data);
          (Some "asunto", VStr (e_subject email_data));
          (Some "estado", VStr (if dry_run then "simulado" else "enviado"));
          (Some "fecha", VStr (Datetime.isoformat t)) ] in
      (if dry_run then ret tt
       else (to <- subscript library "email" ;;
             track_contact to "enviado" "")) ;;
      outreach_loop language dry_run rest (campaign_results ++ [result])
  end.

Definition batch_outreach (region language : option string)
  (max_emails : Z) (dry_run : bool) : M batch_result :=
  libraries <- load_libraries region language true ;;
  match libraries with
  | [] =>
      ret (NoLibraries
             "No hay bibliotecas disponibles con los filtros seleccionados")
  | _ :: _ =>
      campaign_results <-
        outreach_loop language dry_run (slice_to max_emails libraries) [] ;;
      t_id <- now ;;
      t_fecha <- now ;;
      let campaign_data :=
        mkCampaign (Datetime.strftime_stamp t_id) (Datetime.isoformat t_fecha)
                   region language (List.length campaign_results)
                   (if dry_run then "simulacion" else "real")
                   campaign_results in
      save_campaign campaign_data ;;
      t_file <- now ;;
      let report_file :=
        ("library_campaign_" ++ Datetime.strftime_stamp t_file ++ ".csv")%string in
      let (written, ok) := Csv.write_dicts py_str campaign_results in
      write_report report_file written ;;
      (if ok then ret tt else raise ValueError) ;;
      ret (Success (List.length campaign_results) report_file campaign_data)
  end.

End LibraryOutreach.

(* ------------------------------------------------------------------ *)
(** ** [class LibraryOutreach], continued: statistics and the script *)

(** A dictionary of counters, in insertion order. *)
Definition counters : Type := list (string * nat).

(** [d.get(k, 0)]. *)
Fixpoint counter_get (k : string) (d : counters) : nat :=
  match d with
  | [] => 0
  | (k', n) :: rest => if String.eqb k k' then n else counter_get k rest
  end.

(** [d[k] = n]. *)
Fixpoint counter_set (k : string) (n : nat) (d : counters) : counters :=
  match d with
  | [] => [(k, n)]
  | (k', n') :: rest =>
      if String.eqb k k' then (k', n) :: rest
      else (k', n') :: counter_set k n rest
  end.

(** [d[k] = d.get(k, 0) + 1]. *)
Definition counter_bump (k : string) (d : counters) : counters :=
  counter_set k (counter_get k d + 1) d.

(** [x or default] for an entry of a campaign that is [null] or a
    string. *)
Definition or_default (x : option string) (default : string) : string :=
  match x with
  | Some s => if String.eqb s "" then default else s
  | None => default
  end.

(** The result of [get_campaign_stats]: a dictionary with the one entry
    [message], or the four entries of the statistics. *)
Inductive stats_result : Type :=
| NoCampaigns (message : string)
| Stats (total_campañas : nat) (total_emails_enviados : nat)
        (campañas_por_region : counters) (campañas_por_idioma : counters).

(** One turn of the loop of [get_campaign_stats] on the two dictionaries
    of counters. *)
Definition count_campaign (stats : counters * counters) (c : campaign)
  : counters * counters :=
  let region := or_default (c_region c) "Todas" in
  let idioma := or_default (c_idioma c) "Auto" in
  (counter_bump region (fst stats), counter_bump idioma (snd stats)).

(** [get_campaign_stats]. Every campaign of the log has its [region] and
    [idioma] entries, so that the defaults of [c.get] are never used. *)
Definition get_campaign_stats : M stats_result :=
  fun w =>
    match campaigns_db w with
    | None => (w, Ok (NoCampaigns "No hay campañas registradas"))
    | Some campaigns =>
        let total_enviados :=
          fold_left (fun acc c => acc + c_total_enviados c) campaigns 0 in
        let stats := fold_left count_campaign campaigns ([], []) in
        (w, Ok (Stats (List.length campaigns) total_enviados
                      (fst stats) (snd stats)))
    end.

Section Script.

Variable clock : nat -> Datetime.datetime.
Variable py_str : list string -> string.

(** The script under [if __name__ == "__main__"], without its output
    (the constructor it calls first only creates directories): the
    statistics are read, a dry run to the region ['España'] is made, and
    the entries [total_enviados] and [report_file] of its result are
    read, which the result of a run without Contacts does not have. *)
Definition main : M unit :=
  stats <- get_campaign_stats ;;
  result <- batch_outreach clock py_str (Some "España") None 5 true ;;
  match result with
  | Success _ _ _ => ret tt
  | NoLibraries _ => raise (KeyError "total_enviados")
  end.

End Script.

(* ------------------------------------------------------------------ *)
(** ** Notions used to state the properties *)

Module Store.

(** The columns that [track_contact] reads or assigns. *)
Definition required_columns : list string :=
  ["email"; "contactado"; "fecha_contacto"; "respuesta"; "notas"].

Fixpoint distinct (l : list string) : bool :=
  match l with
  | [] => true
  | x :: rest => negb (existsb (String.eqb x) rest) && distinct rest
  end.

(** A store file in its documented format: a header of distinct column
    names without carriage returns, among them the required ones, and
    rows with one cell per column. *)
Definition well_formed (f : Csv.file) : bool :=
  match f with
  | [] => false
  | header :: rows =>
      distinct header && forallb Csv.plain header &&
      forallb (fun c => existsb (String.eqb c) header) required_columns &&
      forallb (fun r => Nat.eqb (List.length r) (List.length header)) rows
  end.

(** A table with an e-mail column: a header of distinct column names,
    [email] among them, and rows with one cell per column. *)
Definition tabular (f : Csv.file) : bool :=
  match f with
  | [] => false
  | header :: rows =>
      distinct header && existsb (String.eqb "email") header &&
      forallb (fun r => Nat.eqb (List.length r) (List.length header)) rows
  end.

(** No cell of the file, header included, has a carriage return. *)
Definition plain_cells (f : Csv.file) : bool :=
  forallb (forallb Csv.plain) f.

(** The columns that the loop of [batch_outreach] reads. *)
Definition runner_columns : list string :=
  ["nombre"; "email"; "ciudad"; "pais"].

(** A dictionary with an entry for each of these columns. *)
Definition has_runner_columns (lib : dict) : bool :=
  forallb (fun c => match lookup (Some c) lib with
                    | Some _ => true
                    | None => false
                    end) runner_columns.

Definition is_list (v : value) : bool :=
  match v with
  | VList _ => true
  | _ => false
  end.

(** A Contact that the loop of [batch_outreach] can process: it has the
    columns, and its preferred language is no list. *)
Definition runnable (lib : dict) : bool :=
  has_runner_columns lib &&
  negb (is_list (get_default (Some "idioma_preferido") (VStr "ES") lib)).

(** The keys of an outcome entry of [batch_outreach], in order. *)
Definition outcome_keys : list key :=
  map Some ["biblioteca"; "email"; "ciudad"; "pais"; "idioma"; "asunto";
            "estado"; "fecha"].

(** The rows below the header. *)
Definition data_rows (f : Csv.file) : list Csv.record := tl f.

(** The rows of a store file with their cells as they are stored. *)
Definition stored (f : Csv.file) : list dict := Csv.DictReader f.

(** The Contacts of a store file, as the script reads them: with the
    line ends of the cells translated. *)
Definition contacts (f : Csv.file) : list dict :=
  Csv.DictReader (Csv.read_text f).

(** A value, and a row, after the translation of line ends. *)
Definition translated_value (v : value) : value :=
  match v with
  | VStr s => VStr (Csv.universal_newlines s)
  | _ => v
  end.

Definition translated (d : dict) : dict :=
  map (fun kv => (fst kv, translated_value (snd kv))) d.

(** The row that [DictReader] builds for a record of the header's
    length. *)
Definition row_of (header : Csv.record) (r : Csv.record) : dict :=
  combine (map Some header) (map VStr r).

(** A dictionary that is such a row. *)
Definition is_row (header : Csv.record) (d : dict) : Prop :=
  exists r, List.length r = List.length header /\ d = row_of header r.

(** [lib['email'] == e] for a row that has the column. *)
Definition has_email (e : value) (lib : dict) : bool :=
  match lookup (Some "email") lib with
  | Some v => value_eqb v e
  | None => false
  end.

(** The rows after marking the first one whose e-mail is [e]. *)
Fixpoint mark_first (today : string) (e : value) (status notes : string)
  (libraries : list dict) : list dict :=
  match libraries with
  | [] => []
  | lib :: rest =>
      if has_email e lib then mark today status notes lib :: rest
      else lib :: mark_first today e status notes rest
  end.

(** A Contact counts as contacted when its [contactado] cell is ['Si']. *)
Definition contacted (c : dict) : bool :=
  value_eqb (get (Some "contactado") c) (VStr "Si").

(** Exact match of a column against a filter; no filter matches all. *)
Definition field_matches (column : string) (wanted : option string)
  (c : dict) : bool :=
  match wanted with
  | None => true
  | Some x => value_eqb (get (Some column) c) (VStr x)
  end.

(** A Contact passes the filters: all of them, conjunctively. *)
Definition passes (region language : option string)
  (excludeContacted : bool) (c : dict) : bool :=
  field_matches "region" region c &&
  field_matches "idioma_preferido" language c &&
  (negb excludeContacted || negb (contacted c)).

(** [load] as the specification words it: every supplied filter is
    matched exactly. *)
Definition load_as_stated (region language : option string)
  (excludeContacted : bool) (store : list dict) : list dict :=
  filter (passes region language excludeContacted) store.

(** A filter that is the empty string counts as not supplied. *)
Definition supplied (s : option string) : option string :=
  if truthy s then s else None.

(** The template [generate_email] picks for a language that is no list:
    the one of that code, else the Spanish one. *)
Definition template_for (language : value) : email_template :=
  match templates_get language template_ES with
  | Ok t => t
  | Raise _ => template_ES
  end.

(** The store file exists, is well-formed and has a data row. *)
Definition store_ready (w : world) : Prop :=
  exists f, libraries_db w = Some f /\ well_formed f = true /\
            data_rows f <> [].

(** The language [generate_email] settles on: the argument when it is a
    non-empty string, else the Contact's preferred language, else ['ES']. *)
Definition resolved_language (library : dict) (language : option string)
  : value :=
  match supplied language with
  | Some l => VStr l
  | None => get_default (Some "idioma_preferido") (VStr "ES") library
  end.

End Store.

(** Notions about the templates and the files of the runner. *)
Module Text.

Definition is_brace (c : ascii) : bool :=
  Ascii.eqb c "{" || Ascii.eqb c "}".

Fixpoint brace_free (s : string) : bool :=
  match s with
  | EmptyString => true
  | String c rest => negb (is_brace c) && brace_free rest
  end.

(** The text before the first opening brace. *)
Fixpoint before_field (s : string) : string :=
  match s with
  | EmptyString => EmptyString
  | String c rest =>
      if Ascii.eqb c "{" then EmptyString else String c (before_field rest)
  end.

(** The text after the first closing brace. *)
Fixpoint after_field (s : string) : string :=
  match s with
  | EmptyString => EmptyString
  | String c rest => if Ascii.eqb c "}" then rest else after_field rest
  end.

(** A template body made of plain text around the one field
    [{nombre}]. *)
Definition single_field (body : string) : Prop :=
  body = (before_field body ++ "{nombre}" ++ after_field body)%string /\
  brace_free (before_field body) = true /\
  brace_free (after_field body) = true.

(** The files are the same in both worlds; the clock may have been
    read. *)
Definition frame (w w' : world) : Prop :=
  libraries_db w' = libraries_db w /\
  campaigns_db w' = campaigns_db w /\
  reports w' = reports w.

(** The content of a file of the reports directory. *)
Fixpoint get_file (name : string) (dir : list (string * Csv.file))
  : option Csv.file :=
  match dir with
  | [] => None
  | (n, c) :: rest => if String.eqb name n then Some c else get_file name rest
  end.

(** The campaign log read as a list: no file, no campaign. *)
Definition campaigns (w : world) : list campaign :=
  match campaigns_db w with
  | Some c => c
  | None => []
  end.

End Text.

(** Notions used for the further properties. *)
Module More.

Import Store Text.

(** The bucket of a campaign in the statistics by region and by
    language. *)
Definition region_bucket (c : campaign) : string :=
  or_default (c_region c) "Todas".

Definition idioma_bucket (c : campaign) : string :=
  or_default (c_idioma c) "Auto".

(** The number of campaigns in a bucket. *)
Definition count_bucket (bucket : campaign -> string) (k : string)
  (cs : list campaign) : nat :=
  List.length (filter (fun c => String.eqb (bucket c) k) cs).

(** No two rows have the same e-mail cell. *)
Fixpoint unique_emails (ds : list dict) : bool :=
  match ds with
  | [] => true
  | c :: rest =>
      match lookup (Some "email") c with
      | Some v => negb (existsb (has_email v) rest)
      | None => true
      end && unique_emails rest
  end.

(** The e-mail cells of rows, as [track_contact] receives them from
    [batch_outreach]. *)
Definition emails (ds : list dict) : list value :=
  map (get (Some "email")) ds.

(** The Contact has one of the e-mails sent to. *)
Definition tracked (sent : list value) (c : dict) : bool :=
  existsb (fun e => has_email e c) sent.

(** The rows [ds] are the rows [ds0] where exactly the Contacts sent to
    have been marked, with the outcome ['enviado'], on some day. *)
Definition marked (sent : list value) (ds0 ds : list dict) : Prop :=
  Forall2 (fun c c' => if tracked sent c
                       then exists today, c' = mark today "enviado" "" c
                       else c' = c)
          ds0 ds.

(** The store of the world is well-formed, has a data row, and its
    Contacts are those of [ds0] with the Contacts sent to marked. *)
Definition store_marked (sent : list value) (ds0 : list dict) (w : world)
  : Prop :=
  exists f, libraries_db w = Some f /\ well_formed f = true /\
            data_rows f <> [] /\ marked sent ds0 (contacts f).

(** The outcome entry [o] of [batch_outreach] belongs to the Contact
    [lib]: same name, e-mail, city and country, the language settled on,
    the subject of its template and the tag of the mode. *)
Definition entry_of (language : option string) (dry_run : bool)
  (lib o : dict) : Prop :=
  keys o = outcome_keys /\
  lookup (Some "biblioteca") o = lookup (Some "nombre") lib /\
  lookup (Some "email") o = lookup (Some "email") lib /\
  lookup (Some "ciudad") o = lookup (Some "ciudad") lib /\
  lookup (Some "pais") o = lookup (Some "pais") lib /\
  lookup (Some "idioma") o = Some (resolved_language lib language) /\
  lookup (Some "asunto") o
  = Some (VStr (t_subject (template_for (resolved_language lib language)))) /\
  lookup (Some "estado") o
  = Some (VStr (if dry_run then "simulado" else "enviado")).

(** The header of a report file. *)
Definition report_header : Csv.record :=
  ["biblioteca"; "email"; "ciudad"; "pais"; "idioma"; "asunto"; "estado";
   "fecha"].

(** The record of a report file for an outcome entry. *)
Definition report_row (py_str : list string -> string) (o : dict)
  : Csv.record :=
  map (fun k => Csv.cell py_str (get_default k (VStr "") o)) outcome_keys.

(** The campaign of a result of [batch_outreach], if it has one. *)
Definition campaign_of (r : result batch_result) : list campaign :=
  match r with
  | Ok (Success _ _ c) => [c]
  | _ => []
  end.

End More.

(** Worlds and inputs for the examples. *)
Module Examples.

(** A clock that advances one day per reading. *)
Definition clock (n : nat) : Datetime.datetime :=
  Datetime.mkDatetime 2024 5 (17 + n) 12 0 0 0.

(** A stand-in for Python's [str] on lists; no row of the examples is
    longer than its header, so it is never called. *)
Definition py_str (l : list string) : string := String.concat "," l.

Definition empty_world : world := mkWorld None None [] 0.

Definition seed_world : world := mkWorld (Some template) None [] 0.

Definition header : Csv.record := hd [] template.

Definition header_only_world : world := mkWorld (Some [header]) None [] 0.

(** A store of two Contacts, the second one without a name. *)
Definition small_store : Csv.file :=
  [ header;
    ["British Library"; "acquisitions@bl.uk"; "London"; "UK"; "Europa";
     "Nacional"; "EN"; "No"; ""; ""; ""];
    [""; "info@vpl.ca"; "Vancouver"; "Canadá"; "Norte America";
     "Publica"; "EN"; "No"; ""; ""; ""] ].

Definition small_world : world := mkWorld (Some small_store) None [] 0.

Definition nameless : dict :=
  Store.row_of header
    [""; "info@vpl.ca"; "Vancouver"; "Canadá"; "Norte America";
     "Publica"; "EN"; "No"; ""; ""; ""].

(** A campaign log of three runs, two of them without a region. *)
Definition logged_world : world :=
  mkWorld (Some small_store)
          (Some [ mkCampaign "20240517_120000" "2024-05-17T12:00:00"
                             None None 2 "simulacion" [];
                  mkCampaign "20240518_120000" "2024-05-18T12:00:00"
                             (Some "Europa") (Some "EN") 1 "real" [];
                  mkCampaign "20240519_120000" "2024-05-19T12:00:00"
                             (Some "") None 0 "simulacion" [] ])
          [] 0.

(** A store whose third row has a cell too many. *)
Definition long_row_store : Csv.file :=
  [ header;
    ["British Library"; "acquisitions@bl.uk"; "London"; "UK"; "Europa";
     "Nacional"; "EN"; "No"; ""; ""; ""];
    ["London Public Library"; "info@londonlibrary.co.uk"; "London"; "UK";
     "Europa"; "Publica"; "EN"; "No"; ""; ""; ""];
    ["Toronto Public Library"; "collections@tpl.ca"; "Toronto"; "Canadá";
     "Norte America"; "Publica"; "EN"; "No"; ""; ""; ""; "call first"];
    ["Vancouver Public Library"; "info@vpl.ca"; "Vancouver"; "Canadá";
     "Norte America"; "Publica"; "EN"; "No"; ""; ""; ""] ].

(** A ragged store: its first row has one cell only, and the Contact of
    its second row has the empty e-mail. *)
Definition ragged_store : Csv.file :=
  [ ["nombre"; "email"; "contactado"; "fecha_contacto"; "respuesta"; "notas"];
    ["A"];
    ["B"; ""; "No"; ""; ""; ""] ].

Definition ragged_world : world := mkWorld (Some ragged_store) None [] 0.

(** A store in which the notes of the first Contact hold a carriage
    return, and the same store with a line feed in its place. *)
Definition cr_store : Csv.file :=
  [ ["nombre"; "email"; "notas"];
    ["British Library"; "acquisitions@bl.uk";
     String.append "call" (String Csv.CR "back")];
    ["Toronto Public Library"; "collections@tpl.ca"; ""] ].

Definition lf_store : Csv.file :=
  [ ["nombre"; "email"; "notas"];
    ["British Library"; "acquisitions@bl.uk";
     String.append "call" (String Csv.LF "back")];
    ["Toronto Public Library"; "collections@tpl.ca"; ""] ].

(** Notes of two lines, the first ended by a carriage return and a
    line feed. *)
Definition two_line_notes : string :=
  String.append "llamar en junio"
                (String Csv.CR (String Csv.LF "preguntar por adquisiciones")).

(** A store whose header has no e-mail column. *)
Definition no_email_store : Csv.file :=
  [ ["nombre"; "ciudad"]; ["British Library"; "London"] ].

(** The seed Contact of Rome, whose preferred language has no template. *)
Definition roman : dict :=
  Store.row_of header
    ["Biblioteca Nazionale Centrale di Roma"; "bncrm@beniculturali.it";
     "Roma"; "Italia"; "Europa"; "Nacional"; "IT"; "No"; ""; ""; ""].

(** A clock that stands still. *)
Definition frozen_clock (n : nat) : Datetime.datetime :=
  Datetime.mkDatetime 2024 5 17 12 0 0 0.

(** Two dry runs in a row while the clock stands still. *)
Definition frozen_run_1 : world * result batch_result :=
  batch_outreach frozen_clock py_str (Some "España") None 5 true seed_world.

Definition frozen_run_2 : world * result batch_result :=
  batch_outreach frozen_clock py_str (Some "Europa") None 1 true
                 (fst frozen_run_1).

Definition first_campaign (r : result batch_result) : campaign :=
  hd (mkCampaign "" "" None None 0 "" []) (More.campaign_of r).

(** A dry run on the seed store to the first two Contacts of the region
    ['España'], and its campaign. *)
Definition spanish_run : world * result batch_result :=
  batch_outreach clock py_str (Some "España") None 2 true seed_world.

Definition spanish_campaign : campaign :=
  hd (mkCampaign "" "" None None 0 "" []) (More.campaign_of (snd spanish_run)).

End Examples.

(* ================================================================== *)
(** * Properties *)

(* ------------------------------------------------------------------ *)
(** ** Dictionaries *)

Module PyFacts.

Import Py.

Lemma key_eqb_eq (a b : key) : key_eqb a b = true <-> a = b.
Proof.
  destruct a as [x|], b as [y|]; simpl; split; intro H;
    try discriminate; try reflexivity.
  - apply String.eqb_eq in H. now subst.
  - injection H as ->. apply String.eqb_refl.
Qed.

Lemma key_eqb_refl (a : key) : key_eqb a a = true.
Proof. now apply key_eqb_eq. Qed.

Lemma key_eqb_neq (a b : key) : key_eqb a b = false <-> a <> b.
Proof.
  split.
  - intros H E. apply key_eqb_eq in E. congruence.
  - intro H. destruct (key_eqb a b) eqn:E; [|reflexivity].
    apply key_eqb_eq in E. contradiction.
Qed.

Lemma value_eqb_eq (a b : value) : value_eqb a b = true <-> a = b.
Proof.
  destruct a, b; simpl; split; intro H; try discriminate; try reflexivity.
  - apply String.eqb_eq in H. now subst.
  - injection H as ->. apply String.eqb_refl.
  - unfold list_eqb in H. destruct (list_eq_dec string_dec l l0);
      [now subst | discriminate].
  - injection H as ->. unfold list_eqb.
    destruct (list_eq_dec string_dec l0 l0); congruence.
Qed.

Lemma lookup_set_same (k : key) (v : value) (d : dict) :
  lookup k (set k v d) = Some v.
Proof.
  induction d as [|[k' v'] d IH]; simpl.
  - now rewrite key_eqb_refl.
  - destruct (key_eqb k k') eqn:E; simpl; rewrite E; auto.
Qed.

Lemma lookup_set_other (k k' : key) (v : value) (d : dict) :
  k <> k' -> lookup k (set k' v d) = lookup k d.
Proof.
  intro N. induction d as [|[k0 v0] d IH]; simpl.
  - apply key_eqb_neq in N. now rewrite N.
  - destruct (key_eqb k' k0) eqn:E; simpl.
    + apply key_eqb_eq in E. subst k0.
      apply key_eqb_neq in N. now rewrite N.
    + now rewrite IH.
Qed.

(** Assigning the value a key already has changes nothing. *)
Lemma set_same (k : key) (v : value) (d : dict) :
  lookup k d = Some v -> set k v d = d.
Proof.
  induction d as [|[k' v'] d IH]; simpl; [discriminate|].
  destruct (key_eqb k k') eqn:E.
  - now intros [= ->].
  - intro H. now rewrite IH.
Qed.

Lemma set_set (k : key) (v1 v2 : value) (d : dict) :
  set k v2 (set k v1 d) = set k v2 d.
Proof.
  induction d as [|[k' v'] d IH]; simpl.
  - now rewrite key_eqb_refl.
  - destruct (key_eqb k k') eqn:E; simpl; rewrite E; [reflexivity|].
    now rewrite IH.
Qed.

Lemma keys_set_in (k : key) (v : value) (d : dict) :
  In k (keys d) -> keys (set k v d) = keys d.
Proof.
  induction d as [|[k' v'] d IH]; simpl; [tauto|].
  intros [E | H].
  - subst k'. now rewrite key_eqb_refl.
  - destruct (key_eqb k k'); simpl; [reflexivity|]. f_equal. now apply IH.
Qed.

Lemma in_keys_set (k : key) (v : value) (d : dict) : In k (keys (set k v d)).
Proof.
  induction d as [|[k' v'] d IH]; simpl; [now left|].
  destruct (key_eqb k k') eqn:E; simpl.
  - left. apply key_eqb_eq in E. now subst.
  - now right.
Qed.

Lemma in_keys_set_other (k k' : key) (v : value) (d : dict) :
  In k (keys d) -> In k (keys (set k' v d)).
Proof.
  induction d as [|[k0 v0] d IH]; simpl; [tauto|].
  destruct (key_eqb k' k0); simpl; intros [E | H]; auto.
Qed.

(** An assignment to a key already present commutes with an assignment to
    another key. *)
Lemma set_comm (k1 k2 : key) (v1 v2 : value) (d : dict) :
  k1 <> k2 -> In k1 (keys d) ->
  set k1 v1 (set k2 v2 d) = set k2 v2 (set k1 v1 d).
Proof.
  intros N. induction d as [|[k0 v0] d IH]; simpl; [tauto|].
  intros H.
  destruct (key_eqb k2 k0) eqn:E2; destruct (key_eqb k1 k0) eqn:E1; simpl;
    rewrite ?E1, ?E2; try reflexivity.
  - apply key_eqb_eq in E1, E2. congruence.
  - f_equal. apply IH. destruct H as [H | H]; [|assumption].
    subst k0. now rewrite key_eqb_refl in E1.
Qed.

(** A key that is new goes to the end. *)
Lemma set_fresh (k : key) (v : value) (d : dict) :
  ~ In k (keys d) -> set k v d = d ++ [(k, v)].
Proof.
  induction d as [|[k' v'] d IH]; simpl; [reflexivity|].
  intro H. destruct (key_eqb k k') eqn:E.
  - apply key_eqb_eq in E. subst. tauto.
  - f_equal. apply IH. tauto.
Qed.

Lemma lookup_in_keys (k : key) (d : dict) :
  In k (keys d) -> exists v, lookup k d = Some v.
Proof.
  induction d as [|[k' v'] d IH]; simpl; [tauto|].
  intros [E | H].
  - subst. rewrite key_eqb_refl. eauto.
  - destruct (key_eqb k k'); eauto.
Qed.

(** Reading every key of a dictionary gives its values in order. *)
Lemma values_by_key (dflt : value) (d : dict) :
  NoDup (keys d) ->
  map (fun k => get_default k dflt d) (keys d) = map snd d.
Proof.
  induction d as [|[k v] d IH]; simpl; [reflexivity|].
  intro ND. inversion ND as [|? ? Hk ND']; subst.
  unfold get_default at 1. simpl. rewrite key_eqb_refl. f_equal.
  rewrite <- (IH ND'). apply map_ext_in. intros k' Hin.
  unfold get_default. simpl.
  destruct (key_eqb k' k) eqn:E; [|reflexivity].
  apply key_eqb_eq in E. subst. contradiction.
Qed.

End PyFacts.

(* ------------------------------------------------------------------ *)
(** ** The translation of line ends *)

Module NewlineFacts.

Import Py Store.

(** Induction on a text two characters at a time, as the translation
    reads it. *)
Lemma string_pairs (P : string -> Prop) :
  P "" -> (forall c, P (String c "")) ->
  (forall c c' s, P s -> P (String c' s) -> P (String c (String c' s))) ->
  forall s, P s.
Proof.
  intros H0 H1 H2.
  assert (forall s, P s /\ forall c, P (String c s)) as H.
  { induction s as [|a s [IH1 IH2]]; split; auto. }
  intro s. apply H.
Qed.

Lemma universal_cons2 (c c' : ascii) (s : string) :
  Csv.universal_newlines (String c (String c' s))
  = if Ascii.eqb c Csv.CR then
      if Ascii.eqb c' Csv.LF then String Csv.LF (Csv.universal_newlines s)
      else String Csv.LF (Csv.universal_newlines (String c' s))
    else String c (Csv.universal_newlines (String c' s)).
Proof. reflexivity. Qed.

(** A text without a carriage return is read as it is. *)
Lemma universal_plain (s : string) :
  Csv.plain s = true -> Csv.universal_newlines s = s.
Proof.
  induction s as [|c s IH]; [reflexivity|].
  cbn [Csv.plain]. intro H. apply andb_true_iff in H as [Hc Hs].
  apply negb_true_iff in Hc. cbn [Csv.universal_newlines]. rewrite Hc.
  now rewrite (IH Hs).
Qed.

(** What is read has no carriage return. *)
Lemma plain_universal (s : string) :
  Csv.plain (Csv.universal_newlines s) = true.
Proof.
  induction s as [| c | c c' s IH1 IH2] using string_pairs.
  - reflexivity.
  - cbn [Csv.universal_newlines].
    destruct (Ascii.eqb c Csv.CR) eqn:E; [reflexivity|].
    cbn [Csv.plain]. now rewrite E.
  - rewrite universal_cons2.
    destruct (Ascii.eqb c Csv.CR) eqn:E.
    + destruct (Ascii.eqb c' Csv.LF); cbn [Csv.plain];
        [rewrite IH1 | rewrite IH2]; reflexivity.
    + cbn [Csv.plain]. now rewrite E, IH2.
Qed.

(** Reading what was read changes nothing more. *)
Lemma universal_idem (s : string) :
  Csv.universal_newlines (Csv.universal_newlines s)
  = Csv.universal_newlines s.
Proof. apply universal_plain, plain_universal. Qed.

(** A text that is read without a line feed in it had no carriage
    return. *)
Lemma universal_line (s : string) :
  ~ In Csv.LF (list_ascii_of_string (Csv.universal_newlines s)) ->
  Csv.universal_newlines s = s.
Proof.
  induction s as [| c | c c' s IH1 IH2] using string_pairs.
  - reflexivity.
  - cbn [Csv.universal_newlines].
    destruct (Ascii.eqb c Csv.CR); [|reflexivity].
    intro H. exfalso. apply H. now left.
  - rewrite universal_cons2.
    destruct (Ascii.eqb c Csv.CR).
    + intro H. exfalso. apply H.
      destruct (Ascii.eqb c' Csv.LF); now left.
    + intro H. f_equal. apply IH2. intro Hin. apply H. now right.
Qed.

Lemma plain_append (a b : string) :
  Csv.plain (a ++ b) = Csv.plain a && Csv.plain b.
Proof.
  induction a as [|c a IH]; simpl; [reflexivity|].
  now rewrite IH, andb_assoc.
Qed.

Lemma plain_zeros (n : nat) : Csv.plain (Datetime.zeros n) = true.
Proof. induction n as [|n IH]; [reflexivity | exact IH]. Qed.

Lemma plain_digits (n : nat) : Csv.plain (Datetime.digits n) = true.
Proof.
  unfold Datetime.digits. generalize (Nat.to_uint n). intro d.
  induction d as [|d IH|d IH|d IH|d IH|d IH|d IH|d IH|d IH|d IH|d IH];
    [reflexivity | exact IH ..].
Qed.

Lemma plain_zfill (width n : nat) : Csv.plain (Datetime.zfill width n) = true.
Proof.
  unfold Datetime.zfill. now rewrite plain_append, plain_zeros, plain_digits.
Qed.

(** The day that [track_contact] writes is read back as it is. *)
Lemma universal_strftime_Ymd (t : Datetime.datetime) :
  Csv.universal_newlines (Datetime.strftime_Ymd t) = Datetime.strftime_Ymd t.
Proof.
  apply universal_plain. unfold Datetime.strftime_Ymd.
  rewrite !plain_append, !plain_zfill. reflexivity.
Qed.

Lemma map_universal_plain (r : Csv.record) :
  forallb Csv.plain r = true -> map Csv.universal_newlines r = r.
Proof.
  induction r as [|x r IH]; simpl; [reflexivity|].
  intro H. apply andb_true_iff in H as [Hx Hr].
  now rewrite (universal_plain x Hx), (IH Hr).
Qed.

Lemma read_text_plain (f : Csv.file) :
  plain_cells f = true -> Csv.read_text f = f.
Proof.
  unfold plain_cells, Csv.read_text.
  induction f as [|r f IH]; simpl; [reflexivity|].
  intro H. apply andb_true_iff in H as [Hr Hf].
  now rewrite (map_universal_plain r Hr), (IH Hf).
Qed.

Lemma read_text_idem (f : Csv.file) :
  Csv.read_text (Csv.read_text f) = Csv.read_text f.
Proof.
  unfold Csv.read_text. rewrite map_map. apply map_ext. intro r.
  rewrite map_map. apply map_ext. intro x. apply universal_idem.
Qed.

Lemma read_text_lengths (n : nat) (rows : list Csv.record) :
  Forall (fun r => List.length r = n) rows ->
  Forall (fun r => List.length r = n) (Csv.read_text rows).
Proof.
  induction 1 as [|r rows L _ IH]; simpl; constructor; [|exact IH].
  now rewrite length_map.
Qed.

Lemma read_text_length (f : Csv.file) :
  List.length (Csv.read_text f) = List.length f.
Proof. apply length_map. Qed.

(** Reading a row cell by cell is translating the row read as it is
    stored. *)
Lemma translated_row_of (header r : Csv.record) :
  row_of header (map Csv.universal_newlines r) = translated (row_of header r).
Proof.
  unfold row_of. revert r.
  induction header as [|k header IH]; intros [|x r]; simpl;
    try reflexivity.
  now rewrite IH.
Qed.

Lemma translated_idem (d : dict) : translated (translated d) = translated d.
Proof.
  unfold translated. rewrite map_map. apply map_ext. intros [k v]. simpl.
  destruct v; simpl; [now rewrite universal_idem | reflexivity ..].
Qed.

Lemma translated_set (k : key) (v : string) (d : dict) :
  translated (set k (VStr v) d)
  = set k (VStr (Csv.universal_newlines v)) (translated d).
Proof.
  induction d as [|[k' v'] d IH]; simpl; [reflexivity|].
  destruct (key_eqb k k'); simpl; [reflexivity|]. now rewrite IH.
Qed.

Lemma translated_mark (today status notes : string) (d : dict) :
  translated (mark today status notes d)
  = mark (Csv.universal_newlines today) (Csv.universal_newlines status)
         (Csv.universal_newlines notes) (translated d).
Proof. unfold mark. now rewrite !translated_set. Qed.

(** Reading back rows of which one was marked: the marked row shows the
    status and the notes translated, the rows read before are as they
    were. *)
Lemma translated_mark_first (today : string) (e : value)
  (status notes : string) (ds : list dict) :
  Forall (fun d => translated d = d) ds ->
  map translated (mark_first today e status notes ds)
  = mark_first (Csv.universal_newlines today) e
               (Csv.universal_newlines status) (Csv.universal_newlines notes)
               ds.
Proof.
  induction 1 as [|d ds Hd Hds IH]; simpl; [reflexivity|].
  destruct (has_email e d); simpl.
  - rewrite translated_mark, Hd. f_equal.
    clear IH. induction Hds as [|d' ds' Hd' _ IH']; simpl; [reflexivity|].
    now rewrite Hd', IH'.
  - now rewrite Hd, IH.
Qed.

Lemma rows_read_translated (header : Csv.record) (rows : list Csv.record) :
  Forall (fun d => translated d = d)
         (map (row_of header) (Csv.read_text rows)).
Proof.
  apply Forall_forall. intros d Hd. apply in_map_iff in Hd as [r [<- Hr]].
  unfold Csv.read_text in Hr. apply in_map_iff in Hr as [r0 [<- _]].
  now rewrite translated_row_of, translated_idem.
Qed.

Lemma map_row_of_read (header : Csv.record) (rows : list Csv.record) :
  map (row_of header) (Csv.read_text rows)
  = map translated (map (row_of header) rows).
Proof.
  unfold Csv.read_text. rewrite !map_map. apply map_ext. intro r.
  apply translated_row_of.
Qed.

End NewlineFacts.

(* ------------------------------------------------------------------ *)
(** ** Reading and writing well-formed tables *)

Module CsvFacts.

Import Py PyFacts Store.

Lemma distinct_NoDup (l : list string) : distinct l = true -> NoDup l.
Proof.
  induction l as [|x l IH]; simpl; intro H; [constructor|].
  apply andb_true_iff in H as [Hx Hl]. constructor; [|now apply IH].
  intro Hin. apply negb_true_iff in Hx.
  assert (existsb (String.eqb x) l = true) as E.
  { apply existsb_exists. exists x. split; [assumption|apply String.eqb_refl]. }
  congruence.
Qed.

Lemma existsb_eqb_In (c : string) (l : list string) :
  existsb (String.eqb c) l = true -> In c l.
Proof.
  intro H. apply existsb_exists in H as [y [Hy E]].
  apply String.eqb_eq in E. now subst.
Qed.

Lemma rows_lengths (header : Csv.record) (rows : list Csv.record) :
  forallb (fun r => Nat.eqb (List.length r) (List.length header)) rows = true ->
  Forall (fun r => List.length r = List.length header) rows.
Proof.
  intro H. apply Forall_forall. intros r Hr. rewrite forallb_forall in H.
  apply Nat.eqb_eq. now apply H.
Qed.

(** What [well_formed] says, as propositions. *)
Lemma well_formed_inv (f : Csv.file) :
  well_formed f = true ->
  exists header rows,
    f = header :: rows /\ NoDup header /\
    (forall c, In c required_columns -> In c header) /\
    Forall (fun r => List.length r = List.length header) rows /\
    forallb Csv.plain header = true.
Proof.
  destruct f as [|header rows]; unfold well_formed; [discriminate|].
  intro H. apply andb_true_iff in H as [H Hrows].
  apply andb_true_iff in H as [H Hreq].
  apply andb_true_iff in H as [Hd Hp].
  exists header, rows. repeat split.
  - now apply distinct_NoDup.
  - intros c Hc. rewrite forallb_forall in Hreq.
    apply existsb_eqb_In. now apply Hreq.
  - now apply rows_lengths.
  - exact Hp.
Qed.

(** What [tabular] says, as propositions. *)
Lemma tabular_inv (f : Csv.file) :
  tabular f = true ->
  exists header rows,
    f = header :: rows /\ NoDup header /\ In "email" header /\
    Forall (fun r => List.length r = List.length header) rows.
Proof.
  destruct f as [|header rows]; unfold tabular; [discriminate|].
  intro H. apply andb_true_iff in H as [H Hrows].
  apply andb_true_iff in H as [Hd He].
  exists header, rows. repeat split.
  - now apply distinct_NoDup.
  - apply existsb_exists in He as [y [Hy E]].
    apply String.eqb_eq in E. now subst.
  - now apply rows_lengths.
Qed.

Lemma NoDup_map_Some (l : list string) : NoDup l -> NoDup (map Some l).
Proof.
  induction 1 as [|x l Hx ND IH]; simpl; constructor; [|assumption].
  intro Hin. apply in_map_iff in Hin as [y [E Hy]]. congruence.
Qed.

Lemma keys_row_of (header r : Csv.record) :
  List.length r = List.length header ->
  keys (row_of header r) = map Some header.
Proof.
  revert r. induction header as [|k header IH]; intros [|x r]; simpl;
    try discriminate; try reflexivity.
  intros [= H]. unfold keys in *. simpl. f_equal. now apply IH.
Qed.

Lemma values_row_of (header r : Csv.record) :
  List.length r = List.length header ->
  map snd (row_of header r) = map VStr r.
Proof.
  revert r. induction header as [|k header IH]; intros [|x r]; simpl;
    try discriminate; try reflexivity.
  intros [= H]. f_equal. now apply IH.
Qed.

(** The dictionary built cell by cell is the header zipped with the
    cells. *)
Lemma fold_set_fresh (header r : Csv.record) (acc : dict) :
  NoDup header ->
  (forall k, In k header -> ~ In (Some k) (keys acc)) ->
  fold_left (fun d kv => set (Some (fst kv)) (VStr (snd kv)) d)
            (combine header r) acc
  = acc ++ row_of header r.
Proof.
  revert r acc. induction header as [|k header IH]; intros r acc ND Hfresh.
  - simpl. now rewrite app_nil_r.
  - destruct r as [|x r]; simpl; [now rewrite app_nil_r|].
    inversion ND as [|? ? Hk ND']; subst.
    rewrite set_fresh by (apply Hfresh; now left).
    rewrite IH; [now rewrite <- app_assoc|assumption|].
    intros k' Hin. unfold keys. rewrite map_app. simpl.
    intro H. apply in_app_or in H as [H | [H | []]].
    + apply (Hfresh k'); [now right|assumption].
    + injection H as ->. contradiction.
Qed.

Lemma make_row_row_of (header r : Csv.record) :
  NoDup header -> List.length r = List.length header ->
  Csv.make_row header r = row_of header r.
Proof.
  intros ND L. unfold Csv.make_row. rewrite L, Nat.ltb_irrefl.
  now rewrite fold_set_fresh.
Qed.

Section Writing.

Variable py_str : list string -> string.

Lemma mem_keys_all (ks : list key) :
  existsb (fun k => negb (mem k ks)) ks = false.
Proof.
  destruct (existsb _ ks) eqn:E; [|reflexivity].
  apply existsb_exists in E as [k [Hin Hk]].
  apply negb_true_iff in Hk. unfold mem in Hk.
  assert (existsb (key_eqb k) ks = true) as E.
  { apply existsb_exists. exists k. split; [assumption|apply key_eqb_refl]. }
  congruence.
Qed.

Lemma dict_to_list_row_of (header r : Csv.record) :
  NoDup header -> List.length r = List.length header ->
  Csv.dict_to_list py_str (map Some header) (row_of header r) = Some r.
Proof.
  intros ND L. unfold Csv.dict_to_list.
  rewrite (keys_row_of _ _ L), mem_keys_all. f_equal.
  rewrite <- (keys_row_of _ _ L).
  rewrite <- (map_map (fun k => get_default k (VStr "") (row_of header r))
                      (Csv.cell py_str)).
  rewrite values_by_key
    by (rewrite (keys_row_of _ _ L); now apply NoDup_map_Some).
  rewrite (values_row_of _ _ L), map_map. simpl.
  now rewrite map_id.
Qed.

Lemma writerows_rows_of (header : Csv.record) (rows : list Csv.record) :
  NoDup header ->
  Forall (fun r => List.length r = List.length header) rows ->
  Csv.writerows py_str (map Some header) (map (row_of header) rows)
  = (rows, true).
Proof.
  intros ND. induction 1 as [|r rows L _ IH]; simpl; [reflexivity|].
  rewrite (dict_to_list_row_of _ _ ND L), IH. reflexivity.
Qed.

Lemma key_cell_Some (header : Csv.record) :
  map Csv.key_cell (map Some header) = header.
Proof. rewrite map_map. simpl. apply map_id. Qed.

(** Writing the rows of a well-formed table gives the table back, unless
    there is no row, when nothing at all is written. *)
Lemma write_dicts_rows_of (header : Csv.record) (rows : list Csv.record) :
  NoDup header ->
  Forall (fun r => List.length r = List.length header) rows ->
  Csv.write_dicts py_str (map (row_of header) rows)
  = (match rows with [] => [] | _ => header :: rows end, true).
Proof.
  intros ND HL. destruct rows as [|r rows]; [reflexivity|].
  unfold Csv.write_dicts.
  change (row_of header r :: map (row_of header) rows)
    with (map (row_of header) (r :: rows)).
  cbv beta iota. change (map (row_of header) (r :: rows))
    with (row_of header r :: map (row_of header) rows) at 1.
  cbv beta iota.
  rewrite keys_row_of by (now inversion HL).
  rewrite (writerows_rows_of _ _ ND HL), key_cell_Some. reflexivity.
Qed.

End Writing.

(** Reading a well-formed table: one dictionary per row, none skipped. *)
Lemma DictReader_rows_of (header : Csv.record) (rows : list Csv.record) :
  NoDup header -> header <> [] ->
  Forall (fun r => List.length r = List.length header) rows ->
  Csv.DictReader (header :: rows) = map (row_of header) rows.
Proof.
  intros ND NE HL. unfold Csv.DictReader.
  induction HL as [|r rows L _ IH]; simpl; [reflexivity|].
  destruct r as [|x r]; simpl.
  - destruct header; [congruence|discriminate].
  - rewrite IH. f_equal.
    now apply make_row_row_of.
Qed.

End CsvFacts.

(* ------------------------------------------------------------------ *)
(** ** Marking a Contact *)

Module MarkFacts.

Import Py PyFacts Store CsvFacts.

Lemma set_row_of (header r : Csv.record) (k v : string) :
  In k header -> List.length r = List.length header ->
  is_row header (set (Some k) (VStr v) (row_of header r)).
Proof.
  revert r. induction header as [|k0 header IH]; intros r Hin L;
    [destruct Hin|].
  destruct r as [|x r]; [discriminate|]. injection L as L.
  unfold row_of in *. simpl.
  destruct (String.eqb k k0) eqn:E.
  - exists (v :: r). simpl. now rewrite L.
  - destruct Hin as [-> | Hin]; [now rewrite String.eqb_refl in E|].
    destruct (IH r Hin L) as [r' [L' E']].
    exists (x :: r'). simpl. rewrite L', E'. split; reflexivity.
Qed.

Lemma mark_is_row (header : Csv.record) (today status notes : string)
  (d : dict) :
  (forall c, In c required_columns -> In c header) ->
  is_row header d -> is_row header (mark today status notes d).
Proof.
  intros Hreq [r [L ->]]. unfold mark.
  destruct (set_row_of header r "contactado" "Si") as [r1 [L1 ->]];
    [apply Hreq; simpl; tauto | assumption |].
  destruct (set_row_of header r1 "fecha_contacto" today) as [r2 [L2 ->]];
    [apply Hreq; simpl; tauto | assumption |].
  destruct (set_row_of header r2 "respuesta" status) as [r3 [L3 ->]];
    [apply Hreq; simpl; tauto | assumption |].
  apply set_row_of; [apply Hreq; simpl; tauto | assumption].
Qed.

Lemma is_row_rows (header : Csv.record) (ds : list dict) :
  Forall (is_row header) ds ->
  exists rows,
    Forall (fun r => List.length r = List.length header) rows /\
    ds = map (row_of header) rows.
Proof.
  induction 1 as [|d ds [r [L ->]] _ [rows [HL ->]]].
  - exists []. split; [constructor|reflexivity].
  - exists (r :: rows). split; [now constructor|reflexivity].
Qed.

Lemma rows_is_row (header : Csv.record) (rows : list Csv.record) :
  Forall (fun r => List.length r = List.length header) rows ->
  Forall (is_row header) (map (row_of header) rows).
Proof.
  induction 1 as [|r rows L _ IH]; simpl; constructor; [|assumption].
  now exists r.
Qed.

Lemma mark_first_is_row (header : Csv.record) (today : string) (e : value)
  (status notes : string) (ds : list dict) :
  (forall c, In c required_columns -> In c header) ->
  Forall (is_row header) ds ->
  Forall (is_row header) (mark_first today e status notes ds).
Proof.
  intros Hreq. induction 1 as [|d ds Hd Hds IH]; simpl; [constructor|].
  destruct (has_email e d); constructor; auto using mark_is_row.
Qed.

Lemma mark_first_length (today : string) (e : value) (status notes : string)
  (ds : list dict) :
  List.length (mark_first today e status notes ds) = List.length ds.
Proof.
  induction ds as [|d ds IH]; simpl; [reflexivity|].
  destruct (has_email e d); simpl; congruence.
Qed.

(** When no row has the e-mail, nothing is marked. *)
Lemma mark_first_miss (today : string) (e : value) (status notes : string)
  (ds : list dict) :
  existsb (has_email e) ds = false ->
  mark_first today e status notes ds = ds.
Proof.
  induction ds as [|d ds IH]; simpl; [reflexivity|].
  destruct (has_email e d); simpl; [discriminate|].
  intro H. now rewrite IH.
Qed.

(** Marking leaves the e-mail of a row alone. *)
Lemma has_email_mark (today status notes : string) (e : value) (d : dict) :
  has_email e (mark today status notes d) = has_email e d.
Proof.
  unfold has_email, mark.
  now rewrite !lookup_set_other by discriminate.
Qed.

(** The four cells of a marked row, and the others. *)
Lemma lookup_mark (today status notes : string) (d : dict) :
  lookup (Some "contactado") (mark today status notes d) = Some (VStr "Si") /\
  lookup (Some "fecha_contacto") (mark today status notes d)
  = Some (VStr today) /\
  lookup (Some "respuesta") (mark today status notes d) = Some (VStr status) /\
  lookup (Some "notas") (mark today status notes d) = Some (VStr notes).
Proof.
  unfold mark. repeat split.
  - rewrite !lookup_set_other by discriminate. apply lookup_set_same.
  - rewrite !lookup_set_other by discriminate. apply lookup_set_same.
  - rewrite !lookup_set_other by discriminate. apply lookup_set_same.
  - apply lookup_set_same.
Qed.

Lemma lookup_mark_other (k today status notes : string) (c : dict) :
  ~ In k ["contactado"; "fecha_contacto"; "respuesta"; "notas"] ->
  lookup (Some k) (mark today status notes c) = lookup (Some k) c.
Proof.
  intro Hk. unfold mark.
  rewrite !lookup_set_other; [reflexivity| | | |];
    intros [= ->]; apply Hk; simpl; tauto.
Qed.

(** Marking a row that has the four columns adds no key and moves
    none. *)
Lemma keys_mark (today status notes : string) (d : dict) :
  (forall k, In k required_columns -> In (Some k) (keys d)) ->
  keys (mark today status notes d) = keys d.
Proof.
  intro Hk. unfold mark.
  rewrite !keys_set_in; [reflexivity | | | |];
    repeat apply in_keys_set_other; apply Hk; simpl; tauto.
Qed.

(** Side conditions of [set_comm]: two different column names, the
    first of them assigned before. *)
Ltac present :=
  first [ discriminate
        | apply in_keys_set
        | apply in_keys_set_other; present ].

(** Marking a marked row again overwrites the four cells. *)
Lemma mark_again (t1 t2 status1 notes1 status notes : string) (d : dict) :
  mark t2 status notes (mark t1 status1 notes1 d) = mark t2 status notes d.
Proof.
  unfold mark.
  rewrite (set_same (Some "contactado") (VStr "Si")
             (set _ _ (set _ _ (set _ _ (set _ _ d))))).
  2:{ rewrite !lookup_set_other by discriminate. apply lookup_set_same. }
  rewrite (set_comm (Some "fecha_contacto") (Some "notas")) by present.
  rewrite (set_comm (Some "fecha_contacto") (Some "respuesta")) by present.
  rewrite set_set.
  rewrite (set_comm (Some "respuesta") (Some "notas")) by present.
  now rewrite !set_set.
Qed.

Lemma mark_mark (t1 t2 status notes : string) (d : dict) :
  mark t2 status notes (mark t1 status notes d) = mark t2 status notes d.
Proof. apply mark_again. Qed.

(** A row marked on a later day is the row marked before with its date
    cell assigned anew. *)
Lemma mark_date (t1 t2 status notes : string) (d : dict) :
  set (Some "fecha_contacto") (VStr t2) (mark t1 status notes d)
  = mark t2 status notes d.
Proof.
  unfold mark.
  rewrite (set_comm (Some "fecha_contacto") (Some "notas")) by present.
  rewrite (set_comm (Some "fecha_contacto") (Some "respuesta")) by present.
  now rewrite set_set.
Qed.

(** Marking the first match twice is marking it once with the later
    date, status and notes. *)
Lemma mark_first_twice (t1 t2 : string) (e : value)
  (status1 notes1 status notes : string) (ds : list dict) :
  mark_first t2 e status notes (mark_first t1 e status1 notes1 ds)
  = mark_first t2 e status notes ds.
Proof.
  induction ds as [|d ds IH]; simpl; [reflexivity|].
  destruct (has_email e d) eqn:E; simpl.
  - now rewrite has_email_mark, E, mark_again.
  - now rewrite E, IH.
Qed.

Lemma existsb_mark_first (today : string) (e : value) (status notes : string)
  (ds : list dict) :
  existsb (has_email e) (mark_first today e status notes ds)
  = existsb (has_email e) ds.
Proof.
  induction ds as [|d ds IH]; simpl; [reflexivity|].
  destruct (has_email e d) eqn:E; simpl.
  - now rewrite has_email_mark, E.
  - now rewrite E, IH.
Qed.

Section Tracking.

Variable clock : nat -> Datetime.datetime.
Variable py_str : list string -> string.

(** The loop of [track_contact] on rows that all have an e-mail cell:
    it marks the first match with today's date and reads the clock only
    then. *)
Lemma track_loop_run (e : value) (status notes : string) (ds : list dict)
  (w : world) :
  Forall (fun d => In (Some "email") (keys d)) ds ->
  track_loop clock e status notes ds w
  = (if existsb (has_email e) ds then tick w else w,
     Ok (mark_first (Datetime.strftime_Ymd (clock (ticks w))) e status notes
                    ds)).
Proof.
  induction 1 as [|d ds Hd _ IH]; simpl; [reflexivity|].
  destruct (lookup_in_keys _ _ Hd) as [v Hv].
  unfold bind, subscript, has_email. rewrite Hv. unfold ret at 1.
  destruct (value_eqb v e); simpl; [reflexivity|].
  fold (has_email e). rewrite IH. reflexivity.
Qed.

End Tracking.

End MarkFacts.

(* ------------------------------------------------------------------ *)
(** ** The contact store: [track_contact] on a well-formed file *)

Module TrackFacts.

Import Py PyFacts Store NewlineFacts CsvFacts MarkFacts.

Lemma set_libraries_db_same (w : world) (f : Csv.file) :
  libraries_db w = Some f -> set_libraries_db (Some f) w = w.
Proof. destruct w; simpl; intros ->; reflexivity. Qed.

Lemma email_key_row (header r : Csv.record) :
  In "email" header -> List.length r = List.length header ->
  In (Some "email") (keys (row_of header r)).
Proof.
  intros He L. rewrite keys_row_of by assumption. now apply in_map.
Qed.

Lemma email_in_row (header r : Csv.record) :
  (forall c, In c required_columns -> In c header) ->
  List.length r = List.length header ->
  In (Some "email") (keys (row_of header r)).
Proof.
  intros Hreq L. apply email_key_row; [|assumption].
  apply Hreq. simpl. tauto.
Qed.

Lemma well_formed_cons (header : Csv.record) (rows rows' : list Csv.record) :
  well_formed (header :: rows) = true ->
  Forall (fun r => List.length r = List.length header) rows' ->
  well_formed (header :: rows') = true.
Proof.
  unfold well_formed. intros H HL.
  apply andb_true_iff in H as [H _]. rewrite H. simpl.
  apply forallb_forall. intros r Hr. apply Nat.eqb_eq.
  rewrite Forall_forall in HL. now apply HL.
Qed.

(** The rows of a table as stored, and as read when its header has no
    carriage return. *)
Lemma stored_table (header : Csv.record) (rows : list Csv.record) :
  NoDup header -> header <> [] ->
  Forall (fun r => List.length r = List.length header) rows ->
  stored (header :: rows) = map (row_of header) rows.
Proof. intros ND NE HL. now apply DictReader_rows_of. Qed.

Lemma contacts_table (header : Csv.record) (rows : list Csv.record) :
  NoDup header -> header <> [] -> forallb Csv.plain header = true ->
  Forall (fun r => List.length r = List.length header) rows ->
  contacts (header :: rows) = map (row_of header) (Csv.read_text rows).
Proof.
  intros ND NE Hp HL. unfold contacts.
  change (Csv.read_text (header :: rows))
    with (map Csv.universal_newlines header :: Csv.read_text rows).
  rewrite (map_universal_plain header Hp).
  apply DictReader_rows_of; try assumption.
  now apply read_text_lengths.
Qed.

(** A well-formed file: its header, its rows as stored and as read. *)
Lemma contacts_well_formed (f : Csv.file) :
  well_formed f = true ->
  exists header rows,
    f = header :: rows /\ NoDup header /\ header <> [] /\
    (forall c, In c required_columns -> In c header) /\
    Forall (fun r => List.length r = List.length header) (Csv.read_text rows) /\
    contacts f = map (row_of header) (Csv.read_text rows) /\
    Forall (fun r => List.length r = List.length header) rows /\
    forallb Csv.plain header = true /\
    stored f = map (row_of header) rows.
Proof.
  intro WF. destruct (well_formed_inv _ WF) as
    [header [rows [-> [ND [Hreq [HL Hp]]]]]].
  assert (header <> []) as NE.
  { intros ->. apply (Hreq "email"). simpl. tauto. }
  exists header, rows. repeat split; try assumption.
  - now apply read_text_lengths.
  - now apply contacts_table.
  - now apply stored_table.
Qed.

(** A Contact of a well-formed store has the required columns. *)
Lemma keys_contact (f : Csv.file) (c : dict) :
  well_formed f = true -> In c (contacts f) ->
  forall k, In k required_columns -> In (Some k) (keys c).
Proof.
  intros WF Hin k Hk.
  destruct (contacts_well_formed f WF)
    as [header [rows [_ [_ [_ [Hreq [HL [E _]]]]]]]].
  rewrite E in Hin. apply in_map_iff in Hin as [r [<- Hr]].
  rewrite Forall_forall in HL. rewrite keys_row_of by now apply HL.
  apply in_map. now apply Hreq.
Qed.

Section Tracking.

Variable clock : nat -> Datetime.datetime.
Variable py_str : list string -> string.

(** [track_contact] on a table with an e-mail column, along the rows
    that marking gives: it never raises, reads the clock only when a
    Contact has the e-mail, and writes these rows under the header, or
    nothing at all when there is no row. *)
Lemma track_contact_table (e : value) (status notes : string) (w : world)
  (header : Csv.record) (rows rows' : list Csv.record) :
  libraries_db w = Some (header :: rows) ->
  NoDup header -> In "email" header -> forallb Csv.plain header = true ->
  Forall (fun r => List.length r = List.length header) rows ->
  Forall (fun r => List.length r = List.length header) rows' ->
  mark_first (Datetime.strftime_Ymd (clock (ticks w))) e status notes
             (contacts (header :: rows))
  = map (row_of header) rows' ->
  track_contact clock py_str e status notes w
  = (set_libraries_db
       (Some (match rows' with [] => [] | _ => header :: rows' end))
       (if existsb (has_email e) (contacts (header :: rows))
        then tick w else w),
     Ok tt).
Proof.
  intros Hw ND He Hp HL HL' Hm.
  assert (header <> []) as NE by (intros ->; destruct He).
  pose proof (contacts_table header rows ND NE Hp HL) as Hc.
  assert (Forall (fun d => In (Some "email") (keys d))
                 (contacts (header :: rows))) as Hemail.
  { rewrite Hc. apply Forall_forall. intros d Hd.
    apply in_map_iff in Hd as [r [<- Hr]].
    pose proof (read_text_lengths _ _ HL) as HLr.
    rewrite Forall_forall in HLr. apply email_key_row; auto. }
  unfold track_contact, bind, read_libraries_db. rewrite Hw.
  fold (contacts (header :: rows)).
  rewrite (track_loop_run clock e status notes _ w Hemail), Hm.
  rewrite (write_dicts_rows_of py_str _ _ ND HL'). reflexivity.
Qed.

(** What [track_contact] does to a well-formed store: it never raises,
    marks the first Contact with the e-mail, reads the clock only when
    there is one, and writes back a table of the same shape, or an empty
    file when the table has no row. The row marked is stored with the
    status and the notes as given, and is read back with their line ends
    translated. *)
Lemma track_contact_well_formed (e : value) (status notes : string)
  (w : world) (f : Csv.file) :
  libraries_db w = Some f -> well_formed f = true ->
  let hit := existsb (has_email e) (contacts f) in
  let today := Datetime.strftime_Ymd (clock (ticks w)) in
  exists f',
    track_contact clock py_str e status notes w
    = (set_libraries_db (Some f') (if hit then tick w else w), Ok tt) /\
    contacts f'
    = mark_first today e (Csv.universal_newlines status)
                 (Csv.universal_newlines notes) (contacts f) /\
    (data_rows f = [] -> f' = []) /\
    (data_rows f <> [] ->
       well_formed f' = true /\ hd_error f' = hd_error f /\
       List.length f' = List.length f) /\
    (hit = false -> data_rows f <> [] -> f' = Csv.read_text f) /\
    stored f' = mark_first today e status notes (contacts f).
Proof.
  intros Hw WF hit today.
  destruct (contacts_well_formed _ WF) as
    [header [rows [-> [ND [NE [Hreq [HLr [Hc [HL [Hp _]]]]]]]]]].
  assert (In "email" header) as He by (apply Hreq; simpl; tauto).
  assert (exists rows',
            Forall (fun r => List.length r = List.length header) rows' /\
            List.length rows' = List.length rows /\
            (hit = false -> rows' = Csv.read_text rows) /\
            mark_first today e status notes (contacts (header :: rows))
            = map (row_of header) rows') as [rows' [HL' [Hlen [Hmiss Hm]]]].
  { destruct hit eqn:Ehit.
    - destruct (is_row_rows header
                  (mark_first today e status notes (contacts (header :: rows))))
        as [rows' [HL' E']].
      { apply mark_first_is_row; [assumption|]. rewrite Hc.
        now apply rows_is_row. }
      exists rows'. repeat split; try assumption; [|discriminate].
      pose proof (f_equal (@List.length dict) E') as H.
      rewrite mark_first_length, Hc, !length_map in H.
      rewrite read_text_length in H. now symmetry.
    - exists (Csv.read_text rows). repeat split; try assumption.
      + apply read_text_length.
      + rewrite <- Hc. apply mark_first_miss. exact Ehit. }
  exists (match rows' with [] => [] | _ => header :: rows' end).
  split; [|split; [|split; [|split; [|split]]]].
  - now apply track_contact_table.
  - destruct rows' as [|r' rows'].
    + destruct rows; [|discriminate Hlen]. rewrite Hc. reflexivity.
    + rewrite (contacts_table header (r' :: rows') ND NE Hp HL').
      rewrite map_row_of_read, <- Hm.
      rewrite translated_mark_first
        by (rewrite Hc; apply rows_read_translated).
      unfold today. now rewrite universal_strftime_Ymd.
  - simpl. intros ->. destruct rows'; [reflexivity|discriminate].
  - simpl. intro Hrows. destruct rows' as [|r' rows'].
    + destruct rows; [congruence|discriminate].
    + split; [now apply (well_formed_cons _ rows)|].
      split; [reflexivity|]. exact (f_equal S Hlen).
  - simpl. intros Hh Hrows. rewrite (Hmiss Hh).
    destruct rows as [|r rows]; [congruence|].
    change (Csv.read_text (header :: r :: rows))
      with (map Csv.universal_newlines header :: Csv.read_text (r :: rows)).
    now rewrite (map_universal_plain header Hp).
  - destruct rows' as [|r' rows'].
    + destruct rows; [|discriminate Hlen]. rewrite Hc. reflexivity.
    + rewrite (stored_table header (r' :: rows') ND NE HL'). now rewrite Hm.
Qed.

End Tracking.

End TrackFacts.

(* ------------------------------------------------------------------ *)
(** ** Further facts on tables *)

Module TableFacts.

Import Py PyFacts Store CsvFacts MarkFacts TrackFacts.

Lemma map_VStr_inj (r r' : list string) : map VStr r = map VStr r' -> r = r'.
Proof.
  revert r'. induction r as [|x r IH]; intros [|x' r']; simpl;
    try discriminate; [reflexivity|].
  intros [= -> H]. now rewrite (IH _ H).
Qed.

Lemma row_of_inj (header r r' : Csv.record) :
  List.length r = List.length header -> List.length r' = List.length header ->
  row_of header r = row_of header r' -> r = r'.
Proof.
  intros L L' E. apply map_VStr_inj.
  rewrite <- (values_row_of header r L), <- (values_row_of header r' L').
  now rewrite E.
Qed.

Lemma rows_of_inj (header : Csv.record) (rows rows' : list Csv.record) :
  Forall (fun r => List.length r = List.length header) rows ->
  Forall (fun r => List.length r = List.length header) rows' ->
  map (row_of header) rows = map (row_of header) rows' -> rows = rows'.
Proof.
  intros HL. revert rows'.
  induction HL as [|r rows L _ IH]; intros [|r' rows'] HL' E;
    try discriminate; [reflexivity|].
  inversion HL' as [|? ? L' HL'']; subst. simpl in E.
  injection E as E1 E2.
  rewrite (row_of_inj header r r' L L' E1), (IH rows' HL'' E2). reflexivity.
Qed.

(** A well-formed file is determined by its header and its rows as
    stored. *)
Lemma well_formed_ext (f g : Csv.file) :
  well_formed f = true -> well_formed g = true ->
  hd_error f = hd_error g -> stored f = stored g -> f = g.
Proof.
  intros WF WG Hh Hc.
  destruct (contacts_well_formed _ WF) as
    [header [rows [-> [_ [_ [_ [_ [_ [HL [_ Ef]]]]]]]]]].
  destruct (contacts_well_formed _ WG) as
    [header' [rows' [-> [_ [_ [_ [_ [_ [HL' [_ Eg]]]]]]]]]].
  injection Hh as <-. rewrite Ef, Eg in Hc.
  now rewrite (rows_of_inj header rows rows' HL HL' Hc).
Qed.

Lemma mark_first_split (today : string) (e : value) (status notes : string)
  (pre post : list dict) (c : dict) :
  existsb (has_email e) pre = false -> has_email e c = true ->
  mark_first today e status notes (pre ++ c :: post)
  = pre ++ mark today status notes c :: post.
Proof.
  intros Hpre Hc. induction pre as [|d pre IH]; simpl.
  - now rewrite Hc.
  - simpl in Hpre. apply orb_false_iff in Hpre as [Hd Hpre].
    now rewrite Hd, IH.
Qed.

Lemma contacts_no_rows (f : Csv.file) :
  well_formed f = true -> (data_rows f = [] <-> contacts f = []).
Proof.
  intro WF. destruct (contacts_well_formed _ WF) as
    [header [rows [-> [_ [_ [_ [_ [-> _]]]]]]]].
  simpl. destruct rows; simpl; split; congruence.
Qed.

(** Where the first Contact with an e-mail stands among the rows. *)
Lemma first_match (e : value) (ds : list dict) :
  existsb (has_email e) ds = true ->
  exists pre c post,
    ds = pre ++ c :: post /\ existsb (has_email e) pre = false /\
    has_email e c = true.
Proof.
  induction ds as [|d ds IH]; simpl; [discriminate|].
  destruct (has_email e d) eqn:E.
  - intros _. now exists [], d, ds.
  - intro H. destruct (IH H) as [pre [c [post [-> [Hpre Hc]]]]].
    exists (d :: pre), c, post. simpl. now rewrite E.
Qed.

End TableFacts.

(* ------------------------------------------------------------------ *)
(** ** Templates and [format] *)

Module FormatFacts.

Import Py Store Text.

Lemma not_brace (c : ascii) :
  is_brace c = false -> Ascii.eqb c "{" = false /\ Ascii.eqb c "}" = false.
Proof. unfold is_brace. intro H. now apply orb_false_iff in H. Qed.

(** Plain text in front of a template is copied. *)
Lemma format_text (pre s nombre : string) :
  brace_free pre = true ->
  format_from None (pre ++ s) nombre
  = match format_from None s nombre with
    | Ok out => Ok (pre ++ out)%string
    | Raise e => Raise e
    end.
Proof.
  induction pre as [|c pre IH]; simpl; intro H.
  - now destruct (format_from None s nombre).
  - apply andb_true_iff in H as [Hc Hpre]. apply negb_true_iff in Hc.
    destruct (not_brace c Hc) as [-> ->].
    rewrite (IH Hpre). now destruct (format_from None s nombre).
Qed.

Lemma format_plain (s nombre : string) :
  brace_free s = true -> format_from None s nombre = Ok s.
Proof.
  induction s as [|c s IH]; simpl; intro H; [reflexivity|].
  apply andb_true_iff in H as [Hc Hs]. apply negb_true_iff in Hc.
  destruct (not_brace c Hc) as [-> ->]. now rewrite (IH Hs).
Qed.

(** A template with the single field [{nombre}] between plain texts. *)
Lemma format_single_field (pre post nombre : string) :
  brace_free pre = true -> brace_free post = true ->
  format (pre ++ "{nombre}" ++ post) nombre = Ok (pre ++ nombre ++ post)%string.
Proof.
  intros Hpre Hpost. unfold format. rewrite (format_text _ _ _ Hpre).
  simpl. now rewrite (format_plain post nombre Hpost).
Qed.

Lemma single_field_ES : single_field body_ES.
Proof. repeat split; vm_compute; reflexivity. Qed.

Lemma single_field_EN : single_field body_EN.
Proof. repeat split; vm_compute; reflexivity. Qed.

Lemma single_field_FR : single_field body_FR.
Proof. repeat split; vm_compute; reflexivity. Qed.

Lemma templates_get_text (language : value) :
  is_list language = false ->
  templates_get language template_ES = Ok (template_for language).
Proof.
  unfold template_for, templates_get.
  destruct language as [code| |l]; [| reflexivity | discriminate].
  intros _.
  destruct (find (fun kv => String.eqb code (fst kv)) templates);
    reflexivity.
Qed.

Lemma template_for_cases (language : value) :
  let t := template_for language in
  t = template_ES \/ t = template_EN \/ t = template_FR.
Proof.
  unfold template_for.
  destruct language as [code| |l]; simpl; auto.
  destruct (String.eqb code "ES"); simpl; auto.
  destruct (String.eqb code "EN"); simpl; auto.
  destruct (String.eqb code "FR"); simpl; auto.
Qed.

(** Every template that [generate_email] can pick formats without error,
    with the name in the place of its field. *)
Lemma format_template (language : value) (nombre : string) :
  let t := template_for language in
  format (t_body t) nombre
  = Ok (before_field (t_body t) ++ nombre ++ after_field (t_body t))%string.
Proof.
  intro t.
  assert (single_field (t_body t)) as [E [Hpre Hpost]].
  { destruct (template_for_cases language) as [H | [H | H]];
      fold t in H; rewrite H;
      [apply single_field_ES | apply single_field_EN | apply single_field_FR]. }
  rewrite E at 1. now apply format_single_field.
Qed.

End FormatFacts.

(* ------------------------------------------------------------------ *)
(** ** Loading and running a campaign *)

Module RunFacts.

Import Py PyFacts Store Text FormatFacts.

Lemma frame_refl (w : world) : frame w w.
Proof. repeat split. Qed.

Lemma frame_tick (w w' : world) : frame (tick w) w' -> frame w w'.
Proof. destruct w. exact (fun H => H). Qed.

Lemma create_absent (w : world) :
  libraries_db w = None ->
  create_library_template w = (set_libraries_db (Some template) w, Ok tt).
Proof.
  intro H. unfold create_library_template, bind, gets. now rewrite H.
Qed.

Lemma create_present (w : world) (f : Csv.file) :
  libraries_db w = Some f -> create_library_template w = (w, Ok tt).
Proof.
  intro H. unfold create_library_template, bind, gets. now rewrite H.
Qed.

(** The loop of [load_libraries] is a filter that keeps the order. *)
Lemma load_loop_filter (region language : option string) (only_new : bool)
  (reader libraries : list dict) :
  load_loop region language only_new reader libraries
  = libraries ++
    filter (passes (supplied region) (supplied language) only_new) reader.
Proof.
  revert libraries. induction reader as [|row reader IH]; intro libraries;
    simpl; [now rewrite app_nil_r|].
  assert (forall column wanted,
            truthy wanted && differs (get (Some column) row) wanted
            = negb (field_matches column (supplied wanted) row)) as Hf.
  { intros column [x|]; unfold supplied, field_matches; simpl; [|reflexivity].
    destruct (String.eqb x ""); simpl; [reflexivity|].
    now destruct (value_eqb _ _). }
  rewrite !Hf. unfold passes at 1. fold (contacted row).
  destruct (field_matches "region" (supplied region) row); simpl;
    [|apply IH].
  destruct (field_matches "idioma_preferido" (supplied language) row); simpl;
    [|apply IH].
  destruct only_new, (contacted row); simpl; rewrite IH;
    try reflexivity; now rewrite <- app_assoc.
Qed.

Lemma load_libraries_present (region language : option string)
  (only_new : bool) (w : world) (f : Csv.file) :
  libraries_db w = Some f ->
  load_libraries region language only_new w
  = (w, Ok (filter (passes (supplied region) (supplied language) only_new)
                   (contacts f))).
Proof.
  intro H. unfold load_libraries, bind, catch, read_libraries_db.
  rewrite (create_present w f H), H. unfold ret.
  now rewrite load_loop_filter.
Qed.

Lemma load_libraries_absent (region language : option string)
  (only_new : bool) (w : world) :
  libraries_db w = None ->
  load_libraries region language only_new w
  = (set_libraries_db (Some template) w,
     Ok (filter (passes (supplied region) (supplied language) only_new)
                (contacts template))).
Proof.
  intro H. unfold load_libraries, bind, catch, read_libraries_db.
  rewrite (create_absent w H). generalize template. intro seed.
  cbv beta iota. cbn [set_libraries_db libraries_db]. unfold ret.
  rewrite load_loop_filter. reflexivity.
Qed.

Section Running.

Variable clock : nat -> Datetime.datetime.
Variable py_str : list string -> string.

Lemma resolved_language_eq (library : dict) (language : option string) :
  match language with
  | Some l => if truthy (Some l) then VStr l
              else get_default (Some "idioma_preferido") (VStr "ES") library
  | None => get_default (Some "idioma_preferido") (VStr "ES") library
  end = resolved_language library language.
Proof.
  unfold resolved_language, supplied.
  destruct language as [l|]; [|reflexivity]. now destruct (truthy (Some l)).
Qed.

(** [generate_email] leaves the world alone. *)
Lemma generate_email_pure (library : dict) (language : option string)
  (w : world) :
  exists r, generate_email py_str library language w = (w, r).
Proof.
  unfold generate_email. rewrite resolved_language_eq.
  destruct (templates_get _ template_ES) as [t|e]; [|now eexists].
  destruct (format _ _); now eexists.
Qed.

(** When the language it settles on is no list, [generate_email] does not
    raise: it returns the subject of the template for that language and
    its body with the name, or the placeholder when the Contact has no
    name entry, in the place of the field. *)
Lemma generate_email_run (library : dict) (language : option string)
  (w : world) :
  let lang := resolved_language library language in
  let t := template_for lang in
  let nombre := get_default (Some "nombre") (VStr "Bibliotecario/a") library in
  is_list lang = false ->
  generate_email py_str library language w
  = (w, Ok (mkEmail (t_subject t)
                    (before_field (t_body t) ++ to_str py_str nombre ++
                     after_field (t_body t))%string
                    lang)).
Proof.
  intros lang t nombre Htext. unfold generate_email.
  rewrite resolved_language_eq. fold lang.
  rewrite (templates_get_text lang Htext). fold t. fold nombre.
  unfold t. now rewrite format_template.
Qed.

Lemma resolved_language_text (library : dict) (language : option string) :
  is_list (get_default (Some "idioma_preferido") (VStr "ES") library) = false ->
  is_list (resolved_language library language) = false.
Proof.
  unfold resolved_language. now destruct (supplied language).
Qed.

(** A dry run of the loop of [batch_outreach] touches no file. *)
Lemma outreach_loop_dry_frame (language : option string)
  (libraries results : list dict) (w w' : world) (r : result (list dict)) :
  outreach_loop clock py_str language true libraries results w = (w', r) ->
  frame w w'.
Proof.
  revert results w. induction libraries as [|library rest IH];
    intros results w; simpl.
  - intros [= <- _]. apply frame_refl.
  - unfold bind at 1.
    destruct (generate_email_pure library language w) as [[data|e] ->];
      [|intros [= <- _]; apply frame_refl].
    unfold bind, subscript.
    destruct (lookup (Some "nombre") library);
      [|intros [= <- _]; apply frame_refl].
    unfold ret at 1.
    destruct (lookup (Some "email") library);
      [|intros [= <- _]; apply frame_refl].
    unfold ret at 1.
    destruct (lookup (Some "ciudad") library);
      [|intros [= <- _]; apply frame_refl].
    unfold ret at 1.
    destruct (lookup (Some "pais") library);
      [|intros [= <- _]; apply frame_refl].
    unfold ret at 1. unfold now at 1. unfold ret at 1.
    intro H. apply frame_tick. exact (IH _ _ H).
Qed.

(** [batch_outreach] unfolded along the result of its two loops. *)
Lemma batch_outreach_run (region language : option string) (max_emails : Z)
  (dry_run : bool) (w w1 : world) (libraries : list dict) :
  load_libraries region language true w = (w1, Ok libraries) ->
  match libraries with
  | [] =>
      exists message,
        batch_outreach clock py_str region language max_emails dry_run w
        = (w1, Ok (NoLibraries message))
  | _ :: _ =>
      forall w2 r,
        outreach_loop clock py_str language dry_run
                      (slice_to max_emails libraries) [] w1 = (w2, r) ->
        match r with
        | Raise e =>
            batch_outreach clock py_str region language max_emails dry_run w
            = (w2, Raise e)
        | Ok results =>
            let c :=
              mkCampaign
                (Datetime.strftime_stamp (clock (ticks w2)))
                (Datetime.isoformat (clock (S (ticks w2))))
                region language (List.length results)
                (if dry_run then "simulacion" else "real") results in
            let file :=
              ("library_campaign_" ++
               Datetime.strftime_stamp (clock (S (S (ticks w2)))) ++
               ".csv")%string in
            let written := fst (Csv.write_dicts py_str results) in
            batch_outreach clock py_str region language max_emails dry_run w
            = (mkWorld (libraries_db w2) (Some (campaigns w2 ++ [c]))
                       (put_file file written (reports w2))
                       (S (S (S (ticks w2)))),
               if snd (Csv.write_dicts py_str results)
               then Ok (Success (List.length results) file c)
               else Raise ValueError)
        end
  end.
Proof.
  intro Hload. destruct libraries as [|c0 cs].
  - eexists. unfold batch_outreach, bind. rewrite Hload. reflexivity.
  - intros w2 r Hloop. destruct r as [results|e].
    + cbv zeta. unfold batch_outreach, bind. rewrite Hload. cbv beta iota.
      rewrite Hloop.
      destruct (Csv.write_dicts py_str results) as [written ok].
      destruct w2, ok; reflexivity.
    + unfold batch_outreach, bind. rewrite Hload. cbv beta iota.
      rewrite Hloop. reflexivity.
Qed.

End Running.

End RunFacts.

(* ------------------------------------------------------------------ *)
(** ** Further facts on the runner *)

Module ReportFacts.

Import Py PyFacts Store Text FormatFacts RunFacts.

Lemma get_put_file (name : string) (content : Csv.file)
  (dir : list (string * Csv.file)) :
  get_file name (put_file name content dir) = Some content.
Proof.
  induction dir as [|[n c] dir IH]; simpl.
  - now rewrite String.eqb_refl.
  - destruct (String.eqb name n) eqn:E; simpl; now rewrite E.
Qed.

Lemma length_append (a b : string) :
  String.length (a ++ b) = String.length a + String.length b.
Proof. induction a as [|c a IH]; simpl; [reflexivity | now rewrite IH]. Qed.

(** [load_libraries] never raises; it writes nothing but a missing
    store. *)
Lemma load_libraries_frame (region language : option string)
  (only_new : bool) (w : world) :
  exists w1 libraries,
    load_libraries region language only_new w = (w1, Ok libraries) /\
    campaigns_db w1 = campaigns_db w /\ reports w1 = reports w /\
    ticks w1 = ticks w /\
    (forall f, libraries_db w = Some f -> w1 = w).
Proof.
  destruct (libraries_db w) as [f|] eqn:E.
  - eexists. eexists. split; [apply (load_libraries_present _ _ _ w f E)|].
    repeat split.
  - eexists. eexists. split; [apply (load_libraries_absent _ _ _ w E)|].
    repeat split. discriminate.
Qed.

Section Running.

Variable clock : nat -> Datetime.datetime.
Variable py_str : list string -> string.

(** The outcome entries of a dry run: one more per Contact, each tagged
    ['simulado']. *)
Lemma outreach_loop_dry_results (language : option string)
  (libraries results : list dict) (w w' : world) (out : list dict) :
  outreach_loop clock py_str language true libraries results w
  = (w', Ok out) ->
  exists new,
    out = results ++ new /\ List.length new = List.length libraries /\
    Forall (fun o => lookup (Some "estado") o = Some (VStr "simulado")) new.
Proof.
  revert results w. induction libraries as [|library rest IH];
    intros results w; simpl.
  - intros [= _ <-]. exists []. now rewrite app_nil_r.
  - unfold bind at 1.
    destruct (generate_email_pure py_str library language w)
      as [[data|e] ->]; [|discriminate].
    unfold bind, subscript.
    destruct (lookup (Some "nombre") library); [|discriminate].
    unfold ret at 1.
    destruct (lookup (Some "email") library); [|discriminate].
    unfold ret at 1.
    destruct (lookup (Some "ciudad") library); [|discriminate].
    unfold ret at 1.
    destruct (lookup (Some "pais") library); [|discriminate].
    unfold ret at 1. unfold now at 1. unfold ret at 1.
    intro H. destruct (IH _ _ H) as [new [-> [Hlen Hall]]].
    eexists. split; [now rewrite <- app_assoc|].
    split; [simpl; now rewrite Hlen|].
    constructor; [reflexivity|assumption].
Qed.

End Running.

End ReportFacts.

(* ------------------------------------------------------------------ *)
(** ** A campaign on a well-formed store runs to its end *)

Module TotalFacts.

Import Py PyFacts Store Text CsvFacts MarkFacts TrackFacts TableFacts
  FormatFacts RunFacts.

Section Running.

Variable clock : nat -> Datetime.datetime.
Variable py_str : list string -> string.

Lemma store_ready_tick (w : world) : store_ready w -> store_ready (tick w).
Proof. destruct w. exact (fun H => H). Qed.

Lemma track_contact_ready (e : value) (status notes : string) (w : world) :
  store_ready w ->
  exists w', track_contact clock py_str e status notes w = (w', Ok tt) /\
             store_ready w'.
Proof.
  intros [f [Hw [WF Hrows]]].
  destruct (track_contact_well_formed clock py_str e status notes w f Hw WF)
    as [f' [Hrun [_ [_ [Hshape _]]]]].
  destruct (Hshape Hrows) as [WF' [_ Hlen]].
  eexists. split; [exact Hrun|]. exists f'. split; [reflexivity|].
  split; [assumption|].
  destruct f as [|h [|r rows]]; simpl in Hrows; try congruence.
  destruct f' as [|h' [|r' rows']]; simpl in Hlen; discriminate.
Qed.

(** The loop of [batch_outreach] over Contacts it can process: it never
    raises, and adds entries with the eight keys. *)
Lemma outreach_loop_total (language : option string) (dry_run : bool)
  (libraries results : list dict) (w : world) :
  store_ready w ->
  forallb runnable libraries = true ->
  Forall (fun o => keys o = outcome_keys) results ->
  exists w' out,
    outreach_loop clock py_str language dry_run libraries results w
    = (w', Ok out) /\
    Forall (fun o => keys o = outcome_keys) out /\
    List.length out = List.length results + List.length libraries.
Proof.
  revert results w. induction libraries as [|library rest IH];
    intros results w Hready Hcols Hkeys.
  - exists w, results. simpl. repeat split; [assumption | lia].
  - simpl in Hcols. apply andb_true_iff in Hcols as [Hc Hrest].
    unfold runnable in Hc. apply andb_true_iff in Hc as [Hc Htext].
    apply negb_true_iff in Htext.
    unfold has_runner_columns, runner_columns in Hc. simpl in Hc.
    destruct (lookup (Some "nombre") library) as [vn|] eqn:En;
      [|discriminate].
    destruct (lookup (Some "email") library) as [ve|] eqn:Ee;
      [|discriminate].
    destruct (lookup (Some "ciudad") library) as [vc|] eqn:Ec;
      [|discriminate].
    destruct (lookup (Some "pais") library) as [vp|] eqn:Ep;
      [|discriminate].
    simpl. unfold bind at 1.
    rewrite generate_email_run by now apply resolved_language_text.
    unfold bind, subscript. rewrite En, Ee, Ec, Ep.
    unfold ret at 1. unfold ret at 1. unfold ret at 1. unfold ret at 1.
    unfold now at 1.
    match goal with
    | |- context [results ++ [?r]] => set (result := r)
    end.
    assert (Forall (fun o => keys o = outcome_keys) (results ++ [result]))
      as Hkeys'.
    { apply Forall_app. split; [assumption|]. now constructor. }
    destruct dry_run.
    + unfold ret at 1.
      destruct (IH (results ++ [result]) (tick w)
                   (store_ready_tick w Hready) Hrest Hkeys')
        as [w' [out [Hrun [Hout Hlen]]]].
      exists w', out. split; [exact Hrun|]. split; [assumption|].
      rewrite Hlen, length_app. simpl. lia.
    + unfold ret at 1.
      destruct (track_contact_ready ve "enviado" "" (tick w)
                  (store_ready_tick w Hready)) as [w1 [Htrack Hready1]].
      rewrite Htrack.
      destruct (IH (results ++ [result]) w1 Hready1 Hrest Hkeys')
        as [w' [out [Hrun [Hout Hlen]]]].
      exists w', out. split; [exact Hrun|]. split; [assumption|].
      rewrite Hlen, length_app. simpl. lia.
Qed.

(** The cells of a row of a well-formed table are strings. *)
Lemma row_of_text (header r : Csv.record) (k : key) (v : value) :
  lookup k (row_of header r) = Some v -> is_list v = false.
Proof.
  revert r. induction header as [|k0 header IH]; intros [|x r]; simpl;
    try discriminate.
  destruct (key_eqb k (Some k0)).
  - now intros [= <-].
  - apply IH.
Qed.

Lemma runnable_rows (header : Csv.record) (rows : list Csv.record) :
  forallb has_runner_columns (map (row_of header) rows) = true ->
  forallb runnable (map (row_of header) rows) = true.
Proof.
  induction rows as [|r rows IH]; simpl; [reflexivity|].
  intro H. apply andb_true_iff in H as [Hr Hrows].
  rewrite (IH Hrows), andb_true_r. unfold runnable. rewrite Hr. simpl.
  apply negb_true_iff. unfold get_default.
  destruct (lookup (Some "idioma_preferido") (row_of header r)) as [v|] eqn:E;
    [|reflexivity].
  exact (row_of_text header r _ v E).
Qed.

(** Outcome entries all have the same keys, so the report is written
    whole. *)
Lemma writerows_outcomes (ks : list key) (rows : list dict) :
  Forall (fun o => keys o = ks) rows ->
  snd (Csv.writerows py_str ks rows) = true.
Proof.
  induction 1 as [|o rows Ho _ IH]; simpl; [reflexivity|].
  unfold Csv.dict_to_list. rewrite Ho, mem_keys_all.
  destruct (Csv.writerows py_str ks rows). exact IH.
Qed.

Lemma write_dicts_outcomes (rows : list dict) :
  Forall (fun o => keys o = outcome_keys) rows ->
  snd (Csv.write_dicts py_str rows) = true.
Proof.
  intro H. destruct rows as [|o rows]; [reflexivity|].
  unfold Csv.write_dicts.
  pose proof (writerows_outcomes (keys o) (o :: rows)) as Hw.
  destruct (Csv.writerows py_str (keys o) (o :: rows)) as [written ok].
  simpl in *. apply Hw.
  inversion H as [|? ? Ho Hrest]; subst. rewrite Ho. exact H.
Qed.

Lemma forallb_firstn (A : Type) (p : A -> bool) (n : nat) (l : list A) :
  forallb p l = true -> forallb p (firstn n l) = true.
Proof.
  revert n. induction l as [|x l IH]; intros [|n]; simpl; auto.
  intro H. apply andb_true_iff in H as [Hx Hl]. now rewrite Hx, IH.
Qed.

Lemma forallb_slice_to (p : dict -> bool) (max_emails : Z) (l : list dict) :
  forallb p l = true -> forallb p (slice_to max_emails l) = true.
Proof.
  intro H. unfold slice_to.
  destruct (0 <=? max_emails)%Z; now apply forallb_firstn.
Qed.

Lemma forallb_filter (A : Type) (p q : A -> bool) (l : list A) :
  forallb p l = true -> forallb p (filter q l) = true.
Proof.
  induction l as [|x l IH]; simpl; [reflexivity|].
  intro H. apply andb_true_iff in H as [Hx Hl].
  destruct (q x); simpl; [now rewrite Hx, IH | now apply IH].
Qed.

(** On a well-formed store whose Contacts have the columns the runner
    reads, and with at least one eligible Contact, [batch_outreach],
    dry or not, returns its success result. *)
Lemma batch_outreach_succeeds (region language : option string)
  (max_emails : Z) (dry_run : bool) (w : world) (f : Csv.file) :
  libraries_db w = Some f -> well_formed f = true ->
  forallb has_runner_columns (contacts f) = true ->
  filter (passes (supplied region) (supplied language) true) (contacts f)
  <> [] ->
  exists w' n file c,
    batch_outreach clock py_str region language max_emails dry_run w
    = (w', Ok (Success n file c)) /\
    n = List.length (slice_to max_emails
          (filter (passes (supplied region) (supplied language) true)
                  (contacts f))).
Proof.
  intros Hw WF Hcols Hne.
  pose proof (batch_outreach_run clock py_str region language max_emails
                dry_run w w _
                (load_libraries_present region language true w f Hw))
    as Hrun.
  set (eligible := filter _ (contacts f)) in *.
  assert (store_ready w) as Hready.
  { exists f. repeat split; try assumption. intro H.
    apply (contacts_no_rows f WF) in H. subst eligible.
    rewrite H in Hne. now apply Hne. }
  assert (forallb runnable (slice_to max_emails eligible) = true)
    as Hslice.
  { apply forallb_slice_to. subst eligible. apply forallb_filter.
    destruct (contacts_well_formed f WF)
      as [h [rows [_ [_ [_ [_ [_ [E _]]]]]]]].
    rewrite E in Hcols |- *. now apply runnable_rows. }
  destruct (outreach_loop_total language dry_run
              (slice_to max_emails eligible) [] w Hready Hslice
              (Forall_nil _)) as [w2 [out [Hloop [Hout Hlen]]]].
  destruct eligible as [|c0 cs] eqn:E; [congruence|].
  specialize (Hrun w2 (Ok out) Hloop). cbv beta iota zeta in Hrun.
  rewrite (write_dicts_outcomes out Hout) in Hrun.
  eexists. eexists. eexists. eexists. split; [exact Hrun|].
  simpl in Hlen. exact Hlen.
Qed.

End Running.

End TotalFacts.

(* ================================================================== *)
(** * The claims *)

Import Py PyFacts Store Text NewlineFacts CsvFacts MarkFacts TrackFacts
  TableFacts FormatFacts RunFacts ReportFacts TotalFacts.

(* ------------------------------------------------------------------ *)
(** ** Contact store: [track_contact] *)

(** On a file that holds no Contact (a header alone, or a header and
    blank lines), [track_contact] leaves an empty file, whatever the
    header is. *)
Lemma track_contact_no_contacts (clock : nat -> Datetime.datetime)
  (py_str : list string -> string) (w : world) (f : Csv.file) (e : value)
  (status notes : string) :
  libraries_db w = Some f -> contacts f = [] ->
  track_contact clock py_str e status notes w
  = (set_libraries_db (Some []) w, Ok tt).
Proof.
  intros Hw Hc. unfold track_contact, bind, read_libraries_db.
  rewrite Hw. fold (contacts f). rewrite Hc. reflexivity.
Qed.

(** C3, as amended: on a store that is a table (a header of distinct
    column names with an e-mail column, one cell per column in every row)
    without a carriage return in any cell and with at least one data
    row, [track_contact] with an e-mail that no Contact has raises nothing
    and leaves the whole world, the store file included, as it was. *)
Theorem track_contact_miss_unchanged (clock : nat -> Datetime.datetime)
  (py_str : list string -> string) (w : world) (f : Csv.file)
  (e status notes : string) :
  libraries_db w = Some f -> tabular f = true -> plain_cells f = true ->
  data_rows f <> [] ->
  existsb (has_email (VStr e)) (contacts f) = false ->
  track_contact clock py_str (VStr e) status notes w = (w, Ok tt).
Proof.
  intros Hw Ht Hp Hrows Hmiss.
  destruct (tabular_inv _ Ht) as [header [rows [-> [ND [He HL]]]]].
  unfold plain_cells in Hp. simpl in Hp.
  apply andb_true_iff in Hp as [Hph Hpr].
  assert (header <> []) as NE by (intros ->; destruct He).
  assert (Csv.read_text rows = rows) as Hread by now apply read_text_plain.
  rewrite (track_contact_table clock py_str (VStr e) status notes w
             header rows rows Hw ND He Hph HL HL).
  - rewrite Hmiss. destruct rows as [|r rows]; [simpl in Hrows; congruence|].
    now rewrite set_libraries_db_same.
  - rewrite (mark_first_miss _ _ _ _ _ Hmiss).
    rewrite (contacts_table header rows ND NE Hph HL). now rewrite Hread.
Qed.

Lemma track_contact_miss_unchanged_witness :
  track_contact Examples.clock Examples.py_str (VStr "nobody@example.org")
                "enviado" "" Examples.small_world
  = (Examples.small_world, Ok tt).
Proof.
  apply (track_contact_miss_unchanged Examples.clock Examples.py_str
           Examples.small_world Examples.small_store).
  - reflexivity.
  - vm_compute. reflexivity.
  - vm_compute. reflexivity.
  - discriminate.
  - vm_compute. reflexivity.
Defined.

(** C3 as stated fails on a store that has its header and no Contact:
    the e-mail matches nothing, no error is raised, and yet the file is
    left empty, its header row gone. *)
Lemma track_contact_miss_header_only :
  well_formed [Examples.header] = true /\
  tabular [Examples.header] = true /\
  plain_cells [Examples.header] = true /\
  existsb (has_email (VStr "nobody@example.org"))
          (contacts [Examples.header]) = false /\
  track_contact Examples.clock Examples.py_str (VStr "nobody@example.org")
                "enviado" "" Examples.header_only_world
  = (mkWorld (Some []) None [] 0, Ok tt) /\
  libraries_db (mkWorld (Some []) None [] 0)
  <> libraries_db Examples.header_only_world.
Proof.
  split; [vm_compute; reflexivity|].
  split; [vm_compute; reflexivity|].
  split; [vm_compute; reflexivity|].
  split; [vm_compute; reflexivity|].
  split; [vm_compute; reflexivity|].
  discriminate.
Qed.

(** Why the cells are taken without carriage returns: the store is
    written as it is given and read with its line ends translated, so
    that a call that matches nothing writes a line feed where a cell had
    a carriage return. *)
Example track_contact_miss_carriage_return :
  tabular Examples.cr_store = true /\
  existsb (has_email (VStr "nobody@example.org"))
          (contacts Examples.cr_store) = false /\
  track_contact Examples.clock Examples.py_str (VStr "nobody@example.org")
                "enviado" "" (mkWorld (Some Examples.cr_store) None [] 0)
  = (mkWorld (Some Examples.lf_store) None [] 0, Ok tt) /\
  Examples.lf_store <> Examples.cr_store.
Proof.
  split; [vm_compute; reflexivity|].
  split; [vm_compute; reflexivity|].
  split; [vm_compute; reflexivity|].
  vm_compute. discriminate.
Qed.

(** C10: on a well-formed store [track_contact], with any e-mail, keeps
    the header row and the number of rows exactly when there is at least
    one data row; on a header with no data row it writes an empty file. *)
Theorem track_contact_header_kept_iff_rows (clock : nat -> Datetime.datetime)
  (py_str : list string -> string) (w : world) (f : Csv.file) (e : value)
  (status notes : string) :
  libraries_db w = Some f -> well_formed f = true ->
  exists w' f',
    track_contact clock py_str e status notes w = (w', Ok tt) /\
    libraries_db w' = Some f' /\
    (data_rows f = [] -> f' = []) /\
    (hd_error f' = hd_error f /\ List.length f' = List.length f
     <-> data_rows f <> []).
Proof.
  intros Hw WF.
  destruct (track_contact_well_formed clock py_str e status notes w f Hw WF)
    as [f' [Hrun [_ [Hnone [Hsome _]]]]].
  eexists. exists f'. split; [exact Hrun|].
  split; [reflexivity|]. split; [exact Hnone|].
  split.
  - intros [Hh _] Hrows. rewrite (Hnone Hrows) in Hh.
    destruct f; [discriminate WF|discriminate Hh].
  - intro Hrows. destruct (Hsome Hrows) as [_ [Hh Hl]]. now split.
Qed.

Lemma track_contact_header_kept_iff_rows_witness :
  exists w' f',
    track_contact Examples.clock Examples.py_str (VStr "info@vpl.ca")
                  "enviado" "" Examples.header_only_world = (w', Ok tt) /\
    libraries_db w' = Some f' /\
    (data_rows [Examples.header] = [] -> f' = []) /\
    (hd_error f' = hd_error [Examples.header] /\
     List.length f' = List.length [Examples.header]
     <-> data_rows [Examples.header] <> []).
Proof.
  apply (track_contact_header_kept_iff_rows Examples.clock Examples.py_str
           Examples.header_only_world [Examples.header]).
  - reflexivity.
  - vm_compute. reflexivity.
Defined.

(** C6, as amended: on a well-formed store that has a Contact with the
    e-mail, two calls of [track_contact] with the same arguments end in
    the world that one call made at the time of the second reaches: the
    same store file. Read back, it has the first Contact with the e-mail
    marked and the Contacts around it as they were: the marked one is
    contacted, carries the day read by the later call and the status and
    the notes given, with their line ends translated, and has every
    other cell as before. It is the Contact that the first call alone
    leaves, with the day of the first call replaced by the day of the
    second. *)
Theorem track_contact_twice (clock : nat -> Datetime.datetime)
  (py_str : list string -> string) (w : world) (f : Csv.file)
  (e status notes : string) :
  libraries_db w = Some f -> well_formed f = true ->
  existsb (has_email (VStr e)) (contacts f) = true ->
  let day1 := Datetime.strftime_Ymd (clock (ticks w)) in
  let day2 := Datetime.strftime_Ymd (clock (S (ticks w))) in
  exists w2 f2 pre c c2 post f1 c1,
    bind (track_contact clock py_str (VStr e) status notes)
         (fun _ => track_contact clock py_str (VStr e) status notes) w
    = (w2, Ok tt) /\
    track_contact clock py_str (VStr e) status notes (tick w) = (w2, Ok tt) /\
    libraries_db w2 = Some f2 /\
    contacts f = pre ++ c :: post /\
    existsb (has_email (VStr e)) pre = false /\
    has_email (VStr e) c = true /\
    contacts f2 = pre ++ c2 :: post /\
    lookup (Some "contactado") c2 = Some (VStr "Si") /\
    lookup (Some "fecha_contacto") c2 = Some (VStr day2) /\
    lookup (Some "respuesta") c2
    = Some (VStr (Csv.universal_newlines status)) /\
    lookup (Some "notas") c2 = Some (VStr (Csv.universal_newlines notes)) /\
    keys c2 = keys c /\
    (forall k,
       ~ In k ["contactado"; "fecha_contacto"; "respuesta"; "notas"] ->
       lookup (Some k) c2 = lookup (Some k) c) /\
    track_contact clock py_str (VStr e) status notes w
    = (set_libraries_db (Some f1) (tick w), Ok tt) /\
    contacts f1 = pre ++ c1 :: post /\
    lookup (Some "fecha_contacto") c1 = Some (VStr day1) /\
    c2 = set (Some "fecha_contacto") (VStr day2) c1.
Proof.
  intros Hw WF Hhit day1 day2.
  destruct (first_match _ _ Hhit) as [pre [c [post [Hsplit [Hpre Hc]]]]].
  assert (data_rows f <> []) as Hrows.
  { intro H. apply (contacts_no_rows f WF) in H.
    rewrite H in Hhit. discriminate. }
  destruct (track_contact_well_formed clock py_str (VStr e) status notes
              w f Hw WF) as [f1 [Hrun1 [Hc1 [_ [Hshape1 _]]]]].
  destruct (Hshape1 Hrows) as [WF1 [Hh1 Hl1]].
  rewrite Hhit in Hrun1. fold day1 in Hc1.
  set (w1 := set_libraries_db (Some f1) (tick w)) in *.
  assert (data_rows f1 <> []) as Hrows1.
  { intro H. apply (contacts_no_rows f1 WF1) in H.
    rewrite Hc1 in H.
    pose proof (existsb_mark_first day1 (VStr e)
                  (Csv.universal_newlines status)
                  (Csv.universal_newlines notes) (contacts f)) as E.
    rewrite H, Hhit in E. discriminate. }
  destruct (track_contact_well_formed clock py_str (VStr e) status notes
              w1 f1 eq_refl WF1)
    as [f2 [Hrun2 [Hc2 [_ [Hshape2 [_ Hs2]]]]]].
  destruct (Hshape2 Hrows1) as [WF2 [Hh2 _]].
  rewrite Hc1, existsb_mark_first, Hhit in Hrun2.
  rewrite Hc1, mark_first_twice in Hc2.
  rewrite Hc1, mark_first_twice in Hs2.
  assert (libraries_db (tick w) = Some f) as Hw' by (destruct w; exact Hw).
  destruct (track_contact_well_formed clock py_str (VStr e) status notes
              (tick w) f Hw' WF) as [g [Hrun [_ [_ [Hshape [_ Hs]]]]]].
  destruct (Hshape Hrows) as [WFg [Hhg _]].
  rewrite Hhit in Hrun.
  assert (g = f2) as ->.
  { apply well_formed_ext; try assumption; [congruence|].
    rewrite Hs, Hs2. destruct w; reflexivity. }
  assert (ticks w1 = S (ticks w)) as Ht by (destruct w; reflexivity).
  rewrite Ht in Hc2. fold day2 in Hc2.
  rewrite Hsplit, (mark_first_split _ _ _ _ pre post c Hpre Hc) in Hc2.
  rewrite Hsplit, (mark_first_split _ _ _ _ pre post c Hpre Hc) in Hc1.
  destruct (lookup_mark day2 (Csv.universal_newlines status)
              (Csv.universal_newlines notes) c) as [L1 [L2 [L3 L4]]].
  destruct (lookup_mark day1 (Csv.universal_newlines status)
              (Csv.universal_newlines notes) c) as [_ [D1 _]].
  exists (set_libraries_db (Some f2) (tick w1)), f2, pre, c.
  eexists. exists post, f1. eexists.
  split; [unfold bind; rewrite Hrun1; exact Hrun2|].
  split; [rewrite Hrun; destruct w; reflexivity|].
  split; [reflexivity|].
  split; [exact Hsplit|]. split; [exact Hpre|]. split; [exact Hc|].
  split; [exact Hc2|].
  split; [exact L1|]. split; [exact L2|]. split; [exact L3|].
  split; [exact L4|]. split.
  { apply keys_mark. apply (keys_contact f c WF).
    rewrite Hsplit. apply in_or_app. right. now left. }
  split; [intros k Hk; now apply lookup_mark_other|].
  split; [exact Hrun1|]. split; [exact Hc1|]. split; [exact D1|].
  symmetry. apply mark_date.
Qed.

Lemma track_contact_twice_witness :
  exists w2 f2 pre c c2 post f1 c1,
    bind (track_contact Examples.clock Examples.py_str (VStr "info@vpl.ca")
                        "enviado" "")
         (fun _ => track_contact Examples.clock Examples.py_str
                                 (VStr "info@vpl.ca") "enviado" "")
         Examples.small_world
    = (w2, Ok tt) /\
    track_contact Examples.clock Examples.py_str (VStr "info@vpl.ca")
                  "enviado" "" (tick Examples.small_world) = (w2, Ok tt) /\
    libraries_db w2 = Some f2 /\
    contacts Examples.small_store = pre ++ c :: post /\
    existsb (has_email (VStr "info@vpl.ca")) pre = false /\
    has_email (VStr "info@vpl.ca") c = true /\
    contacts f2 = pre ++ c2 :: post /\
    lookup (Some "contactado") c2 = Some (VStr "Si") /\
    lookup (Some "fecha_contacto") c2
    = Some (VStr (Datetime.strftime_Ymd
                    (Examples.clock (S (ticks Examples.small_world))))) /\
    lookup (Some "respuesta") c2
    = Some (VStr (Csv.universal_newlines "enviado")) /\
    lookup (Some "notas") c2 = Some (VStr (Csv.universal_newlines "")) /\
    keys c2 = keys c /\
    (forall k,
       ~ In k ["contactado"; "fecha_contacto"; "respuesta"; "notas"] ->
       lookup (Some k) c2 = lookup (Some k) c) /\
    track_contact Examples.clock Examples.py_str (VStr "info@vpl.ca")
                  "enviado" "" Examples.small_world
    = (set_libraries_db (Some f1) (tick Examples.small_world), Ok tt) /\
    contacts f1 = pre ++ c1 :: post /\
    lookup (Some "fecha_contacto") c1
    = Some (VStr (Datetime.strftime_Ymd
                    (Examples.clock (ticks Examples.small_world)))) /\
    c2 = set (Some "fecha_contacto")
             (VStr (Datetime.strftime_Ymd
                      (Examples.clock (S (ticks Examples.small_world))))) c1.
Proof.
  apply (track_contact_twice Examples.clock Examples.py_str
           Examples.small_world Examples.small_store).
  - reflexivity.
  - vm_compute. reflexivity.
  - vm_compute. reflexivity.
Defined.

(** C6 as stated fails on a ragged store. A row with one cell precedes
    the Contact whose e-mail is empty: the first call marks that Contact
    and writes the short row with an empty e-mail cell, so that the
    second call marks the short row. After two calls both rows are
    marked; after one call, made at the time of the second, only one
    is. *)
Lemma track_contact_twice_ragged :
  existsb (has_email (VStr "")) (contacts Examples.ragged_store) = true /\
  libraries_db
    (fst (bind (track_contact Examples.clock Examples.py_str (VStr "")
                              "enviado" "")
               (fun _ => track_contact Examples.clock Examples.py_str
                                       (VStr "") "enviado" "")
               Examples.ragged_world))
  = Some [ ["nombre"; "email"; "contactado"; "fecha_contacto"; "respuesta";
            "notas"];
           ["A"; ""; "Si"; "2024-05-18"; "enviado"; ""];
           ["B"; ""; "Si"; "2024-05-17"; "enviado"; ""] ] /\
  libraries_db
    (fst (track_contact Examples.clock Examples.py_str (VStr "")
                        "enviado" "" (tick Examples.ragged_world)))
  = Some [ ["nombre"; "email"; "contactado"; "fecha_contacto"; "respuesta";
            "notas"];
           ["A"; ""; ""; ""; ""; ""];
           ["B"; ""; "Si"; "2024-05-18"; "enviado"; ""] ] /\
  ["A"; ""; "Si"; "2024-05-18"; "enviado"; ""] <> ["A"; ""; ""; ""; ""; ""].
Proof.
  split; [vm_compute; reflexivity|].
  split; [vm_compute; reflexivity|].
  split; [vm_compute; reflexivity|].
  discriminate.
Qed.

(** Why the store is taken well-formed: on a ragged file, where a short
    row precedes the Contact whose e-mail is empty, the second call marks
    another row than the first one did, and on a file with a long row a
    call that matches nothing raises [ValueError] and loses rows. *)
Example track_contact_ragged :
  let ragged : Csv.file :=
    [ ["nombre"; "email"; "contactado"; "fecha_contacto"; "respuesta";
       "notas"];
      ["A"];
      ["B"; ""; "No"; ""; ""; ""] ] in
  let long : Csv.file :=
    [ ["nombre"; "email"; "contactado"; "fecha_contacto"; "respuesta";
       "notas"];
      ["B"; "b"; "No"; ""; ""; ""];
      ["A"; "a"; "No"; ""; ""; ""; "extra"] ] in
  let track e := track_contact Examples.clock Examples.py_str (VStr e)
                               "enviado" "" in
  libraries_db (fst (bind (track "") (fun _ => track "")
                          (mkWorld (Some ragged) None [] 0)))
  <> libraries_db (fst (track "" (tick (mkWorld (Some ragged) None [] 0)))) /\
  track "nobody@example.org" (mkWorld (Some long) None [] 0)
  = (mkWorld (Some [ ["nombre"; "email"; "contactado"; "fecha_contacto";
                      "respuesta"; "notas"];
                     ["B"; "b"; "No"; ""; ""; ""] ]) None [] 0,
     Raise ValueError).
Proof.
  split; [vm_compute; discriminate | vm_compute; reflexivity].
Qed.

(** C7, as amended: the cell [contactado] holds the literal strings
    ['No'] and ['Si']: every seed row carries ['No'], and [track_contact]
    on a well-formed store sets the cell of the Contact found, the first
    one with the e-mail, to ['Si'], leaving the Contacts around it as they
    were. *)
Theorem contacted_literals (clock : nat -> Datetime.datetime)
  (py_str : list string -> string) (w : world) (f : Csv.file)
  (e status notes : string) (pre post : list dict) (c : dict) :
  libraries_db w = Some f -> well_formed f = true ->
  contacts f = pre ++ c :: post ->
  existsb (has_email (VStr e)) pre = false ->
  has_email (VStr e) c = true ->
  Forall (fun r => lookup (Some "contactado") r = Some (VStr "No"))
         (contacts template) /\
  exists w' f' c',
    track_contact clock py_str (VStr e) status notes w = (w', Ok tt) /\
    libraries_db w' = Some f' /\
    contacts f' = pre ++ c' :: post /\
    has_email (VStr e) c' = true /\
    lookup (Some "contactado") c' = Some (VStr "Si").
Proof.
  intros Hw WF Hc Hpre Hhit. split.
  - vm_compute. repeat constructor.
  - destruct (track_contact_well_formed clock py_str (VStr e) status notes
                w f Hw WF) as [f' [Hrun [Hc' _]]].
    eexists. exists f'. eexists.
    split; [exact Hrun|]. split; [reflexivity|].
    split; [rewrite Hc', Hc; now apply mark_first_split|].
    split; [now rewrite has_email_mark|].
    unfold mark. rewrite !lookup_set_other by discriminate.
    apply lookup_set_same.
Qed.

Lemma contacted_literals_witness :
  Forall (fun r => lookup (Some "contactado") r = Some (VStr "No"))
         (contacts template) /\
  exists w' f' c',
    track_contact Examples.clock Examples.py_str (VStr "info@vpl.ca")
                  "enviado" "" Examples.small_world = (w', Ok tt) /\
    libraries_db w' = Some f' /\
    contacts f'
    = firstn 1 (contacts Examples.small_store) ++ c' :: [] /\
    has_email (VStr "info@vpl.ca") c' = true /\
    lookup (Some "contactado") c' = Some (VStr "Si").
Proof.
  apply (contacted_literals Examples.clock Examples.py_str
           Examples.small_world Examples.small_store "info@vpl.ca"
           "enviado" "" (firstn 1 (contacts Examples.small_store)) []
           Examples.nameless).
  - reflexivity.
  - vm_compute. reflexivity.
  - vm_compute. reflexivity.
  - vm_compute. reflexivity.
  - vm_compute. reflexivity.
Defined.

(** C7 as stated fails: after [track_contact] finds the first seed
    Contact, its cell [contactado] reads ['Si'], which is not ['Yes']. *)
Lemma contacted_literal_is_not_Yes :
  option_map
    (fun f => map (lookup (Some "contactado")) (firstn 1 (contacts f)))
    (libraries_db
       (fst (track_contact Examples.clock Examples.py_str
                           (VStr "contacto@bne.es") "enviado" ""
                           Examples.seed_world)))
  = Some [Some (VStr "Si")] /\
  VStr "Si" <> VStr "Yes".
Proof.
  split; [vm_compute; reflexivity | discriminate].
Qed.

(* ------------------------------------------------------------------ *)
(** ** Contact store: [create_library_template] *)

(** C4: [create_library_template] writes the seed table when the store
    file is absent and does nothing when it exists, whatever it holds; a
    second call changes nothing; the seed e-mails are pairwise different
    and no seed row is marked contacted. *)
Theorem create_library_template_idempotent (w : world) :
  (libraries_db w = None ->
   create_library_template w = (set_libraries_db (Some template) w, Ok tt)) /\
  (forall f, libraries_db w = Some f ->
             create_library_template w = (w, Ok tt)) /\
  bind create_library_template (fun _ => create_library_template) w
  = create_library_template w /\
  NoDup (map (get (Some "email")) (contacts template)) /\
  Forall (fun c => lookup (Some "contactado") c = Some (VStr "No") /\
                   contacted c = false)
         (contacts template).
Proof.
  split; [apply create_absent|]. split; [apply create_present|].
  split; [|split].
  - unfold bind. destruct (libraries_db w) as [f|] eqn:E.
    + rewrite (create_present w f E). apply (create_present w f E).
    + rewrite (create_absent w E).
      apply (create_present _ template). reflexivity.
  - apply (NoDup_map_inv (fun v => v)). rewrite map_id.
    vm_compute.
    repeat (constructor;
            [ intro H; repeat (destruct H as [H | H]; [discriminate H|]);
              exact H | ]).
    constructor.
  - vm_compute. repeat constructor.
Qed.

Lemma create_library_template_idempotent_witness :
  create_library_template Examples.empty_world
  = (Examples.seed_world, Ok tt) /\
  create_library_template Examples.small_world
  = (Examples.small_world, Ok tt).
Proof.
  split.
  - apply (proj1 (create_library_template_idempotent Examples.empty_world)).
    reflexivity.
  - apply (proj1 (proj2 (create_library_template_idempotent
                           Examples.small_world)) Examples.small_store).
    reflexivity.
Defined.

(* ------------------------------------------------------------------ *)
(** ** Contact store: [load_libraries] *)

(** C1, as amended: on every store file, [load_libraries] returns, in
    file order, exactly the Contacts that pass every filter that is
    supplied and not the empty string: the region and the preferred
    language by exact comparison, and, with [only_new], a [contactado]
    cell other than ['Si']. A filter that is absent or empty lets every
    Contact pass. The world is left as it was. *)
Theorem load_libraries_filters (region language : option string)
  (only_new : bool) (w : world) (f : Csv.file) :
  libraries_db w = Some f ->
  load_libraries region language only_new w
  = (w, Ok (filter (passes (supplied region) (supplied language) only_new)
                   (contacts f))).
Proof.
  intro Hw. unfold load_libraries, bind, catch, read_libraries_db.
  rewrite (create_present w f Hw), Hw. unfold ret.
  rewrite load_loop_filter. reflexivity.
Qed.

Lemma load_libraries_filters_witness :
  load_libraries (Some "Europa") (Some "EN") true Examples.seed_world
  = (Examples.seed_world,
     Ok (filter (passes (supplied (Some "Europa")) (supplied (Some "EN")) true)
                (contacts template))).
Proof.
  apply (load_libraries_filters (Some "Europa") (Some "EN") true
           Examples.seed_world template).
  reflexivity.
Defined.

(** C1 as stated fails for a filter that is the empty string: on the seed
    store, exact comparison of the region with [''] lets no Contact pass,
    while [load_libraries] returns all twenty. *)
Lemma load_libraries_empty_region :
  load_as_stated (Some "") None true (contacts template) = [] /\
  load_libraries (Some "") None true Examples.seed_world
  = (Examples.seed_world, Ok (contacts template)) /\
  List.length (contacts template) = 20.
Proof.
  split; [vm_compute; reflexivity|].
  split; [vm_compute; reflexivity | vm_compute; reflexivity].
Qed.

(** C9: a filter equal to the empty string behaves as an absent filter,
    in every world; on the seed store this is every Contact, where exact
    comparison with the empty string would give none. *)
Theorem load_libraries_empty_filter (region language : option string)
  (only_new : bool) (w : world) :
  load_libraries (Some "") language only_new w
  = load_libraries None language only_new w /\
  load_libraries region (Some "") only_new w
  = load_libraries region None only_new w /\
  load_libraries (Some "") (Some "") false Examples.seed_world
  = (Examples.seed_world, Ok (contacts template)) /\
  load_as_stated (Some "") (Some "") false (contacts template) = [].
Proof.
  split; [|split; [|split]].
  - destruct (libraries_db w) as [f|] eqn:E.
    + now rewrite !(load_libraries_present _ _ _ w f E).
    + now rewrite !(load_libraries_absent _ _ _ w E).
  - destruct (libraries_db w) as [f|] eqn:E.
    + now rewrite !(load_libraries_present _ _ _ w f E).
    + now rewrite !(load_libraries_absent _ _ _ w E).
  - vm_compute. reflexivity.
  - vm_compute. reflexivity.
Qed.

(* ------------------------------------------------------------------ *)
(** ** Campaign runner: [batch_outreach] *)

(** C2: when the filtered list of Contacts is empty, [batch_outreach]
    returns the status ['no_libraries'] and leaves the campaign log and
    the reports as they were; when the list is not empty, a result that
    is returned has the status ['success'], a different one, and on a
    well-formed store whose Contacts have the columns the runner reads
    such a result is returned. *)
Theorem batch_outreach_no_libraries (clock : nat -> Datetime.datetime)
  (py_str : list string -> string) (region language : option string)
  (max_emails : Z) (dry_run : bool) (w w1 : world) (libraries : list dict) :
  load_libraries region language true w = (w1, Ok libraries) ->
  (libraries = [] ->
   exists message,
     batch_outreach clock py_str region language max_emails dry_run w
     = (w1, Ok (NoLibraries message)) /\
     status (NoLibraries message) = "no_libraries" /\
     campaigns_db w1 = campaigns_db w /\ reports w1 = reports w) /\
  (libraries <> [] ->
   (forall w2 r,
      batch_outreach clock py_str region language max_emails dry_run w
      = (w2, Ok r) ->
      status r = "success") /\
   (forall f,
      libraries_db w = Some f -> well_formed f = true ->
      forallb has_runner_columns (contacts f) = true ->
      exists w2 n file c,
        batch_outreach clock py_str region language max_emails dry_run w
        = (w2, Ok (Success n file c)))) /\
  "no_libraries" <> "success".
Proof.
  intro Hload.
  pose proof (batch_outreach_run clock py_str region language max_emails
                dry_run w w1 libraries Hload) as Hrun.
  split; [|split; [|discriminate]].
  - intros ->. destruct Hrun as [message Hrun]. exists message.
    split; [exact Hrun|]. split; [reflexivity|].
    destruct (load_libraries_frame region language true w)
      as [w1' [l' [Hl [Hc [Hr _]]]]].
    rewrite Hload in Hl. injection Hl as <- _. now split.
  - intros Hne. split.
    + intros w2 r Hbatch. destruct libraries as [|c cs]; [congruence|].
      destruct (outreach_loop clock py_str language dry_run
                  (slice_to max_emails (c :: cs)) [] w1) as [w2' r'] eqn:Hloop.
      specialize (Hrun w2' r' eq_refl). destruct r' as [results|e].
      * cbv zeta in Hrun. rewrite Hrun in Hbatch.
        destruct (snd (Csv.write_dicts py_str results)); [|discriminate].
        injection Hbatch as _ <-. reflexivity.
      * rewrite Hrun in Hbatch. discriminate.
    + intros f Hw WF Hcols.
      rewrite (load_libraries_present region language true w f Hw) in Hload.
      injection Hload as _ <-.
      destruct (batch_outreach_succeeds clock py_str region language
                  max_emails dry_run w f Hw WF Hcols Hne)
        as [w2 [n [file [c [Hb _]]]]].
      now exists w2, n, file, c.
Qed.

Lemma batch_outreach_no_libraries_witness :
  (@nil dict = [] ->
   exists message,
     batch_outreach Examples.clock Examples.py_str (Some "Nonexistent") None
                    50 true Examples.seed_world
     = (Examples.seed_world, Ok (NoLibraries message)) /\
     status (NoLibraries message) = "no_libraries" /\
     campaigns_db Examples.seed_world = campaigns_db Examples.seed_world /\
     reports Examples.seed_world = reports Examples.seed_world) /\
  (@nil dict <> [] ->
   (forall w2 r,
      batch_outreach Examples.clock Examples.py_str (Some "Nonexistent") None
                     50 true Examples.seed_world
      = (w2, Ok r) ->
      status r = "success") /\
   (forall f,
      libraries_db Examples.seed_world = Some f -> well_formed f = true ->
      forallb has_runner_columns (contacts f) = true ->
      exists w2 n file c,
        batch_outreach Examples.clock Examples.py_str (Some "Nonexistent")
                       None 50 true Examples.seed_world
        = (w2, Ok (Success n file c)))) /\
  "no_libraries" <> "success".
Proof.
  apply (batch_outreach_no_libraries Examples.clock Examples.py_str
           (Some "Nonexistent") None 50 true Examples.seed_world
           Examples.seed_world []).
  vm_compute. reflexivity.
Defined.

(** C5: a dry run of [batch_outreach] on a world whose store file exists
    leaves that file exactly as it was, whatever the filters and the
    outcome. When the run succeeds, its campaign, in mode ['simulacion']
    with every entry tagged ['simulado'], is the new last entry of the
    campaign log and its report is in the reports directory; and it does
    succeed on a well-formed store whose Contacts have the columns the
    runner reads, when a Contact is eligible. *)
Theorem dry_run_keeps_store (clock : nat -> Datetime.datetime)
  (py_str : list string -> string) (region language : option string)
  (max_emails : Z) (w : world) (f : Csv.file) :
  libraries_db w = Some f ->
  exists w' r,
    batch_outreach clock py_str region language max_emails true w = (w', r) /\
    libraries_db w' = Some f /\
    (forall n file c,
       r = Ok (Success n file c) ->
       campaigns_db w' = Some (campaigns w ++ [c]) /\
       get_file file (reports w')
       = Some (fst (Csv.write_dicts py_str (c_resultados c))) /\
       c_modo c = "simulacion" /\
       n = List.length (c_resultados c) /\
       Forall (fun o => lookup (Some "estado") o = Some (VStr "simulado"))
              (c_resultados c)) /\
    (well_formed f = true ->
     forallb has_runner_columns (contacts f) = true ->
     filter (passes (supplied region) (supplied language) true) (contacts f)
     <> [] ->
     exists n file c, r = Ok (Success n file c)).
Proof.
  intro Hw.
  pose proof (batch_outreach_run clock py_str region language max_emails
                true w w _ (load_libraries_present region language true w f Hw))
    as Hrun.
  pose proof (batch_outreach_succeeds clock py_str region language max_emails
                true w f Hw) as Htotal.
  destruct (filter _ (contacts f)) as [|c0 cs].
  - destruct Hrun as [message Hrun]. eexists. eexists.
    split; [exact Hrun|]. split; [exact Hw|].
    split; [discriminate | congruence].
  - destruct (outreach_loop clock py_str language true
                (slice_to max_emails (c0 :: cs)) [] w) as [w2 r'] eqn:Hloop.
    specialize (Hrun w2 r' eq_refl).
    destruct (outreach_loop_dry_frame clock py_str _ _ _ _ _ _ Hloop)
      as [Hlib [Hcam Hrep]].
    assert (forall w' r,
              batch_outreach clock py_str region language max_emails true w
              = (w', r) ->
              well_formed f = true ->
              forallb has_runner_columns (contacts f) = true ->
              c0 :: cs <> [] ->
              exists n file c, r = Ok (Success n file c)) as Hsucc.
    { intros w' r Hb WF Hcols Hne.
      destruct (Htotal WF Hcols Hne) as [w'' [n [file [c [Hb' _]]]]].
      rewrite Hb in Hb'. injection Hb' as _ ->. now exists n, file, c. }
    destruct r' as [results|e].
    + cbv zeta in Hrun. eexists. eexists. split; [exact Hrun|].
      split; [simpl; congruence|].
      split; [|exact (Hsucc _ _ Hrun)].
      intros n file c Hr.
      destruct (snd (Csv.write_dicts py_str results)); [|discriminate].
      injection Hr as <- <- <-. simpl.
      destruct (outreach_loop_dry_results clock py_str _ _ _ _ _ _ Hloop)
        as [new [-> [_ Hall]]].
      unfold campaigns. rewrite Hcam.
      repeat split; try assumption. apply get_put_file.
    + eexists. eexists. split; [exact Hrun|].
      split; [congruence|].
      split; [discriminate | exact (Hsucc _ _ Hrun)].
Qed.

Lemma dry_run_keeps_store_witness :
  exists w' r,
    batch_outreach Examples.clock Examples.py_str (Some "Europa") None 2 true
                   Examples.small_world = (w', r) /\
    libraries_db w' = Some Examples.small_store /\
    (forall n file c,
       r = Ok (Success n file c) ->
       campaigns_db w' = Some (campaigns Examples.small_world ++ [c]) /\
       get_file file (reports w')
       = Some (fst (Csv.write_dicts Examples.py_str (c_resultados c))) /\
       c_modo c = "simulacion" /\
       n = List.length (c_resultados c) /\
       Forall (fun o => lookup (Some "estado") o = Some (VStr "simulado"))
              (c_resultados c)) /\
    (well_formed Examples.small_store = true ->
     forallb has_runner_columns (contacts Examples.small_store) = true ->
     filter (passes (supplied (Some "Europa")) (supplied None) true)
            (contacts Examples.small_store)
     <> [] ->
     exists n file c, r = Ok (Success n file c)).
Proof.
  apply (dry_run_keeps_store Examples.clock Examples.py_str (Some "Europa")
           None 2 Examples.small_world Examples.small_store).
  reflexivity.
Defined.

(** A dry run on the seed store, filtered to the region ['España']: three
    entries are computed, logged and reported, and the store is the seed
    table still. *)
Example dry_run_seed :
  let run := batch_outreach Examples.clock Examples.py_str (Some "España")
                            None 5 true Examples.seed_world in
  libraries_db (fst run) = Some template /\
  option_map (map c_total_enviados) (campaigns_db (fst run)) = Some [3] /\
  map fst (reports (fst run)) = ["library_campaign_20240522_120000.csv"] /\
  match snd run with
  | Ok r => status r = "success"
  | Raise _ => False
  end.
Proof.
  vm_compute. repeat split; reflexivity.
Qed.

(* ------------------------------------------------------------------ *)
(** ** Template resolver: [generate_email] *)

(** The placeholder is used when the Contact has no [nombre] entry at
    all. *)
Lemma generate_email_missing_name (py_str : list string -> string)
  (library : dict) (language : option string) (w : world) :
  lookup (Some "nombre") library = None ->
  is_list (resolved_language library language) = false ->
  let t := template_for (resolved_language library language) in
  exists data,
    generate_email py_str library language w = (w, Ok data) /\
    e_body data
    = (before_field (t_body t) ++ "Bibliotecario/a" ++
       after_field (t_body t))%string.
Proof.
  intros H Htext t. eexists.
  split; [now apply generate_email_run|].
  simpl. unfold get_default. now rewrite H.
Qed.

(** C8 fails on the code: for a Contact whose name is the empty string,
    [generate_email], whatever the template, puts the empty name in the
    place of the field, so that the greeting is followed by nothing, and
    not the placeholder ['Bibliotecario/a']. *)
Theorem generate_email_empty_name (py_str : list string -> string)
  (library : dict) (language : option string) (w : world) :
  lookup (Some "nombre") library = Some (VStr "") ->
  is_list (resolved_language library language) = false ->
  let t := template_for (resolved_language library language) in
  exists data,
    generate_email py_str library language w = (w, Ok data) /\
    e_body data = (before_field (t_body t) ++ after_field (t_body t))%string /\
    e_body data
    <> (before_field (t_body t) ++ "Bibliotecario/a" ++
        after_field (t_body t))%string.
Proof.
  intros H Htext t. eexists.
  split; [now apply generate_email_run|].
  simpl. unfold get_default. rewrite H. simpl. fold t. split; [reflexivity|].
  intro E. apply (f_equal String.length) in E.
  rewrite !length_append in E. simpl in E. lia.
Qed.

Lemma generate_email_empty_name_witness :
  exists data,
    generate_email Examples.py_str Examples.nameless None Examples.seed_world
    = (Examples.seed_world, Ok data) /\
    e_body data
    = (before_field (t_body template_EN) ++
       after_field (t_body template_EN))%string /\
    e_body data
    <> (before_field (t_body template_EN) ++ "Bibliotecario/a" ++
        after_field (t_body template_EN))%string.
Proof.
  apply (generate_email_empty_name Examples.py_str Examples.nameless None
           Examples.seed_world).
  - vm_compute. reflexivity.
  - vm_compute. reflexivity.
Defined.

(** The English letter to the Contact without a name opens with a bare
    greeting. *)
Example generate_email_nameless :
  match generate_email Examples.py_str Examples.nameless None
                       Examples.seed_world with
  | (_, Ok data) =>
      substring 0 6 (e_body data) = "Dear ," /\
      e_language data = VStr "EN" /\ e_subject data = subject_EN
  | (_, Raise _) => False
  end.
Proof.
  vm_compute. repeat split; reflexivity.
Qed.

(* ================================================================== *)
(** * Further properties of the script *)

(* ------------------------------------------------------------------ *)
(** ** Statistics: [get_campaign_stats] *)

Module StatsFacts.

Import More.

Lemma counter_get_set_same (k : string) (n : nat) (d : counters) :
  counter_get k (counter_set k n d) = n.
Proof.
  induction d as [|[k' n'] d IH]; simpl.
  - now rewrite String.eqb_refl.
  - destruct (String.eqb k k') eqn:E; simpl; now rewrite E.
Qed.

Lemma counter_get_set_other (k k' : string) (n : nat) (d : counters) :
  k <> k' -> counter_get k (counter_set k' n d) = counter_get k d.
Proof.
  intro N. induction d as [|[k0 n0] d IH]; simpl.
  - apply String.eqb_neq in N. now rewrite N.
  - destruct (String.eqb k' k0) eqn:E; simpl.
    + apply String.eqb_eq in E. subst k0.
      apply String.eqb_neq in N. now rewrite N.
    + now rewrite IH.
Qed.

Lemma counter_get_bump (k k' : string) (d : counters) :
  counter_get k (counter_bump k' d)
  = counter_get k d + (if String.eqb k' k then 1 else 0).
Proof.
  unfold counter_bump. destruct (String.eqb k' k) eqn:E.
  - apply String.eqb_eq in E. subst. apply counter_get_set_same.
  - apply String.eqb_neq in E.
    rewrite counter_get_set_other by congruence. lia.
Qed.

Lemma counter_set_keys (k : string) (n : nat) (d : counters) :
  NoDup (map fst d) -> NoDup (map fst (counter_set k n d)).
Proof.
  induction d as [|[k' n'] d IH]; simpl; intro ND.
  - constructor; [tauto|constructor].
  - inversion ND as [|? ? Hk ND']; subst.
    destruct (String.eqb k k') eqn:E; simpl; [assumption|].
    constructor; [|now apply IH].
    intro Hin. apply Hk. clear IH ND ND' Hk.
    induction d as [|[k0 n0] d IH]; simpl in *.
    + destruct Hin as [H | []]. subst. now rewrite String.eqb_refl in E.
    + destruct (String.eqb k k0); simpl in Hin; tauto.
Qed.

Lemma counter_set_sum (k : string) (n : nat) (d : counters) :
  list_sum (map snd (counter_set k n d)) + counter_get k d
  = list_sum (map snd d) + n.
Proof.
  induction d as [|[k' n'] d IH]; simpl; [lia|].
  destruct (String.eqb k k'); simpl; lia.
Qed.

Lemma counter_bump_sum (k : string) (d : counters) :
  list_sum (map snd (counter_bump k d)) = list_sum (map snd d) + 1.
Proof.
  unfold counter_bump.
  pose proof (counter_set_sum k (counter_get k d + 1) d). lia.
Qed.

(** The loop of [get_campaign_stats] counts each campaign once in each
    of the two dictionaries. *)
Lemma count_campaigns (cs : list campaign) (stats : counters * counters) :
  let stats' := fold_left count_campaign cs stats in
  (NoDup (map fst (fst stats)) -> NoDup (map fst (fst stats'))) /\
  (NoDup (map fst (snd stats)) -> NoDup (map fst (snd stats'))) /\
  (forall k, counter_get k (fst stats')
             = counter_get k (fst stats) + count_bucket region_bucket k cs) /\
  (forall k, counter_get k (snd stats')
             = counter_get k (snd stats) + count_bucket idioma_bucket k cs) /\
  list_sum (map snd (fst stats'))
  = list_sum (map snd (fst stats)) + List.length cs /\
  list_sum (map snd (snd stats'))
  = list_sum (map snd (snd stats)) + List.length cs.
Proof.
  revert stats. induction cs as [|c cs IH]; intro stats; simpl.
  - repeat split; auto; intros; unfold count_bucket; simpl; lia.
  - destruct (IH (count_campaign stats c)) as [H1 [H2 [H3 [H4 [H5 H6]]]]].
    unfold count_campaign in *. simpl in *.
    repeat split.
    + intro ND. apply H1. now apply counter_set_keys.
    + intro ND. apply H2. now apply counter_set_keys.
    + intro k. rewrite H3, counter_get_bump. unfold count_bucket. simpl.
      fold (region_bucket c).
      destruct (String.eqb (region_bucket c) k); simpl; lia.
    + intro k. rewrite H4, counter_get_bump. unfold count_bucket. simpl.
      fold (idioma_bucket c).
      destruct (String.eqb (idioma_bucket c) k); simpl; lia.
    + rewrite H5, counter_bump_sum. lia.
    + rewrite H6, counter_bump_sum. lia.
Qed.

Lemma fold_total (cs : list campaign) (acc : nat) :
  fold_left (fun acc c => acc + c_total_enviados c) cs acc
  = acc + list_sum (map c_total_enviados cs).
Proof.
  revert acc. induction cs as [|c cs IH]; intro acc; simpl; [lia|].
  rewrite IH. lia.
Qed.

End StatsFacts.

Import Py PyFacts Store Text More NewlineFacts StatsFacts.

(** X1: on an existing campaign log [get_campaign_stats] changes nothing
    and returns the number of campaigns, the sum of their
    [total_enviados], and two dictionaries of counters with distinct
    keys: the counter of a bucket is the number of campaigns in that
    bucket, where a region that is [null] or empty counts under
    ['Todas'] and such a language under ['Auto'], and the counters of
    each dictionary add up to the number of campaigns. *)
Theorem stats_count_campaigns (w : world) (cs : list campaign) :
  campaigns_db w = Some cs ->
  exists por_region por_idioma,
    get_campaign_stats w
    = (w, Ok (Stats (List.length cs) (list_sum (map c_total_enviados cs))
                    por_region por_idioma)) /\
    NoDup (map fst por_region) /\ NoDup (map fst por_idioma) /\
    (forall k, counter_get k por_region = count_bucket region_bucket k cs) /\
    (forall k, counter_get k por_idioma = count_bucket idioma_bucket k cs) /\
    list_sum (map snd por_region) = List.length cs /\
    list_sum (map snd por_idioma) = List.length cs.
Proof.
  intro Hw. unfold get_campaign_stats. rewrite Hw.
  destruct (count_campaigns cs ([], [])) as [H1 [H2 [H3 [H4 [H5 H6]]]]].
  eexists. eexists. split.
  - rewrite fold_total. reflexivity.
  - repeat split.
    + apply H1. constructor.
    + apply H2. constructor.
    + intro k. now rewrite H3.
    + intro k. now rewrite H4.
    + now rewrite H5.
    + now rewrite H6.
Qed.

Lemma stats_count_campaigns_witness :
  exists por_region por_idioma,
    get_campaign_stats Examples.logged_world
    = (Examples.logged_world,
       Ok (Stats 3 (list_sum [2; 1; 0]) por_region por_idioma)) /\
    NoDup (map fst por_region) /\ NoDup (map fst por_idioma) /\
    (forall k, counter_get k por_region
               = count_bucket region_bucket k (campaigns Examples.logged_world)) /\
    (forall k, counter_get k por_idioma
               = count_bucket idioma_bucket k (campaigns Examples.logged_world)) /\
    list_sum (map snd por_region) = 3 /\
    list_sum (map snd por_idioma) = 3.
Proof.
  apply (stats_count_campaigns Examples.logged_world
           (campaigns Examples.logged_world)).
  reflexivity.
Defined.

(* ------------------------------------------------------------------ *)
(** ** Rows read from any file, and what [track_contact] touches *)

Module EdgeFacts.

Import Py PyFacts Store Text More CsvFacts MarkFacts.

Lemma fold_set_lookup_other (k : string) (header r : Csv.record) (acc : dict) :
  ~ In k header -> lookup (Some k) acc = None ->
  lookup (Some k)
    (fold_left (fun d kv => set (Some (fst kv)) (VStr (snd kv)) d)
               (combine header r) acc) = None.
Proof.
  revert r acc. induction header as [|k0 header IH]; intros r acc Hk Hacc;
    [exact Hacc|].
  destruct r as [|x r]; [exact Hacc|]. simpl. apply IH.
  - intro H. apply Hk. now right.
  - rewrite lookup_set_other; [assumption|].
    intros [= ->]. apply Hk. now left.
Qed.

Lemma fold_restval_lookup_other (k : string) (ks : list string) (d : dict) :
  ~ In k ks -> lookup (Some k) d = None ->
  lookup (Some k) (fold_left (fun d k' => set (Some k') VNone d) ks d) = None.
Proof.
  revert d. induction ks as [|k0 ks IH]; intros d Hk Hd; [exact Hd|].
  simpl. apply IH.
  - intro H. apply Hk. now right.
  - rewrite lookup_set_other; [assumption|].
    intros [= ->]. apply Hk. now left.
Qed.

Lemma In_skipn (A : Type) (x : A) (n : nat) (l : list A) :
  In x (skipn n l) -> In x l.
Proof.
  intro H. rewrite <- (firstn_skipn n l). apply in_or_app. now right.
Qed.

(** A row read by [DictReader] has no entry for a name that is not in
    the header. *)
Lemma make_row_lookup_other (k : string) (header r : Csv.record) :
  ~ In k header -> lookup (Some k) (Csv.make_row header r) = None.
Proof.
  intro Hk. unfold Csv.make_row.
  pose proof (fold_set_lookup_other k header r [] Hk eq_refl) as H.
  destruct (Nat.ltb (List.length header) (List.length r)).
  - rewrite lookup_set_other by discriminate. exact H.
  - destruct (Nat.ltb (List.length r) (List.length header)); [|exact H].
    apply fold_restval_lookup_other; [|exact H].
    intro Hin. apply Hk. exact (In_skipn _ _ _ _ Hin).
Qed.

Section Tracking.

Variable clock : nat -> Datetime.datetime.
Variable py_str : list string -> string.

(** The loop of [track_contact] reads the clock at most once and touches
    nothing else. *)
Lemma track_loop_world (e : value) (status notes : string) (ds : list dict)
  (w w' : world) (r : result (list dict)) :
  track_loop clock e status notes ds w = (w', r) -> w' = w \/ w' = tick w.
Proof.
  revert w' r. induction ds as [|d ds IH]; intros w' r; simpl.
  - intros [= <- _]. now left.
  - unfold bind, subscript.
    destruct (lookup (Some "email") d) as [v|]; [|intros [= <- _]; now left].
    unfold ret at 1. destruct (value_eqb v e).
    + unfold now, ret. intros [= <- _]. now right.
    + destruct (track_loop clock e status notes ds w) as [w1 [ds'|x]] eqn:E.
      * unfold ret. intros [= <- _]. exact (IH _ _ eq_refl).
      * intros [= <- _]. exact (IH _ _ eq_refl).
Qed.

(** [track_contact] never touches the campaign log or the reports. *)
Lemma track_contact_frame (e : value) (status notes : string)
  (w w' : world) (r : result unit) :
  track_contact clock py_str e status notes w = (w', r) ->
  campaigns_db w' = campaigns_db w /\ reports w' = reports w.
Proof.
  unfold track_contact, bind, read_libraries_db.
  destruct (libraries_db w) as [f|]; [|intros [= <- _]; now split].
  destruct (track_loop clock e status notes
              (Csv.DictReader (Csv.read_text f)) w)
    as [w1 [ds|x]] eqn:E.
  - destruct (track_loop_world _ _ _ _ _ _ _ E) as [-> | ->];
      destruct (Csv.write_dicts py_str ds) as [written ok];
      unfold write_libraries_db, modify; destruct ok;
      intros [= <- _]; destruct w; split; reflexivity.
  - destruct (track_loop_world _ _ _ _ _ _ _ E) as [-> | ->];
      intros [= <- _]; destruct w; split; reflexivity.
Qed.

End Tracking.

End EdgeFacts.

Import EdgeFacts.

(** X2: [track_contact] fails before it writes: without a store file it
    raises [FileNotFoundError] (it does not create the seed table as
    [load_libraries] does), and on a store whose header has no [email]
    column and which has a row that is not blank it raises
    [KeyError('email')]; in both cases the world is left as it was. *)
Theorem track_contact_fails_before_writing (clock : nat -> Datetime.datetime)
  (py_str : list string -> string) (e : value) (status notes : string)
  (w : world) :
  (libraries_db w = None ->
   track_contact clock py_str e status notes w = (w, Raise FileNotFoundError)) /\
  (forall header rows r,
     libraries_db w = Some (header :: rows) -> ~ In "email" header ->
     In r rows -> r <> [] ->
     track_contact clock py_str e status notes w
     = (w, Raise (KeyError "email"))).
Proof.
  split.
  - intro Hw. unfold track_contact, bind, read_libraries_db. now rewrite Hw.
  - intros header rows r Hw Hk Hin Hr.
    unfold track_contact, bind, read_libraries_db. rewrite Hw.
    change (Csv.read_text (header :: rows))
      with (map Csv.universal_newlines header :: Csv.read_text rows).
    assert (~ In "email" (map Csv.universal_newlines header)) as Hk'.
    { intro H. apply in_map_iff in H as [x [Ex Hx]]. apply Hk.
      rewrite <- Ex, universal_line; [exact Hx|].
      rewrite Ex. simpl. intro H.
      repeat (destruct H as [H | H]; [discriminate H|]). exact H. }
    unfold Csv.DictReader.
    destruct (filter (fun r => negb (Csv.is_blank r)) (Csv.read_text rows))
      as [|r0 rest] eqn:E.
    + assert (In (map Csv.universal_newlines r)
                 (filter (fun r => negb (Csv.is_blank r))
                         (Csv.read_text rows))) as H.
      { apply filter_In. split; [now apply in_map|]. now destruct r. }
      rewrite E in H. destruct H.
    + simpl. unfold bind, subscript.
      now rewrite (make_row_lookup_other "email" _ r0 Hk').
Qed.

Lemma track_contact_fails_before_writing_witness :
  track_contact Examples.clock Examples.py_str (VStr "info@vpl.ca")
                "enviado" "" Examples.empty_world
  = (Examples.empty_world, Raise FileNotFoundError) /\
  track_contact Examples.clock Examples.py_str (VStr "info@vpl.ca")
                "enviado" ""
                (mkWorld (Some Examples.no_email_store) None [] 0)
  = (mkWorld (Some Examples.no_email_store) None [] 0,
     Raise (KeyError "email")).
Proof.
  split.
  - apply (proj1 (track_contact_fails_before_writing
                    Examples.clock Examples.py_str (VStr "info@vpl.ca")
                    "enviado" "" Examples.empty_world)).
    reflexivity.
  - apply (proj2 (track_contact_fails_before_writing
                    Examples.clock Examples.py_str (VStr "info@vpl.ca")
                    "enviado" ""
                    (mkWorld (Some Examples.no_email_store) None [] 0))
                 ["nombre"; "ciudad"] [["British Library"; "London"]]
                 ["British Library"; "London"]).
    + reflexivity.
    + intros [H | [H | []]]; discriminate H.
    + now left.
    + discriminate.
Defined.

(* ------------------------------------------------------------------ *)
(** ** The loop of [batch_outreach] in either mode *)

Module LoopFacts.

Import Py PyFacts Store Text More CsvFacts MarkFacts FormatFacts RunFacts
  ReportFacts TotalFacts.

Section Running.

Variable clock : nat -> Datetime.datetime.
Variable py_str : list string -> string.

(** What [generate_email] returns when it returns. *)
Lemma generate_email_ok (library : dict) (language : option string)
  (w w' : world) (data : email_data) :
  generate_email py_str library language w = (w', Ok data) ->
  w' = w /\
  e_language data = resolved_language library language /\
  e_subject data
  = t_subject (template_for (resolved_language library language)).
Proof.
  unfold generate_email. rewrite resolved_language_eq.
  destruct (is_list (resolved_language library language)) eqn:Htext.
  - destruct (resolved_language library language); try discriminate Htext.
    simpl. discriminate.
  - rewrite (templates_get_text _ Htext), format_template.
    unfold ret. intros [= <- <-]. repeat split.
Qed.

(** The entries that the loop adds belong, in order, to the Contacts it
    was given. *)
Lemma outreach_loop_entries (language : option string) (dry_run : bool)
  (libraries results : list dict) (w w' : world) (out : list dict) :
  outreach_loop clock py_str language dry_run libraries results w
  = (w', Ok out) ->
  exists new,
    out = results ++ new /\
    Forall2 (entry_of language dry_run) libraries new.
Proof.
  revert results w. induction libraries as [|library rest IH];
    intros results w; simpl.
  - intros [= _ <-]. exists []. split; [now rewrite app_nil_r|constructor].
  - unfold bind at 1.
    destruct (generate_email py_str library language w) as [w0 [data|x]] eqn:G;
      [|discriminate].
    destruct (generate_email_ok _ _ _ _ _ G) as [-> [Hl Hs]].
    unfold bind, subscript.
    destruct (lookup (Some "nombre") library) as [vn|] eqn:En;
      [|discriminate].
    unfold ret at 1.
    destruct (lookup (Some "email") library) as [ve|] eqn:Ee;
      [|discriminate].
    unfold ret at 1.
    destruct (lookup (Some "ciudad") library) as [vc|] eqn:Ec;
      [|discriminate].
    unfold ret at 1.
    destruct (lookup (Some "pais") library) as [vp|] eqn:Ep;
      [|discriminate].
    unfold ret at 1. unfold now at 1.
    assert (forall w1,
              outreach_loop clock py_str language dry_run rest
                (results ++
                 [[(Some "biblioteca", vn); (Some "email", ve);
                   (Some "ciudad", vc); (Some "pais", vp);
                   (Some "idioma", e_language data);
                   (Some "asunto", VStr (e_subject data));
                   (Some "estado",
                    VStr (if dry_run then "simulado" else "enviado"));
                   (Some "fecha",
                    VStr (Datetime.isoformat (clock (ticks w))))]]) w1
              = (w', Ok out) ->
              exists new,
                out = results ++ new /\
                Forall2 (entry_of language dry_run) (library :: rest) new)
      as Hstep.
    { intros w1 H. destruct (IH _ _ H) as [new [-> Hnew]].
      eexists. split; [now rewrite <- app_assoc|].
      constructor; [|exact Hnew].
      unfold entry_of. simpl. rewrite Hl, Hs, En, Ee, Ec, Ep.
      repeat split; reflexivity. }
    destruct dry_run.
    + unfold ret at 1. apply Hstep.
    + unfold ret at 1.
      destruct (track_contact clock py_str ve "enviado" "" (tick w))
        as [w1 [[]|x]]; [apply Hstep | discriminate].
Qed.

(** The loop never touches the campaign log or the reports. *)
Lemma outreach_loop_log_frame (language : option string) (dry_run : bool)
  (libraries results : list dict) (w w' : world) (r : result (list dict)) :
  outreach_loop clock py_str language dry_run libraries results w = (w', r) ->
  campaigns_db w' = campaigns_db w /\ reports w' = reports w.
Proof.
  revert results w. induction libraries as [|library rest IH];
    intros results w; simpl.
  - intros [= <- _]. now split.
  - unfold bind at 1.
    destruct (generate_email_pure py_str library language w) as [[data|x] ->];
      [|intros [= <- _]; now split].
    unfold bind, subscript.
    destruct (lookup (Some "nombre") library); [|intros [= <- _]; now split].
    unfold ret at 1.
    destruct (lookup (Some "email") library) as [ve|];
      [|intros [= <- _]; now split].
    unfold ret at 1.
    destruct (lookup (Some "ciudad") library); [|intros [= <- _]; now split].
    unfold ret at 1.
    destruct (lookup (Some "pais") library); [|intros [= <- _]; now split].
    unfold ret at 1. unfold now at 1.
    destruct dry_run.
    + unfold ret at 1. intro H. destruct (IH _ _ H) as [Hc Hr].
      destruct w; now split.
    + unfold ret at 1.
      destruct (track_contact clock py_str ve "enviado" "" (tick w))
        as [w1 [[]|x]] eqn:T;
        destruct (track_contact_frame _ _ _ _ _ _ _ _ T) as [Hc1 Hr1].
      * intro H. destruct (IH _ _ H) as [Hc Hr].
        rewrite Hc, Hr, Hc1, Hr1. destruct w; now split.
      * intros [= <- _]. rewrite Hc1, Hr1. destruct w; now split.
Qed.

Lemma entries_keys (language : option string) (dry_run : bool)
  (libraries out : list dict) :
  Forall2 (entry_of language dry_run) libraries out ->
  Forall (fun o => keys o = outcome_keys) out.
Proof.
  induction 1 as [|lib o libs out [Hk _] _ IH]; constructor; assumption.
Qed.

(** The report of outcome entries: nothing for no entry, else the header
    and a record per entry. *)
Lemma write_dicts_report (out : list dict) :
  Forall (fun o => keys o = outcome_keys) out ->
  Csv.write_dicts py_str out
  = (match out with
     | [] => []
     | _ :: _ => report_header :: map (report_row py_str) out
     end, true).
Proof.
  intro H. destruct out as [|o out]; [reflexivity|].
  unfold Csv.write_dicts.
  assert (keys o = outcome_keys) as Ho by now inversion H.
  rewrite Ho.
  assert (Csv.writerows py_str outcome_keys (o :: out)
          = (map (report_row py_str) (o :: out), true)) as ->.
  { clear Ho. induction H as [|o' out' Ho' _ IH]; [reflexivity|].
    simpl. unfold Csv.dict_to_list. rewrite Ho', mem_keys_all, IH.
    reflexivity. }
  reflexivity.
Qed.

(** [batch_outreach] along the list that [load_libraries] returned, with
    the report written out. *)
Lemma batch_outreach_result (region language : option string)
  (max_emails : Z) (dry_run : bool) (w w1 w2 : world)
  (c0 : dict) (cs out : list dict) :
  load_libraries region language true w = (w1, Ok (c0 :: cs)) ->
  outreach_loop clock py_str language dry_run
                (slice_to max_emails (c0 :: cs)) [] w1 = (w2, Ok out) ->
  let c :=
    mkCampaign (Datetime.strftime_stamp (clock (ticks w2)))
               (Datetime.isoformat (clock (S (ticks w2))))
               region language (List.length out)
               (if dry_run then "simulacion" else "real") out in
  let file :=
    ("library_campaign_" ++
     Datetime.strftime_stamp (clock (S (S (ticks w2)))) ++ ".csv")%string in
  batch_outreach clock py_str region language max_emails dry_run w
  = (mkWorld (libraries_db w2) (Some (campaigns w2 ++ [c]))
             (put_file file
                (match out with
                 | [] => []
                 | _ :: _ => report_header :: map (report_row py_str) out
                 end) (reports w2))
             (S (S (S (ticks w2)))),
     Ok (Success (List.length out) file c)).
Proof.
  intros Hload Hloop c file.
  pose proof (batch_outreach_run clock py_str region language max_emails
                dry_run w w1 _ Hload w2 (Ok out) Hloop) as Hrun.
  cbv beta iota zeta in Hrun.
  destruct (outreach_loop_entries _ _ _ _ _ _ _ Hloop) as [new [E Hnew]].
  simpl in E. subst new.
  rewrite (write_dicts_report out (entries_keys _ _ _ _ Hnew)) in Hrun.
  exact Hrun.
Qed.

End Running.

End LoopFacts.

Import CsvFacts MarkFacts FormatFacts RunFacts ReportFacts TotalFacts
  LoopFacts.

(* ------------------------------------------------------------------ *)
(** ** [batch_outreach]: the log, the entries and the report *)

Lemma get_put_file_other (name name' : string) (content : Csv.file)
  (dir : list (string * Csv.file)) :
  name <> name' ->
  get_file name (put_file name' content dir) = get_file name dir.
Proof.
  intro N. induction dir as [|[n c] dir IH]; simpl.
  - apply String.eqb_neq in N. now rewrite N.
  - destruct (String.eqb name' n) eqn:E; simpl.
    + apply String.eqb_eq in E. subst n.
      apply String.eqb_neq in N. now rewrite N.
    + now rewrite IH.
Qed.

(** X3: in either mode and in every world, [batch_outreach] adds to the
    campaign log at most the one campaign it returns, after the campaigns
    that were there: when it raises or finds no Contact, the log and the
    reports are as before; the campaign of a success carries the filters
    and the mode of the call, and its [total_enviados] is the number of
    its entries and the number returned. *)
Theorem batch_outreach_log (clock : nat -> Datetime.datetime)
  (py_str : list string -> string) (region language : option string)
  (max_emails : Z) (dry_run : bool) (w : world) :
  let run := batch_outreach clock py_str region language max_emails dry_run w in
  campaigns (fst run) = campaigns w ++ campaign_of (snd run) /\
  (campaign_of (snd run) = [] ->
   campaigns_db (fst run) = campaigns_db w /\ reports (fst run) = reports w) /\
  (forall n file c,
     snd run = Ok (Success n file c) ->
     c_total_enviados c = n /\ List.length (c_resultados c) = n /\
     c_region c = region /\ c_idioma c = language /\
     c_modo c = if dry_run then "simulacion" else "real").
Proof.
  intro run. subst run.
  destruct (load_libraries_frame region language true w)
    as [w1 [libs [Hload [Hc [Hr _]]]]].
  destruct libs as [|c0 cs].
  - destruct (batch_outreach_run clock py_str region language max_emails
                dry_run w w1 [] Hload) as [message ->].
    simpl. unfold campaigns. rewrite Hc, app_nil_r.
    split; [reflexivity|]. split; [intros _; now split|].
    intros n file c H. discriminate H.
  - destruct (outreach_loop clock py_str language dry_run
                (slice_to max_emails (c0 :: cs)) [] w1) as [w2 [out|x]] eqn:Hloop.
    + rewrite (batch_outreach_result clock py_str region language max_emails
                 dry_run w w1 w2 c0 cs out Hload Hloop).
      destruct (outreach_loop_log_frame _ _ _ _ _ _ _ _ _ Hloop) as [Hc2 _].
      simpl. unfold campaigns. rewrite Hc2, Hc.
      split; [reflexivity|]. split; [discriminate|].
      intros n file c [= <- _ <-]. repeat split.
    + rewrite (batch_outreach_run clock py_str region language max_emails
                 dry_run w w1 _ Hload w2 (Raise x) Hloop).
      destruct (outreach_loop_log_frame _ _ _ _ _ _ _ _ _ Hloop) as [Hc2 Hr2].
      simpl. unfold campaigns. rewrite Hc2, Hc, Hr2, Hr, app_nil_r.
      split; [reflexivity|]. split; [intros _; now split|].
      intros n file c H. discriminate H.
Qed.

(** X4: the entries of a successful [batch_outreach] belong, one by one
    and in the order of [load_libraries], to the Contacts of
    [libraries[:max_emails]]: nothing is reordered or skipped. Their
    number is the number returned; for a bound that is not negative it is
    the smaller of the bound and the number of eligible Contacts. *)
Theorem batch_outreach_entries (clock : nat -> Datetime.datetime)
  (py_str : list string -> string) (region language : option string)
  (max_emails : Z) (dry_run : bool) (w w1 w' : world) (libraries : list dict)
  (n : nat) (file : string) (c : campaign) :
  load_libraries region language true w = (w1, Ok libraries) ->
  batch_outreach clock py_str region language max_emails dry_run w
  = (w', Ok (Success n file c)) ->
  Forall2 (entry_of language dry_run) (slice_to max_emails libraries)
          (c_resultados c) /\
  n = List.length (slice_to max_emails libraries) /\
  ((0 <= max_emails)%Z ->
   n = Nat.min (Z.to_nat max_emails) (List.length libraries)).
Proof.
  intros Hload Hbatch. destruct libraries as [|c0 cs].
  - destruct (batch_outreach_run clock py_str region language max_emails
                dry_run w w1 [] Hload) as [message H].
    rewrite H in Hbatch. discriminate.
  - destruct (outreach_loop clock py_str language dry_run
                (slice_to max_emails (c0 :: cs)) [] w1) as [w2 [out|x]] eqn:Hloop.
    + rewrite (batch_outreach_result clock py_str region language max_emails
                 dry_run w w1 w2 c0 cs out Hload Hloop) in Hbatch.
      injection Hbatch as _ <- _ <-. simpl.
      destruct (outreach_loop_entries _ _ _ _ _ _ _ _ _ Hloop)
        as [new [E Hnew]].
      simpl in E. subst new.
      split; [exact Hnew|].
      pose proof (Forall2_length Hnew) as Hlen.
      split; [now rewrite Hlen|].
      intro Hmax. rewrite <- Hlen. unfold slice_to.
      apply Z.leb_le in Hmax. rewrite Hmax. apply length_firstn.
    + rewrite (batch_outreach_run clock py_str region language max_emails
                 dry_run w w1 _ Hload w2 (Raise x) Hloop) in Hbatch.
      discriminate.
Qed.

Lemma batch_outreach_entries_witness :
  Forall2 (entry_of None true)
          (slice_to 2 (filter (passes (supplied (Some "España"))
                                      (supplied None) true)
                              (contacts template)))
          (c_resultados Examples.spanish_campaign) /\
  2 = List.length
        (slice_to 2 (filter (passes (supplied (Some "España"))
                                    (supplied None) true)
                            (contacts template))) /\
  ((0 <= 2)%Z ->
   2 = Nat.min (Z.to_nat 2)
         (List.length (filter (passes (supplied (Some "España"))
                                      (supplied None) true)
                              (contacts template)))).
Proof.
  apply (batch_outreach_entries Examples.clock Examples.py_str
           (Some "España") None 2 true Examples.seed_world
           Examples.seed_world (fst Examples.spanish_run) _ 2
           "library_campaign_20240521_120000.csv" Examples.spanish_campaign).
  - apply (load_libraries_present (Some "España") None true
             Examples.seed_world template). reflexivity.
  - vm_compute. reflexivity.
Defined.

(** X5: a successful [batch_outreach] writes one report file: it is
    empty when no Contact was processed, and else holds the header of
    eight columns and one record of eight cells per entry, in order;
    every other file of the reports directory is left as it was. *)
Theorem batch_outreach_report (clock : nat -> Datetime.datetime)
  (py_str : list string -> string) (region language : option string)
  (max_emails : Z) (dry_run : bool) (w w' : world)
  (n : nat) (file : string) (c : campaign) :
  batch_outreach clock py_str region language max_emails dry_run w
  = (w', Ok (Success n file c)) ->
  get_file file (reports w')
  = Some (match c_resultados c with
          | [] => []
          | _ :: _ => report_header :: map (report_row py_str) (c_resultados c)
          end) /\
  (forall name, name <> file ->
                get_file name (reports w') = get_file name (reports w)).
Proof.
  intro Hbatch.
  destruct (load_libraries_frame region language true w)
    as [w1 [libs [Hload [_ [Hr _]]]]].
  destruct libs as [|c0 cs].
  - destruct (batch_outreach_run clock py_str region language max_emails
                dry_run w w1 [] Hload) as [message H].
    rewrite H in Hbatch. discriminate.
  - destruct (outreach_loop clock py_str language dry_run
                (slice_to max_emails (c0 :: cs)) [] w1) as [w2 [out|x]] eqn:Hloop.
    + rewrite (batch_outreach_result clock py_str region language max_emails
                 dry_run w w1 w2 c0 cs out Hload Hloop) in Hbatch.
      destruct (outreach_loop_log_frame _ _ _ _ _ _ _ _ _ Hloop) as [_ Hr2].
      injection Hbatch as <- _ <- <-. simpl. rewrite Hr2, Hr. split.
      * apply get_put_file.
      * intros name Hname. now apply get_put_file_other.
    + rewrite (batch_outreach_run clock py_str region language max_emails
                 dry_run w w1 _ Hload w2 (Raise x) Hloop) in Hbatch.
      discriminate.
Qed.

Lemma batch_outreach_report_witness :
  get_file "library_campaign_20240521_120000.csv"
           (reports (fst Examples.spanish_run))
  = Some (match c_resultados Examples.spanish_campaign with
          | [] => []
          | _ :: _ =>
              report_header ::
              map (report_row Examples.py_str)
                  (c_resultados Examples.spanish_campaign)
          end) /\
  (forall name, name <> "library_campaign_20240521_120000.csv" ->
                get_file name (reports (fst Examples.spanish_run))
                = get_file name (reports Examples.seed_world)).
Proof.
  apply (batch_outreach_report Examples.clock Examples.py_str
           (Some "España") None 2 true Examples.seed_world
           (fst Examples.spanish_run) 2
           "library_campaign_20240521_120000.csv" Examples.spanish_campaign).
  vm_compute. reflexivity.
Defined.

(** X6: when Contacts are eligible and the bound leaves none to process
    (a bound of zero does), [batch_outreach], dry or not, still succeeds:
    it returns the count 0, logs a campaign without entries, writes a
    report file that is completely empty, and leaves the store as
    [load_libraries] left it; this is not the result of a run that finds
    no Contact. *)
Theorem batch_outreach_none_processed (clock : nat -> Datetime.datetime)
  (py_str : list string -> string) (region language : option string)
  (max_emails : Z) (dry_run : bool) (w w1 : world) (libraries : list dict) :
  load_libraries region language true w = (w1, Ok libraries) ->
  libraries <> [] ->
  slice_to max_emails libraries = [] ->
  exists file c,
    batch_outreach clock py_str region language max_emails dry_run w
    = (mkWorld (libraries_db w1) (Some (campaigns w ++ [c]))
               (put_file file [] (reports w)) (S (S (S (ticks w)))),
       Ok (Success 0 file c)) /\
    c_resultados c = [] /\ c_total_enviados c = 0 /\
    status (Success 0 file c) = "success".
Proof.
  intros Hload Hne Hslice. destruct libraries as [|c0 cs]; [congruence|].
  destruct (load_libraries_frame region language true w)
    as [w1' [libs' [Hload' [Hc [Hr [Ht _]]]]]].
  rewrite Hload in Hload'. injection Hload' as <- _.
  assert (outreach_loop clock py_str language dry_run
            (slice_to max_emails (c0 :: cs)) [] w1 = (w1, Ok [])) as Hloop
    by now rewrite Hslice.
  eexists. eexists. split.
  - rewrite (batch_outreach_result clock py_str region language max_emails
               dry_run w w1 w1 c0 cs [] Hload Hloop).
    unfold campaigns. rewrite Hc, Hr, Ht. reflexivity.
  - repeat split.
Qed.

Lemma batch_outreach_none_processed_witness :
  exists file c,
    batch_outreach Examples.clock Examples.py_str None None 0 false
                   Examples.small_world
    = (mkWorld (libraries_db Examples.small_world)
               (Some (campaigns Examples.small_world ++ [c]))
               (put_file file [] (reports Examples.small_world))
               (S (S (S (ticks Examples.small_world)))),
       Ok (Success 0 file c)) /\
    c_resultados c = [] /\ c_total_enviados c = 0 /\
    status (Success 0 file c) = "success".
Proof.
  apply (batch_outreach_none_processed Examples.clock Examples.py_str
           None None 0 false Examples.small_world Examples.small_world
           (contacts Examples.small_store)).
  - vm_compute. reflexivity.
  - discriminate.
  - reflexivity.
Defined.

(* ------------------------------------------------------------------ *)
(** ** [generate_email]: the language and the template *)

(** X7: [generate_email] settles on the language argument when it is a
    non-empty string and else on the Contact's preferred language (['ES']
    when the Contact has no such entry); it returns that language as it
    is, with the English or the French template when the language is
    ['EN'] or ['FR'] and with the Spanish template for every other
    language, known or not; the body is the template with the name put
    in once, as it is. *)
Theorem generate_email_language (py_str : list string -> string)
  (library : dict) (language : option string) (w : world) :
  is_list (resolved_language library language) = false ->
  let lang := resolved_language library language in
  let t := if value_eqb lang (VStr "EN") then template_EN
           else if value_eqb lang (VStr "FR") then template_FR
           else template_ES in
  let nombre := get_default (Some "nombre") (VStr "Bibliotecario/a") library in
  (forall l, language = Some l -> l <> "" -> lang = VStr l) /\
  generate_email py_str library language w
  = (w, Ok (mkEmail (t_subject t)
                    (before_field (t_body t) ++ to_str py_str nombre ++
                     after_field (t_body t))%string
                    lang)).
Proof.
  intros Htext lang t nombre. split.
  - intros l -> Hl. unfold lang, resolved_language, supplied. simpl.
    apply String.eqb_neq in Hl. now rewrite Hl.
  - rewrite (generate_email_run py_str library language w Htext).
    fold lang. fold nombre.
    assert (template_for lang = t) as ->; [|reflexivity].
    unfold t, template_for, templates_get.
    destruct lang as [code| |l]; try reflexivity.
    simpl.
    destruct (String.eqb code "ES") eqn:E1;
      [apply String.eqb_eq in E1; subst; reflexivity|].
    destruct (String.eqb code "EN"); [reflexivity|].
    destruct (String.eqb code "FR"); reflexivity.
Qed.

Lemma generate_email_language_witness :
  (forall l, @None string = Some l -> l <> "" ->
             resolved_language Examples.roman None = VStr l) /\
  generate_email Examples.py_str Examples.roman None Examples.seed_world
  = (Examples.seed_world,
     Ok (mkEmail subject_ES
                 (before_field body_ES ++
                  "Biblioteca Nazionale Centrale di Roma" ++
                  after_field body_ES)%string
                 (VStr "IT"))).
Proof.
  apply (generate_email_language Examples.py_str Examples.roman None
           Examples.seed_world).
  vm_compute. reflexivity.
Defined.

(* ------------------------------------------------------------------ *)
(** ** [track_contact]: the cells it writes and the cells it keeps *)

(** X8: on a well-formed store, [track_contact] reads the clock once and
    rewrites the store with the first Contact that has the e-mail
    changed and every other Contact as it was. In the row stored for
    that Contact the cells [respuesta], [notas] and [fecha_contacto] hold
    the status and the notes as given and the day of the call, and every
    cell but these and [contactado] is as before. When the script reads
    the store again, it finds the status and the notes with their line
    ends translated: a carriage return given comes back as a line
    feed. *)
Theorem track_contact_cells (clock : nat -> Datetime.datetime)
  (py_str : list string -> string) (w : world) (f : Csv.file)
  (e status notes : string) (pre post : list dict) (c : dict) :
  libraries_db w = Some f -> well_formed f = true ->
  contacts f = pre ++ c :: post ->
  existsb (has_email (VStr e)) pre = false ->
  has_email (VStr e) c = true ->
  exists f' c',
    track_contact clock py_str (VStr e) status notes w
    = (set_libraries_db (Some f') (tick w), Ok tt) /\
    stored f' = pre ++ c' :: post /\
    lookup (Some "respuesta") c' = Some (VStr status) /\
    lookup (Some "notas") c' = Some (VStr notes) /\
    lookup (Some "fecha_contacto") c'
    = Some (VStr (Datetime.strftime_Ymd (clock (ticks w)))) /\
    keys c' = keys c /\
    (forall k,
       ~ In k ["contactado"; "fecha_contacto"; "respuesta"; "notas"] ->
       lookup (Some k) c' = lookup (Some k) c) /\
    contacts f' = pre ++ translated c' :: post /\
    lookup (Some "respuesta") (translated c')
    = Some (VStr (Csv.universal_newlines status)) /\
    lookup (Some "notas") (translated c')
    = Some (VStr (Csv.universal_newlines notes)) /\
    lookup (Some "fecha_contacto") (translated c')
    = Some (VStr (Datetime.strftime_Ymd (clock (ticks w)))) /\
    (forall k,
       ~ In k ["contactado"; "fecha_contacto"; "respuesta"; "notas"] ->
       lookup (Some k) (translated c') = lookup (Some k) c).
Proof.
  intros Hw WF Hc Hpre Hhit.
  destruct (track_contact_well_formed clock py_str (VStr e) status notes
              w f Hw WF) as [f' [Hrun [Hc' [_ [_ [_ Hs']]]]]].
  assert (existsb (has_email (VStr e)) (contacts f) = true) as Hex.
  { rewrite Hc, existsb_app. simpl. now rewrite Hhit, orb_true_r. }
  rewrite Hex in Hrun.
  assert (In c (contacts f)) as Hin
    by (rewrite Hc; apply in_or_app; right; now left).
  assert (translated c = c) as Hfix.
  { destruct (contacts_well_formed f WF)
      as [header [rows [_ [_ [_ [_ [_ [E _]]]]]]]].
    pose proof (rows_read_translated header rows) as H.
    rewrite <- E, Forall_forall in H. now apply H. }
  set (today := Datetime.strftime_Ymd (clock (ticks w))) in *.
  assert (translated (mark today status notes c)
          = mark today (Csv.universal_newlines status)
                 (Csv.universal_newlines notes) c) as Ht.
  { rewrite translated_mark, Hfix. unfold today.
    now rewrite universal_strftime_Ymd. }
  destruct (lookup_mark today status notes c) as [_ [L2 [L3 L4]]].
  destruct (lookup_mark today (Csv.universal_newlines status)
              (Csv.universal_newlines notes) c) as [_ [T2 [T3 T4]]].
  exists f', (mark today status notes c).
  split; [exact Hrun|].
  split; [rewrite Hs', Hc; now apply mark_first_split|].
  split; [exact L3|]. split; [exact L4|]. split; [exact L2|].
  split; [apply keys_mark; now apply (keys_contact f c WF)|].
  split; [intros k Hk; now apply lookup_mark_other|].
  rewrite Ht.
  split; [rewrite Hc', Hc; now apply mark_first_split|].
  split; [exact T3|]. split; [exact T4|]. split; [exact T2|].
  intros k Hk. now apply lookup_mark_other.
Qed.

Lemma track_contact_cells_witness :
  exists f' c',
    track_contact Examples.clock Examples.py_str (VStr "info@vpl.ca")
                  "interesado" Examples.two_line_notes Examples.small_world
    = (set_libraries_db (Some f') (tick Examples.small_world), Ok tt) /\
    stored f' = firstn 1 (contacts Examples.small_store) ++ c' :: [] /\
    lookup (Some "respuesta") c' = Some (VStr "interesado") /\
    lookup (Some "notas") c' = Some (VStr Examples.two_line_notes) /\
    lookup (Some "fecha_contacto") c'
    = Some (VStr (Datetime.strftime_Ymd
                    (Examples.clock (ticks Examples.small_world)))) /\
    keys c' = keys Examples.nameless /\
    (forall k,
       ~ In k ["contactado"; "fecha_contacto"; "respuesta"; "notas"] ->
       lookup (Some k) c' = lookup (Some k) Examples.nameless) /\
    contacts f'
    = firstn 1 (contacts Examples.small_store) ++ translated c' :: [] /\
    lookup (Some "respuesta") (translated c')
    = Some (VStr (Csv.universal_newlines "interesado")) /\
    lookup (Some "notas") (translated c')
    = Some (VStr (Csv.universal_newlines Examples.two_line_notes)) /\
    lookup (Some "fecha_contacto") (translated c')
    = Some (VStr (Datetime.strftime_Ymd
                    (Examples.clock (ticks Examples.small_world)))) /\
    (forall k,
       ~ In k ["contactado"; "fecha_contacto"; "respuesta"; "notas"] ->
       lookup (Some k) (translated c') = lookup (Some k) Examples.nameless).
Proof.
  apply (track_contact_cells Examples.clock Examples.py_str
           Examples.small_world Examples.small_store "info@vpl.ca"
           "interesado" Examples.two_line_notes
           (firstn 1 (contacts Examples.small_store)) [] Examples.nameless).
  - reflexivity.
  - vm_compute. reflexivity.
  - vm_compute. reflexivity.
  - vm_compute. reflexivity.
  - vm_compute. reflexivity.
Defined.

(** Notes of two lines given with a carriage return and a line feed
    between them are stored so and read back with the line feed alone:
    the text read is one character shorter than the text given. *)
Example track_contact_notes_read_back :
  let w' := fst (track_contact Examples.clock Examples.py_str
                               (VStr "info@vpl.ca") "interesado"
                               Examples.two_line_notes Examples.small_world) in
  option_map (fun f => map (lookup (Some "notas")) (skipn 1 (stored f)))
             (libraries_db w')
  = Some [Some (VStr Examples.two_line_notes)] /\
  option_map (fun f => map (lookup (Some "notas")) (skipn 1 (contacts f)))
             (libraries_db w')
  = Some [Some (VStr (Csv.universal_newlines Examples.two_line_notes))] /\
  String.length Examples.two_line_notes = 44 /\
  String.length (Csv.universal_newlines Examples.two_line_notes) = 43.
Proof.
  vm_compute. repeat split; reflexivity.
Qed.

(* ------------------------------------------------------------------ *)
(** ** [load_libraries] on any world *)

(** X9: [load_libraries] never raises. Without a store file it first
    writes the seed table and then reads it, so that it returns the seed
    Contacts that pass the filters; it touches neither the campaign log,
    the reports nor the clock, and loading again returns the same list
    and changes nothing more. *)
Theorem load_libraries_bootstrap (region language : option string)
  (only_new : bool) (w : world) :
  let store := match libraries_db w with
               | Some f => f
               | None => template
               end in
  let found := filter (passes (supplied region) (supplied language) only_new)
                      (contacts store) in
  load_libraries region language only_new w
  = (set_libraries_db (Some store) w, Ok found) /\
  bind (load_libraries region language only_new)
       (fun _ => load_libraries region language only_new) w
  = (set_libraries_db (Some store) w, Ok found).
Proof.
  intros store found.
  assert (load_libraries region language only_new w
          = (set_libraries_db (Some store) w, Ok found)) as H.
  { subst store found. destruct (libraries_db w) as [f|] eqn:E.
    - rewrite (load_libraries_present _ _ _ w f E).
      now rewrite set_libraries_db_same.
    - apply (load_libraries_absent _ _ _ w E). }
  split; [exact H|]. unfold bind. rewrite H.
  rewrite (load_libraries_present _ _ _ (set_libraries_db (Some store) w)
             store eq_refl).
  reflexivity.
Qed.

(* ------------------------------------------------------------------ *)
(** ** The shape of a success *)

Module ShapeFacts.

Import Py Store Text More RunFacts ReportFacts LoopFacts.

Section Running.

Variable clock : nat -> Datetime.datetime.
Variable py_str : list string -> string.

(** What a success of [batch_outreach] has done to the world. *)
Lemma batch_outreach_success (region language : option string)
  (max_emails : Z) (dry_run : bool) (w w' : world)
  (n : nat) (file : string) (c : campaign) :
  batch_outreach clock py_str region language max_emails dry_run w
  = (w', Ok (Success n file c)) ->
  exists t,
    campaigns_db w' = Some (campaigns w ++ [c]) /\
    reports w'
    = put_file file
        (match c_resultados c with
         | [] => []
         | _ :: _ => report_header :: map (report_row py_str) (c_resultados c)
         end) (reports w) /\
    c_total_enviados c = n /\ c_region c = region /\ c_idioma c = language /\
    c_id c = Datetime.strftime_stamp (clock t) /\
    file = ("library_campaign_" ++
            Datetime.strftime_stamp (clock (S (S t))) ++ ".csv")%string.
Proof.
  intro Hbatch.
  destruct (load_libraries_frame region language true w)
    as [w1 [libs [Hload [Hc [Hr _]]]]].
  destruct libs as [|c0 cs].
  - destruct (batch_outreach_run clock py_str region language max_emails
                dry_run w w1 [] Hload) as [message H].
    rewrite H in Hbatch. discriminate.
  - destruct (outreach_loop clock py_str language dry_run
                (slice_to max_emails (c0 :: cs)) [] w1) as [w2 [out|x]] eqn:Hloop.
    + rewrite (batch_outreach_result clock py_str region language max_emails
                 dry_run w w1 w2 c0 cs out Hload Hloop) in Hbatch.
      destruct (outreach_loop_log_frame _ _ _ _ _ _ _ _ _ Hloop)
        as [Hc2 Hr2].
      injection Hbatch as <- <- <- <-. simpl.
      exists (ticks w2). unfold campaigns.
      rewrite Hc2, Hc, Hr2, Hr. repeat split.
    + rewrite (batch_outreach_run clock py_str region language max_emails
                 dry_run w w1 _ Hload w2 (Raise x) Hloop) in Hbatch.
      discriminate.
Qed.

End Running.

Lemma length_put_file_present (name : string) (content : Csv.file)
  (dir : list (string * Csv.file)) :
  get_file name dir <> None ->
  List.length (put_file name content dir) = List.length dir.
Proof.
  induction dir as [|[n c] dir IH]; simpl; [congruence|].
  destruct (String.eqb name n); simpl; [reflexivity|].
  intro H. now rewrite IH.
Qed.

End ShapeFacts.

Import ShapeFacts.

(* ------------------------------------------------------------------ *)
(** ** Statistics after a campaign, and the script *)

(** X10: after a successful [batch_outreach], [get_campaign_stats]
    counts one campaign more and the entries of the run more in its
    totals, and one campaign more in the bucket of the run's region
    filter: ['Todas'] when the run had no region or an empty one. *)
Theorem stats_after_batch (clock : nat -> Datetime.datetime)
  (py_str : list string -> string) (region language : option string)
  (max_emails : Z) (dry_run : bool) (w w' : world)
  (n : nat) (file : string) (c : campaign) :
  batch_outreach clock py_str region language max_emails dry_run w
  = (w', Ok (Success n file c)) ->
  exists por_region por_idioma,
    get_campaign_stats w'
    = (w', Ok (Stats (S (List.length (campaigns w)))
                     (list_sum (map c_total_enviados (campaigns w)) + n)
                     por_region por_idioma)) /\
    counter_get (or_default region "Todas") por_region
    = S (count_bucket region_bucket (or_default region "Todas") (campaigns w)) /\
    counter_get (or_default language "Auto") por_idioma
    = S (count_bucket idioma_bucket (or_default language "Auto") (campaigns w)).
Proof.
  intro Hbatch.
  destruct (batch_outreach_success clock py_str _ _ _ _ _ _ _ _ _ Hbatch)
    as [t [Hc [_ [Hn [Hreg [Hlang _]]]]]].
  unfold get_campaign_stats. rewrite Hc.
  destruct (count_campaigns (campaigns w ++ [c]) ([], []))
    as [_ [_ [H3 [H4 _]]]].
  eexists. eexists. split; [|split].
  - rewrite fold_total, length_app, map_app, list_sum_app. simpl.
    rewrite Hn, Nat.add_0_r, Nat.add_1_r. reflexivity.
  - rewrite H3. unfold count_bucket. rewrite filter_app, length_app. simpl.
    unfold region_bucket at 2. rewrite Hreg, String.eqb_refl. simpl. lia.
  - rewrite H4. unfold count_bucket. rewrite filter_app, length_app. simpl.
    unfold idioma_bucket at 2. rewrite Hlang, String.eqb_refl. simpl. lia.
Qed.

Lemma stats_after_batch_witness :
  exists por_region por_idioma,
    get_campaign_stats (fst Examples.spanish_run)
    = (fst Examples.spanish_run,
       Ok (Stats (S (List.length (campaigns Examples.seed_world)))
                 (list_sum (map c_total_enviados
                                (campaigns Examples.seed_world)) + 2)
                 por_region por_idioma)) /\
    counter_get (or_default (Some "España") "Todas") por_region
    = S (count_bucket region_bucket (or_default (Some "España") "Todas")
                      (campaigns Examples.seed_world)) /\
    counter_get (or_default None "Auto") por_idioma
    = S (count_bucket idioma_bucket (or_default None "Auto")
                      (campaigns Examples.seed_world)).
Proof.
  apply (stats_after_batch Examples.clock Examples.py_str (Some "España")
           None 2 true Examples.seed_world (fst Examples.spanish_run) 2
           "library_campaign_20240521_120000.csv" Examples.spanish_campaign).
  vm_compute. reflexivity.
Defined.

(** X11: the script run on a world whose store exists never changes the
    store. When no Contact of the region ['España'] is eligible it
    raises [KeyError('total_enviados')], the result of such a run having
    no such entry, and leaves the world as it was; when one is eligible
    in a well-formed store with the columns the runner reads, it runs to
    its end. *)
Theorem main_script (clock : nat -> Datetime.datetime)
  (py_str : list string -> string) (w : world) (f : Csv.file) :
  libraries_db w = Some f ->
  let eligible := filter (passes (Some "España") None true) (contacts f) in
  libraries_db (fst (main clock py_str w)) = Some f /\
  (eligible = [] ->
   main clock py_str w = (w, Raise (KeyError "total_enviados"))) /\
  (eligible <> [] -> well_formed f = true ->
   forallb has_runner_columns (contacts f) = true ->
   snd (main clock py_str w) = Ok tt).
Proof.
  intros Hw eligible.
  assert (exists r, get_campaign_stats w = (w, Ok r)) as [r Hstats].
  { unfold get_campaign_stats. destruct (campaigns_db w); now eexists. }
  pose proof (batch_outreach_run clock py_str (Some "España") None 5 true
                w w _ (load_libraries_present (Some "España") None true w f Hw))
    as Hrun.
  change (filter (passes (supplied (Some "España")) (supplied None) true)
                 (contacts f)) with eligible in Hrun.
  unfold main, bind. rewrite Hstats.
  split; [|split].
  - destruct eligible as [|c0 cs] eqn:E.
    + destruct Hrun as [message ->]. exact Hw.
    + destruct (outreach_loop clock py_str None true
                  (slice_to 5 (c0 :: cs)) [] w) as [w2 r'] eqn:Hloop.
      specialize (Hrun w2 r' eq_refl).
      destruct (outreach_loop_dry_frame clock py_str _ _ _ _ _ _ Hloop)
        as [Hlib _].
      destruct r' as [out|x].
      * cbv zeta in Hrun. rewrite Hrun.
        destruct (snd (Csv.write_dicts py_str out)); simpl; congruence.
      * rewrite Hrun. simpl. congruence.
  - intro E. rewrite E in Hrun. destruct Hrun as [message ->]. reflexivity.
  - intros Hne WF Hcols.
    destruct (batch_outreach_succeeds clock py_str (Some "España") None 5
                true w f Hw WF Hcols Hne) as [w' [n [file [c [-> _]]]]].
    reflexivity.
Qed.

Lemma main_script_witness :
  libraries_db (fst (main Examples.clock Examples.py_str Examples.small_world))
  = Some Examples.small_store /\
  (filter (passes (Some "España") None true) (contacts Examples.small_store)
   = [] ->
   main Examples.clock Examples.py_str Examples.small_world
   = (Examples.small_world, Raise (KeyError "total_enviados"))) /\
  (filter (passes (Some "España") None true) (contacts Examples.small_store)
   <> [] ->
   well_formed Examples.small_store = true ->
   forallb has_runner_columns (contacts Examples.small_store) = true ->
   snd (main Examples.clock Examples.py_str Examples.small_world) = Ok tt).
Proof.
  apply (main_script Examples.clock Examples.py_str Examples.small_world
           Examples.small_store).
  reflexivity.
Defined.

(* ------------------------------------------------------------------ *)
(** ** A real run marks the Contacts it processes *)

Module RealFacts.

Import Py PyFacts Store Text More CsvFacts MarkFacts TrackFacts TableFacts
  FormatFacts RunFacts ReportFacts TotalFacts LoopFacts.

Lemma has_email_lookup (e : value) (c : dict) :
  has_email e c = true -> lookup (Some "email") c = Some e.
Proof.
  unfold has_email. destruct (lookup (Some "email") c) as [v|];
    [|discriminate].
  intro H. apply value_eqb_eq in H. now subst.
Qed.

Lemma has_email_own (c : dict) (v : value) :
  lookup (Some "email") c = Some v -> has_email v c = true.
Proof. unfold has_email. intros ->. now apply value_eqb_eq. Qed.

Lemma tracked_snoc (sent : list value) (e : value) (c : dict) :
  tracked (sent ++ [e]) c = tracked sent c || has_email e c.
Proof. unfold tracked. rewrite existsb_app. simpl. now rewrite orb_false_r. Qed.

(** Sending to an e-mail that no row has changes no mark. *)
Lemma marked_miss (sent : list value) (e : value) (ds0 ds : list dict) :
  existsb (has_email e) ds0 = false ->
  marked sent ds0 ds -> marked (sent ++ [e]) ds0 ds.
Proof.
  intros Hmiss H. induction H as [|c c' cs0 cs Hc _ IH]; [constructor|].
  simpl in Hmiss. apply orb_false_iff in Hmiss as [Hc0 Hcs].
  constructor; [|now apply IH].
  now rewrite tracked_snoc, Hc0, orb_false_r.
Qed.

Lemma marked_has_email (sent : list value) (e : value) (c c' : dict) :
  (if tracked sent c then exists today, c' = mark today "enviado" "" c
   else c' = c) ->
  has_email e c' = has_email e c.
Proof.
  destruct (tracked sent c); [intros [t ->]; apply has_email_mark|].
  now intros ->.
Qed.

(** One more call of [track_contact] from the loop marks one more
    Contact. *)
Lemma marked_step (sent : list value) (e : value) (today : string)
  (ds0 ds : list dict) :
  unique_emails ds0 = true ->
  marked sent ds0 ds ->
  marked (sent ++ [e]) ds0 (mark_first today e "enviado" "" ds).
Proof.
  intros Hu H. induction H as [|c c' cs0 cs Hc Hcs IH]; [constructor|].
  simpl in Hu. apply andb_true_iff in Hu as [Hu0 Hu].
  simpl. rewrite (marked_has_email sent e c c' Hc).
  destruct (has_email e c) eqn:He.
  - constructor.
    + rewrite tracked_snoc, He, orb_true_r.
      destruct (tracked sent c).
      * destruct Hc as [t ->]. exists today. apply mark_mark.
      * subst c'. now exists today.
    + apply marked_miss; [|exact Hcs].
      rewrite (has_email_lookup e c He) in Hu0.
      now apply negb_true_iff in Hu0.
  - constructor; [|now apply IH].
    now rewrite tracked_snoc, He, orb_false_r.
Qed.

Lemma contacted_mark (today status notes : string) (c : dict) :
  contacted (mark today status notes c) = true.
Proof.
  unfold contacted, get, get_default, mark.
  rewrite !lookup_set_other by discriminate.
  now rewrite lookup_set_same.
Qed.

(** In the marked rows, the Contacts that still pass with [only_new] are
    those that passed and were not sent to. *)
Lemma filter_marked (region language : option string) (sent : list value)
  (ds0 ds : list dict) :
  marked sent ds0 ds ->
  filter (passes region language true) ds
  = filter (fun c => passes region language true c && negb (tracked sent c))
           ds0.
Proof.
  induction 1 as [|c c' cs0 cs Hc _ IH]; [reflexivity|].
  simpl. rewrite IH. destruct (tracked sent c).
  - destruct Hc as [t ->]. unfold passes at 1.
    rewrite contacted_mark. simpl. rewrite !andb_false_r. reflexivity.
  - subst c'. now rewrite andb_true_r.
Qed.

Lemma filter_and (A : Type) (p q : A -> bool) (l : list A) :
  filter (fun x => p x && q x) l = filter q (filter p l).
Proof.
  induction l as [|x l IH]; simpl; [reflexivity|].
  destruct (p x); simpl; [|exact IH]. destruct (q x); now rewrite IH.
Qed.

Lemma existsb_filter_false (A : Type) (p q : A -> bool) (l : list A) :
  existsb p l = false -> existsb p (filter q l) = false.
Proof.
  induction l as [|x l IH]; simpl; [reflexivity|].
  intro H. apply orb_false_iff in H as [Hx Hl].
  destruct (q x); simpl; [now rewrite Hx, IH | now apply IH].
Qed.

Lemma unique_emails_filter (p : dict -> bool) (ds : list dict) :
  unique_emails ds = true -> unique_emails (filter p ds) = true.
Proof.
  induction ds as [|c ds IH]; simpl; [reflexivity|].
  intro H. apply andb_true_iff in H as [Hc Hds].
  destruct (p c); simpl; [|now apply IH].
  rewrite (IH Hds), andb_true_r.
  destruct (lookup (Some "email") c) as [v|]; [|reflexivity].
  apply negb_true_iff in Hc. apply negb_true_iff.
  now apply existsb_filter_false.
Qed.

(** Among rows with pairwise different e-mails, those not sent to, when
    the first [k] were sent to, are the rows after the first [k]. *)
Lemma untracked_skipn (k : nat) (ds : list dict) :
  unique_emails ds = true ->
  Forall (fun c => In (Some "email") (keys c)) ds ->
  filter (fun c => negb (tracked (emails (firstn k ds)) c)) ds = skipn k ds.
Proof.
  revert ds. induction k as [|k IH]; intros ds Hu Hk.
  - simpl. clear Hu Hk. induction ds as [|c ds IH]; simpl; congruence.
  - destruct ds as [|c ds]; [reflexivity|].
    inversion Hk as [|? ? Hc Hds]; subst.
    destruct (lookup_in_keys _ _ Hc) as [v Hv].
    simpl in Hu. rewrite Hv in Hu.
    apply andb_true_iff in Hu as [Hu0 Hu]. apply negb_true_iff in Hu0.
    simpl. unfold get, get_default. rewrite Hv.
    rewrite (has_email_own c v Hv). simpl.
    rewrite <- (IH ds Hu Hds). apply filter_ext_in.
    intros c2 Hin. simpl.
    assert (has_email v c2 = false) as ->; [|reflexivity].
    destruct (has_email v c2) eqn:E; [|reflexivity].
    assert (existsb (has_email v) ds = true) as Hex
      by (apply existsb_exists; now exists c2).
    congruence.
Qed.

Lemma skipn_length_firstn (A : Type) (k : nat) (l : list A) :
  skipn (List.length (firstn k l)) l = skipn k l.
Proof.
  revert l. induction k as [|k IH]; intros [|x l]; simpl; auto.
Qed.

Lemma slice_to_firstn (max_emails : Z) (l : list dict) :
  exists k, slice_to max_emails l = firstn k l.
Proof. unfold slice_to. destruct (0 <=? max_emails)%Z; eauto. Qed.

Section Running.

Variable clock : nat -> Datetime.datetime.
Variable py_str : list string -> string.

Lemma store_marked_tick (sent : list value) (ds0 : list dict) (w : world) :
  store_marked sent ds0 w -> store_marked sent ds0 (tick w).
Proof. destruct w. exact (fun H => H). Qed.

Lemma track_contact_marked (sent : list value) (ds0 : list dict) (e : value)
  (w : world) :
  unique_emails ds0 = true -> store_marked sent ds0 w ->
  exists w', track_contact clock py_str e "enviado" "" w = (w', Ok tt) /\
             store_marked (sent ++ [e]) ds0 w'.
Proof.
  intros Hu [f [Hw [WF [Hrows Hm]]]].
  destruct (track_contact_well_formed clock py_str e "enviado" "" w f Hw WF)
    as [f' [Hrun [Hc [_ [Hshape _]]]]].
  destruct (Hshape Hrows) as [WF' [_ Hlen]].
  eexists. split; [exact Hrun|]. exists f'. split; [reflexivity|].
  split; [assumption|]. split.
  - destruct f as [|h [|r rows]]; simpl in Hrows; try congruence.
    destruct f' as [|h' [|r' rows']]; simpl in Hlen; discriminate.
  - rewrite Hc. now apply marked_step.
Qed.

(** The loop of a real run: it never raises on Contacts it can process,
    and the store ends with the Contacts of the loop marked. *)
Lemma outreach_loop_real (language : option string)
  (libraries results : list dict) (sent : list value) (ds0 : list dict)
  (w : world) :
  unique_emails ds0 = true ->
  store_marked sent ds0 w ->
  forallb runnable libraries = true ->
  exists w' out,
    outreach_loop clock py_str language false libraries results w
    = (w', Ok out) /\
    store_marked (sent ++ emails libraries) ds0 w'.
Proof.
  intro Hu. revert results sent w.
  induction libraries as [|library rest IH]; intros results sent w Hm Hcols.
  - exists w, results. simpl. rewrite app_nil_r. now split.
  - simpl in Hcols. apply andb_true_iff in Hcols as [Hc Hrest].
    unfold runnable in Hc. apply andb_true_iff in Hc as [Hc Htext].
    apply negb_true_iff in Htext.
    unfold has_runner_columns, runner_columns in Hc. simpl in Hc.
    destruct (lookup (Some "nombre") library) as [vn|] eqn:En;
      [|discriminate].
    destruct (lookup (Some "email") library) as [ve|] eqn:Ee;
      [|discriminate].
    destruct (lookup (Some "ciudad") library) as [vc|] eqn:Ec;
      [|discriminate].
    destruct (lookup (Some "pais") library) as [vp|] eqn:Ep;
      [|discriminate].
    simpl. unfold bind at 1.
    rewrite generate_email_run by now apply resolved_language_text.
    unfold bind, subscript. rewrite En, Ee, Ec, Ep.
    unfold ret at 1. unfold ret at 1. unfold ret at 1. unfold ret at 1.
    unfold now at 1. unfold ret at 1.
    destruct (track_contact_marked sent ds0 ve (tick w) Hu
                (store_marked_tick sent ds0 w Hm)) as [w1 [Htrack Hm1]].
    rewrite Htrack.
    match goal with
    | |- context [results ++ [?r]] => set (result := r)
    end.
    destruct (IH (results ++ [result]) (sent ++ [ve]) w1 Hm1 Hrest)
      as [w' [out [Hrun Hm']]].
    exists w', out. split; [exact Hrun|].
    unfold emails in *. simpl. unfold get at 1, get_default. rewrite Ee.
    now rewrite <- app_assoc in Hm'.
Qed.

End Running.

End RealFacts.

Import RealFacts.

Lemma marked_nil (ds : list dict) : marked [] ds ds.
Proof.
  unfold marked. induction ds as [|c ds IH]; constructor;
    [reflexivity | exact IH].
Qed.

(** X12: a real run on a well-formed store whose Contacts have pairwise
    different e-mails (and the columns the runner reads) succeeds, and
    the store it leaves is the store it found with exactly the processed
    Contacts marked (contacted, outcome ['enviado'], empty notes);
    loading again with the same filters returns the eligible Contacts
    that were not processed, in order, so that the next run goes on where
    this one stopped. *)
Theorem real_run_marks_processed (clock : nat -> Datetime.datetime)
  (py_str : list string -> string) (region language : option string)
  (max_emails : Z) (w : world) (f : Csv.file) :
  libraries_db w = Some f -> well_formed f = true ->
  forallb has_runner_columns (contacts f) = true ->
  unique_emails (contacts f) = true ->
  let eligible := filter (passes (supplied region) (supplied language) true)
                         (contacts f) in
  eligible <> [] ->
  exists w' n file c f',
    batch_outreach clock py_str region language max_emails false w
    = (w', Ok (Success n file c)) /\
    n = List.length (slice_to max_emails eligible) /\
    libraries_db w' = Some f' /\
    marked (emails (slice_to max_emails eligible)) (contacts f) (contacts f') /\
    load_libraries region language true w' = (w', Ok (skipn n eligible)).
Proof.
  intros Hw WF Hcols Hu eligible Hne.
  pose proof (load_libraries_present region language true w f Hw) as Hload.
  fold eligible in Hload.
  destruct (contacts_well_formed f WF)
    as [header [rows [Ef [_ [_ [Hreq [HL [Ec _]]]]]]]].
  assert (forallb runnable (slice_to max_emails eligible) = true) as Hrun.
  { apply forallb_slice_to. subst eligible. apply forallb_filter.
    rewrite Ec in Hcols |- *. now apply runnable_rows. }
  assert (store_marked [] (contacts f) w) as Hm.
  { exists f. repeat split; try assumption; [|apply marked_nil].
    intro H. apply (contacts_no_rows f WF) in H. subst eligible.
    rewrite H in Hne. now apply Hne. }
  destruct (outreach_loop_real clock py_str language
              (slice_to max_emails eligible) [] [] (contacts f) w Hu Hm Hrun)
    as [w2 [out [Hloop [f' [Hw2 [WF' [_ Hmarked]]]]]]].
  simpl in Hmarked.
  destruct (outreach_loop_entries _ _ _ _ _ _ _ _ _ Hloop)
    as [new [E Hnew]].
  simpl in E. subst new. pose proof (Forall2_length Hnew) as Hlen.
  destruct eligible as [|c0 cs] eqn:Eel; [congruence|].
  pose proof (batch_outreach_result clock py_str region language max_emails
                false w w w2 c0 cs out Hload Hloop) as Hbatch.
  cbv zeta in Hbatch.
  eexists. exists (List.length out). eexists. eexists. exists f'.
  split; [exact Hbatch|]. split; [now rewrite Hlen|].
  split; [exact Hw2|]. split; [exact Hmarked|].
  match goal with
  | |- load_libraries _ _ _ ?w0 = _ =>
      rewrite (load_libraries_present region language true w0 f' Hw2)
  end.
  f_equal. f_equal.
  rewrite (filter_marked _ _ _ _ _ Hmarked), filter_and.
  fold eligible. rewrite Eel.
  destruct (slice_to_firstn max_emails (c0 :: cs)) as [k Hk].
  rewrite <- Hlen, Hk, skipn_length_firstn.
  apply untracked_skipn.
  - rewrite <- Eel. subst eligible. now apply unique_emails_filter.
  - apply Forall_forall. intros c Hin.
    assert (In c (contacts f)) as Hc.
    { rewrite <- Eel in Hin. subst eligible.
      apply filter_In in Hin. tauto. }
    rewrite Ec in Hc. apply in_map_iff in Hc as [r [<- Hr]].
    rewrite Forall_forall in HL. apply email_in_row; auto.
Qed.

Lemma real_run_marks_processed_witness :
  exists w' n file c f',
    batch_outreach Examples.clock Examples.py_str (Some "Europa") None 1 false
                   Examples.seed_world
    = (w', Ok (Success n file c)) /\
    n = List.length
          (slice_to 1 (filter (passes (supplied (Some "Europa"))
                                      (supplied None) true)
                              (contacts template))) /\
    libraries_db w' = Some f' /\
    marked (emails (slice_to 1 (filter (passes (supplied (Some "Europa"))
                                               (supplied None) true)
                                       (contacts template))))
           (contacts template) (contacts f') /\
    load_libraries (Some "Europa") None true w'
    = (w', Ok (skipn n (filter (passes (supplied (Some "Europa"))
                                       (supplied None) true)
                               (contacts template)))).
Proof.
  apply (real_run_marks_processed Examples.clock Examples.py_str
           (Some "Europa") None 1 Examples.seed_world template).
  - reflexivity.
  - vm_compute. reflexivity.
  - vm_compute. reflexivity.
  - vm_compute. reflexivity.
  - vm_compute. discriminate.
Defined.

(* ------------------------------------------------------------------ *)
(** ** Two runs within the same second *)

(** X13: when the clock shows the same second throughout two successful
    runs of [batch_outreach], the second run has the identifier and the
    report file name of the first: the log holds both campaigns under
    one identifier, and the report of the first run is overwritten, no
    file being added, by the report of the second. *)
Theorem same_second_runs (clock : nat -> Datetime.datetime)
  (py_str : list string -> string)
  (region1 language1 region2 language2 : option string)
  (max1 max2 : Z) (dry1 dry2 : bool) (w w1 w2 : world)
  (n1 n2 : nat) (file1 file2 : string) (c1 c2 : campaign) :
  (forall a b, Datetime.strftime_stamp (clock a)
               = Datetime.strftime_stamp (clock b)) ->
  batch_outreach clock py_str region1 language1 max1 dry1 w
  = (w1, Ok (Success n1 file1 c1)) ->
  batch_outreach clock py_str region2 language2 max2 dry2 w1
  = (w2, Ok (Success n2 file2 c2)) ->
  file2 = file1 /\ c_id c2 = c_id c1 /\
  campaigns w2 = campaigns w ++ [c1; c2] /\
  List.length (reports w2) = List.length (reports w1) /\
  get_file file1 (reports w2)
  = Some (match c_resultados c2 with
          | [] => []
          | _ :: _ => report_header :: map (report_row py_str) (c_resultados c2)
          end).
Proof.
  intros Hclock H1 H2.
  destruct (batch_outreach_success clock py_str _ _ _ _ _ _ _ _ _ H1)
    as [t1 [Hc1 [Hr1 [_ [_ [_ [Hid1 Hf1]]]]]]].
  destruct (batch_outreach_success clock py_str _ _ _ _ _ _ _ _ _ H2)
    as [t2 [Hc2 [Hr2 [_ [_ [_ [Hid2 Hf2]]]]]]].
  assert (file2 = file1) as Hfile.
  { rewrite Hf1, Hf2. now rewrite (Hclock (S (S t2)) (S (S t1))). }
  split; [exact Hfile|].
  split; [rewrite Hid1, Hid2; apply Hclock|].
  split.
  - unfold campaigns at 1. rewrite Hc2. unfold campaigns at 1. rewrite Hc1.
    now rewrite <- app_assoc.
  - rewrite Hr2, Hfile. split; [|apply get_put_file].
    apply length_put_file_present. rewrite Hr1, get_put_file. discriminate.
Qed.

Lemma same_second_runs_witness :
  "library_campaign_20240517_120000.csv"
  = "library_campaign_20240517_120000.csv" /\
  c_id (Examples.first_campaign (snd Examples.frozen_run_2))
  = c_id (Examples.first_campaign (snd Examples.frozen_run_1)) /\
  campaigns (fst Examples.frozen_run_2)
  = campaigns Examples.seed_world ++
    [Examples.first_campaign (snd Examples.frozen_run_1);
     Examples.first_campaign (snd Examples.frozen_run_2)] /\
  List.length (reports (fst Examples.frozen_run_2))
  = List.length (reports (fst Examples.frozen_run_1)) /\
  get_file "library_campaign_20240517_120000.csv"
           (reports (fst Examples.frozen_run_2))
  = Some (match c_resultados
                  (Examples.first_campaign (snd Examples.frozen_run_2)) with
          | [] => []
          | _ :: _ =>
              report_header ::
              map (report_row Examples.py_str)
                  (c_resultados
                     (Examples.first_campaign (snd Examples.frozen_run_2)))
          end).
Proof.
  apply (same_second_runs Examples.frozen_clock Examples.py_str
           (Some "España") None (Some "Europa") None 5 1 true true
           Examples.seed_world (fst Examples.frozen_run_1)
           (fst Examples.frozen_run_2) 3 1
           "library_campaign_20240517_120000.csv"
           "library_campaign_20240517_120000.csv"
           (Examples.first_campaign (snd Examples.frozen_run_1))
           (Examples.first_campaign (snd Examples.frozen_run_2))).
  - intros a b. reflexivity.
  - vm_compute. reflexivity.
  - vm_compute. reflexivity.
Defined.

(* ------------------------------------------------------------------ *)
(** ** A row with too many cells *)

Module LongRowFacts.

Import Py PyFacts Store Text More CsvFacts MarkFacts TrackFacts EdgeFacts.

Lemma fold_set_keys_acc (x : key) (l : list (string * string)) (acc : dict) :
  In x (keys acc) ->
  In x (keys (fold_left (fun d kv => set (Some (fst kv)) (VStr (snd kv)) d)
                        l acc)).
Proof.
  revert acc. induction l as [|kv l IH]; intros acc H; [exact H|].
  simpl. apply IH. now apply in_keys_set_other.
Qed.

Lemma fold_set_keys_combine (k : string) (header r : Csv.record) (acc : dict) :
  In k (firstn (List.length r) header) ->
  In (Some k)
     (keys (fold_left (fun d kv => set (Some (fst kv)) (VStr (snd kv)) d)
                      (combine header r) acc)).
Proof.
  revert r acc. induction header as [|k0 header IH]; intros r acc H.
  - now rewrite firstn_nil in H.
  - destruct r as [|x r]; [destruct H|]. simpl in H |- *.
    destruct H as [-> | H].
    + apply fold_set_keys_acc, in_keys_set.
    + now apply IH.
Qed.

Lemma fold_restval_keys_acc (x : key) (ks : list string) (d : dict) :
  In x (keys d) ->
  In x (keys (fold_left (fun d k' => set (Some k') VNone d) ks d)).
Proof.
  revert d. induction ks as [|k0 ks IH]; intros d H; [exact H|].
  simpl. apply IH. now apply in_keys_set_other.
Qed.

Lemma fold_restval_keys (k : string) (ks : list string) (d : dict) :
  In k ks ->
  In (Some k) (keys (fold_left (fun d k' => set (Some k') VNone d) ks d)).
Proof.
  revert d. induction ks as [|k0 ks IH]; intros d H; [destruct H|].
  simpl. destruct H as [-> | H].
  - apply fold_restval_keys_acc, in_keys_set.
  - now apply IH.
Qed.

(** A row read by [DictReader] has an entry for every name of the
    header, whatever the number of its cells. *)
Lemma make_row_keys_header (k : string) (header r : Csv.record) :
  In k header -> In (Some k) (keys (Csv.make_row header r)).
Proof.
  intro Hk. unfold Csv.make_row.
  rewrite <- (firstn_skipn (List.length r) header) in Hk.
  apply in_app_or in Hk.
  destruct (Nat.ltb (List.length header) (List.length r)) eqn:E1.
  - apply in_keys_set_other. apply fold_set_keys_combine.
    destruct Hk as [Hk | Hk]; [exact Hk|].
    apply Nat.ltb_lt in E1. rewrite skipn_all2 in Hk by lia. destruct Hk.
  - destruct (Nat.ltb (List.length r) (List.length header)) eqn:E2.
    + destruct Hk as [Hk | Hk].
      * apply fold_restval_keys_acc. now apply fold_set_keys_combine.
      * now apply fold_restval_keys.
    + apply fold_set_keys_combine.
      destruct Hk as [Hk | Hk]; [exact Hk|].
      apply Nat.ltb_ge in E1, E2. rewrite skipn_all2 in Hk by lia.
      destruct Hk.
Qed.

(** A row with more cells than the header has an entry under [None]. *)
Lemma make_row_long (header r : Csv.record) :
  List.length header < List.length r ->
  In None (keys (Csv.make_row header r)).
Proof.
  intro H. unfold Csv.make_row. apply Nat.ltb_lt in H. rewrite H.
  apply in_keys_set.
Qed.

Lemma mark_first_app (today : string) (e : value) (status notes : string)
  (a b : list dict) :
  mark_first today e status notes (a ++ b)
  = mark_first today e status notes a ++
    (if existsb (has_email e) a then b
     else mark_first today e status notes b).
Proof.
  induction a as [|c a IH]; simpl; [reflexivity|].
  destruct (has_email e c); simpl; [reflexivity|]. now rewrite IH.
Qed.

Lemma mark_keeps_key (k : key) (today status notes : string) (c : dict) :
  In k (keys c) -> In k (keys (mark today status notes c)).
Proof. intro H. unfold mark. now repeat apply in_keys_set_other. Qed.

Lemma mark_first_head_key (k : key) (today : string) (e : value)
  (status notes : string) (c : dict) (cs : list dict) :
  In k (keys c) ->
  exists c' cs', mark_first today e status notes (c :: cs) = c' :: cs' /\
                 In k (keys c').
Proof.
  intro H. simpl. destruct (has_email e c).
  - eexists. eexists. split; [reflexivity|]. now apply mark_keeps_key.
  - eexists. eexists. split; [reflexivity|]. exact H.
Qed.

Section Writing.

Variable py_str : list string -> string.

Lemma dict_to_list_extra (header : Csv.record) (d : dict) :
  In None (keys d) -> Csv.dict_to_list py_str (map Some header) d = None.
Proof.
  intro H. unfold Csv.dict_to_list.
  assert (existsb (fun k => negb (mem k (map Some header))) (keys d) = true)
    as ->; [|reflexivity].
  apply existsb_exists. exists None. split; [exact H|].
  apply negb_true_iff. unfold mem.
  destruct (existsb (key_eqb None) (map Some header)) eqn:E; [|reflexivity].
  apply existsb_exists in E as [x [Hx Ex]].
  apply in_map_iff in Hx as [y [<- _]]. discriminate.
Qed.

(** Writing stops at the first row that has an entry under [None]. *)
Lemma writerows_stop (header : Csv.record) (rows : list Csv.record)
  (d : dict) (ds : list dict) :
  NoDup header ->
  Forall (fun r => List.length r = List.length header) rows ->
  In None (keys d) ->
  Csv.writerows py_str (map Some header) (map (row_of header) rows ++ d :: ds)
  = (rows, false).
Proof.
  intros ND HL Hd. induction HL as [|r rows L _ IH]; simpl.
  - now rewrite (dict_to_list_extra header d Hd).
  - now rewrite (dict_to_list_row_of py_str _ _ ND L), IH.
Qed.

End Writing.

End LongRowFacts.

Import LongRowFacts.

(** X14: when well-formed rows of a store are followed by a row with
    more cells than the header, every call of [track_contact], whether
    its e-mail is found or not, raises [ValueError] after it has emptied
    the file and written the header and the rows before the long one:
    the long row and all rows after it are lost. The rows kept are
    written as they were read, with the line ends of their cells
    translated, when none of them has the e-mail. *)
Theorem track_contact_long_row (clock : nat -> Datetime.datetime)
  (py_str : list string -> string) (w : world)
  (header long : Csv.record) (good rest : list Csv.record)
  (e : value) (status notes : string) :
  libraries_db w = Some (header :: good ++ long :: rest) ->
  well_formed (header :: good) = true -> good <> [] ->
  List.length header < List.length long ->
  exists w' good',
    track_contact clock py_str e status notes w = (w', Raise ValueError) /\
    libraries_db w' = Some (header :: good') /\
    List.length good' = List.length good /\
    (existsb (has_email e) (map (row_of header) (Csv.read_text good)) = false ->
     good' = Csv.read_text good) /\
    (plain_cells good = true ->
     existsb (has_email e) (map (row_of header) good) = false ->
     good' = good).
Proof.
  intros Hw WF Hgood Hlong.
  destruct (contacts_well_formed _ WF)
    as [h [rows [E [ND [NE [Hreq [HL [_ [_ [Hp _]]]]]]]]]].
  injection E as <- <-.
  assert (Hemail : In "email" header) by (apply Hreq; simpl; tauto).
  set (good_r := Csv.read_text good) in *.
  set (long_r := map Csv.universal_newlines long).
  set (tail := filter (fun r => negb (Csv.is_blank r)) (Csv.read_text rest)).
  assert (Hlong_r : List.length header < List.length long_r)
    by (unfold long_r; now rewrite length_map).
  assert (Csv.read_text (header :: good ++ long :: rest)
          = header :: good_r ++ long_r :: Csv.read_text rest) as Htext.
  { unfold Csv.read_text at 1. simpl.
    rewrite (map_universal_plain header Hp), map_app. reflexivity. }
  assert (Csv.DictReader (header :: good_r ++ long_r :: Csv.read_text rest)
          = map (row_of header) good_r ++
            Csv.make_row header long_r :: map (Csv.make_row header) tail)
    as Hread.
  { unfold Csv.DictReader. rewrite filter_app, map_app. f_equal.
    - pose proof (DictReader_rows_of header good_r ND NE HL) as H.
      unfold Csv.DictReader in H. exact H.
    - simpl. destruct long_r as [|x long_r]; [simpl in Hlong_r; lia|].
      reflexivity. }
  assert (Forall (fun d => In (Some "email") (keys d))
                 (Csv.DictReader
                    (header :: good_r ++ long_r :: Csv.read_text rest)))
    as Hkeys.
  { rewrite Hread. apply Forall_app. split.
    - apply Forall_forall. intros d Hd.
      apply in_map_iff in Hd as [r [<- Hr]].
      rewrite Forall_forall in HL. apply email_in_row; auto.
    - constructor; [now apply make_row_keys_header|].
      apply Forall_forall. intros d Hd.
      apply in_map_iff in Hd as [r [<- _]].
      now apply make_row_keys_header. }
  set (today := Datetime.strftime_Ymd (clock (ticks w))).
  destruct (is_row_rows header
              (mark_first today e status notes (map (row_of header) good_r)))
    as [good' [HL' E']].
  { apply mark_first_is_row; [assumption|]. now apply rows_is_row. }
  assert (List.length good' = List.length good_r) as Hlen.
  { pose proof (f_equal (@List.length dict) E') as H.
    rewrite mark_first_length, !length_map in H. exact (eq_sym H). }
  assert (exists d ds,
            mark_first today e status notes
              (Csv.DictReader
                 (header :: good_r ++ long_r :: Csv.read_text rest))
            = map (row_of header) good' ++ d :: ds /\ In None (keys d))
    as [d [ds [Hmark Hd]]].
  { rewrite Hread, mark_first_app, E'.
    destruct (existsb (has_email e) (map (row_of header) good_r)).
    - eexists. eexists. split; [reflexivity|]. now apply make_row_long.
    - destruct (mark_first_head_key None today e status notes
                  (Csv.make_row header long_r)
                  (map (Csv.make_row header) tail)
                  (make_row_long header long_r Hlong_r)) as [d [ds [-> Hd]]].
      now exists d, ds. }
  exists (set_libraries_db (Some (header :: good'))
            (if existsb (has_email e)
                        (Csv.DictReader
                           (header :: good_r ++ long_r :: Csv.read_text rest))
             then tick w else w)).
  assert (existsb (has_email e) (map (row_of header) good_r) = false ->
          good' = good_r) as Hsame.
  { intro Hmiss. rewrite (mark_first_miss _ _ _ _ _ Hmiss) in E'.
    symmetry. now apply (TableFacts.rows_of_inj header good_r good'). }
  exists good'. split; [|split; [reflexivity|split; [|split]]].
  - unfold track_contact, bind, read_libraries_db. rewrite Hw, Htext.
    rewrite (track_loop_run clock e status notes _ w Hkeys).
    fold today. rewrite Hmark.
    destruct good' as [|r0 good'].
    { unfold good_r in Hlen. rewrite read_text_length in Hlen.
      destruct good; [congruence|discriminate Hlen]. }
    unfold Csv.write_dicts.
    change (map (row_of header) (r0 :: good') ++ d :: ds)
      with (row_of header r0 :: (map (row_of header) good' ++ d :: ds)).
    cbv beta iota.
    rewrite keys_row_of by now inversion HL'.
    change (row_of header r0 :: (map (row_of header) good' ++ d :: ds))
      with (map (row_of header) (r0 :: good') ++ d :: ds).
    rewrite (writerows_stop py_str header (r0 :: good') d ds ND HL' Hd).
    rewrite key_cell_Some. reflexivity.
  - exact (eq_trans Hlen (read_text_length good)).
  - exact Hsame.
  - intros Hplain Hmiss. unfold good_r in Hsame.
    rewrite (read_text_plain good Hplain) in Hsame. exact (Hsame Hmiss).
Qed.

Lemma track_contact_long_row_witness :
  exists w' good',
    track_contact Examples.clock Examples.py_str (VStr "nobody@example.org")
                  "enviado" ""
                  (mkWorld (Some Examples.long_row_store) None [] 0)
    = (w', Raise ValueError) /\
    libraries_db w' = Some (Examples.header :: good') /\
    List.length good' = 2 /\
    (existsb (has_email (VStr "nobody@example.org"))
             (map (row_of Examples.header)
                  (Csv.read_text (firstn 2 (tl Examples.long_row_store))))
     = false ->
     good' = Csv.read_text (firstn 2 (tl Examples.long_row_store))) /\
    (plain_cells (firstn 2 (tl Examples.long_row_store)) = true ->
     existsb (has_email (VStr "nobody@example.org"))
             (map (row_of Examples.header)
                  (firstn 2 (tl Examples.long_row_store))) = false ->
     good' = firstn 2 (tl Examples.long_row_store)).
Proof.
  apply (track_contact_long_row Examples.clock Examples.py_str
           (mkWorld (Some Examples.long_row_store) None [] 0)
           Examples.header
           (nth 2 (tl Examples.long_row_store) [])
           (firstn 2 (tl Examples.long_row_store))
           (skipn 3 (tl Examples.long_row_store))
           (VStr "nobody@example.org") "enviado" "").
  - reflexivity.
  - vm_compute. reflexivity.
  - discriminate.
  - vm_compute. lia.
Defined.

(* ------------------------------------------------------------------ *)
(** ** What [track_contact] keeps in a well-formed store *)

Lemma column_mark_first (k today : string) (e : value)
  (status notes : string) (ds : list dict) :
  ~ In k ["contactado"; "fecha_contacto"; "respuesta"; "notas"] ->
  map (lookup (Some k)) (mark_first today e status notes ds)
  = map (lookup (Some k)) ds.
Proof.
  intro Hk. induction ds as [|c ds IH]; simpl; [reflexivity|].
  destruct (has_email e c); simpl.
  - now rewrite lookup_mark_other.
  - now rewrite IH.
Qed.

(** X15: on a well-formed store with a data row, [track_contact], with
    any e-mail, status and notes, leaves a well-formed store with the
    same header and as many rows, in which every column other than
    [contactado], [fecha_contacto], [respuesta] and [notas] reads, row by
    row, as before: names, e-mails, regions and languages are never
    changed, moved or dropped. *)
Theorem track_contact_keeps_columns (clock : nat -> Datetime.datetime)
  (py_str : list string -> string) (w : world) (f : Csv.file) (e : value)
  (status notes : string) :
  libraries_db w = Some f -> well_formed f = true -> data_rows f <> [] ->
  exists w' f',
    track_contact clock py_str e status notes w = (w', Ok tt) /\
    libraries_db w' = Some f' /\
    well_formed f' = true /\ hd_error f' = hd_error f /\
    List.length f' = List.length f /\
    (forall k,
       ~ In k ["contactado"; "fecha_contacto"; "respuesta"; "notas"] ->
       map (lookup (Some k)) (contacts f') = map (lookup (Some k)) (contacts f)).
Proof.
  intros Hw WF Hrows.
  destruct (track_contact_well_formed clock py_str e status notes w f Hw WF)
    as [f' [Hrun [Hc [_ [Hshape _]]]]].
  destruct (Hshape Hrows) as [WF' [Hh Hl]].
  eexists. exists f'. split; [exact Hrun|]. split; [reflexivity|].
  repeat split; try assumption.
  intros k Hk. rewrite Hc. now apply column_mark_first.
Qed.

Lemma track_contact_keeps_columns_witness :
  exists w' f',
    track_contact Examples.clock Examples.py_str (VStr "info@vpl.ca")
                  "enviado" "" Examples.small_world = (w', Ok tt) /\
    libraries_db w' = Some f' /\
    well_formed f' = true /\ hd_error f' = hd_error Examples.small_store /\
    List.length f' = List.length Examples.small_store /\
    (forall k,
       ~ In k ["contactado"; "fecha_contacto"; "respuesta"; "notas"] ->
       map (lookup (Some k)) (contacts f')
       = map (lookup (Some k)) (contacts Examples.small_store)).
Proof.
  apply (track_contact_keeps_columns Examples.clock Examples.py_str
           Examples.small_world Examples.small_store).
  - reflexivity.
  - vm_compute. reflexivity.
  - discriminate.
Defined.
